(** * RoadMapAI: the learning-path generator step

    A shallow embedding of [src/steps/agents/generate_learning_path_step.py]:
    the fence-stripping JSON extraction, the four stage functions of
    [LearningPathGenerator], the graph that chains them and the event
    [handler], followed by the properties of the specification that were
    checked against them.

    Conventions of the embedding.
    - A Python [str] is the list of its code points ([pystr]).
    - Python dicts and lists are objects in a store ([heap]); a value
      refers to them by location, so that aliasing and in-place mutation
      are visible.
    - Stateful code runs in the monad [M]: a world (store, progress sink,
      log, emitted events, counters of model calls and of clock reads)
      is threaded, and a computation ends in a value or in a raised
      exception.
    - The collaborators that are not part of the repository are inputs:
      the process environment, the model client and the clock are the
      fields of [Env]; [json.loads] is the parameter [loads] of the code
      that calls it: a text is decoded or refused, as malformed
      ([json.JSONDecodeError]), as nested too deep ([RecursionError]) or
      as holding too long an integer ([ValueError]).  [RefJson.loads] is
      a reference decoder used where a concrete run is needed.
    - A call of the model client returns, raises an [Exception], or is
      cancelled ([asyncio.CancelledError], which is no [Exception]).
      The logger, the sink and the emitter are taken to return. *)

From Stdlib Require Import ZArith NArith QArith String Ascii List Bool Lia Sorted SpecFloat.
From Stdlib Require Import DecimalString.
From stdpp Require Import base list option numbers.
Import ListNotations.

#[local] Set Warnings "-register-all".
Close Scope Q_scope.
Open Scope Z_scope.

(** ** Python strings *)

Module PyStr.

Definition pystr := list N.

(** A literal of the source text, as code points. *)
Definition U (s : string) : pystr := map N_of_ascii (list_ascii_of_string s).

Definition eqb (a b : pystr) : bool := bool_decide (a = b).

(** [str.isspace] on one code point: the white space of Unicode, which
    is what [str.strip()] without argument removes. *)
Definition is_space (c : N) : bool :=
  ((9 <=? c) && (c <=? 13) || (28 <=? c) && (c <=? 32)
   || (c =? 133) || (c =? 160) || (c =? 5760)
   || (8192 <=? c) && (c <=? 8202)
   || (c =? 8232) || (c =? 8233) || (c =? 8239) || (c =? 8287)
   || (c =? 12288))%N.

Fixpoint lstrip (s : pystr) : pystr :=
  match s with
  | c :: s' => if is_space c then lstrip s' else s
  | [] => []
  end.

Definition rstrip (s : pystr) : pystr := rev (lstrip (rev s)).

(** [s.strip()] *)
Definition strip (s : pystr) : pystr := rstrip (lstrip s).

(** [s.startswith(p)] *)
Fixpoint startswith (s p : pystr) {struct p} : bool :=
  match p, s with
  | [], _ => true
  | _ :: _, [] => false
  | a :: p', b :: s' => (a =? b)%N && startswith s' p'
  end.

(** The text before the first occurrence of [sep] and the text after
    it, when there is one. *)
Fixpoint find_sep (sep s : pystr) : option (pystr * pystr) :=
  if startswith s sep then Some ([], drop (length sep) s)
  else match s with
       | [] => None
       | c :: s' =>
           match find_sep sep s' with
           | Some (a, b) => Some (c :: a, b)
           | None => None
           end
       end.

Fixpoint split_fuel (n : nat) (sep s : pystr) : list pystr :=
  match n with
  | O => [s]
  | S n' =>
      match find_sep sep s with
      | Some (a, b) => a :: split_fuel n' sep b
      | None => [s]
      end
  end.

(** [s.split(sep)] for a non-empty [sep]: every occurrence consumes at
    least one character, so [length s] rounds are enough. *)
Definition split (sep s : pystr) : list pystr := split_fuel (length s) sep s.

(** [sep in s] *)
Definition contains (sep s : pystr) : bool :=
  match find_sep sep s with Some _ => true | None => false end.

Definition backtick : N := 96%N.
Definition fence : pystr := [backtick; backtick; backtick].

End PyStr.
Import PyStr.

(** ** Dictionaries

    A Python [dict] with string keys, as the list of its items in
    insertion order. *)

Fixpoint dict_get {A} (k : pystr) (d : list (pystr * A)) : option A :=
  match d with
  | [] => None
  | (k', v) :: r => if PyStr.eqb k k' then Some v else dict_get k r
  end.

(** [d[k] = v]: a key already present keeps its place and takes the new
    value, a new key goes last. *)
Fixpoint dict_set {A} (k : pystr) (v : A) (d : list (pystr * A)) : list (pystr * A) :=
  match d with
  | [] => [(k, v)]
  | (k', v') :: r => if PyStr.eqb k k' then (k, v) :: r else (k', v') :: dict_set k v r
  end.

(** ** JSON values and a reference decoder *)

Inductive json : Type :=
| JNull
| JBool (b : bool)
| JInt (z : Z)
| JFloat (lexeme : pystr)       (* a number with a fraction or an exponent, kept as written *)
| JStr (s : pystr)
| JArr (items : list json)
| JObj (members : list (pystr * json)).

(** Why [json.loads] refuses a text. *)
Inductive failure : Type :=
| Malformed                 (* json.JSONDecodeError *)
| TooDeep                   (* RecursionError: one container too many to enter *)
| TooLong (digits : nat).   (* ValueError: an integer of more than 4300 digits *)

(** What [json.loads] does with a text. *)
Inductive decoding : Type :=
| Decoded (j : json)
| Refused (f : failure).

(** A reference decoder.  It follows the scanner of the [json] module:
    white space is space, tab, line feed and carriage return; strings
    are strict (no raw control character); the literals [NaN],
    [Infinity] and [-Infinity] are numbers; a repeated key keeps its
    first position and its last value; anything after the value but
    white space is an error.  The text is scanned from left to right,
    and the first refusal met is the outcome: an integer of more than
    [max_str_digits] digits stops the scan where it stands, and so does
    a container that lies deeper than [nesting_limit]. *)
Module RefJson.

(** [sys.int_info.default_max_str_digits] *)
Definition max_str_digits : nat := 4300.

(** The containers the decoder can be inside of: the recursion limit
    of the interpreter, 1000 unless it is changed, less the frames that
    are in use when [json.loads] is called. *)
Definition nesting_limit : nat := 900.

(** The outcome of scanning one value: the value and the text after
    it, or the refusal. *)
Inductive scanned : Type :=
| Scanned (j : json) (rest : pystr)
| Stopped (f : failure).

Definition is_ws (c : N) : bool := ((c =? 32) || (c =? 9) || (c =? 10) || (c =? 13))%N.

Fixpoint skip_ws (s : pystr) : pystr :=
  match s with
  | c :: s' => if is_ws c then skip_ws s' else s
  | [] => []
  end.

Definition is_digit (c : N) : bool := ((48 <=? c) && (c <=? 57))%N.

Definition hex_val (c : N) : option N :=
  if is_digit c then Some (c - 48)%N
  else if ((97 <=? c) && (c <=? 102))%N then Some (c - 87)%N
  else if ((65 <=? c) && (c <=? 70))%N then Some (c - 55)%N
  else None.

(** Four hexadecimal digits. *)
Definition hex4 (s : pystr) : option (N * pystr) :=
  match s with
  | a :: b :: c :: d :: r =>
      match hex_val a, hex_val b, hex_val c, hex_val d with
      | Some x, Some y, Some z, Some w => Some (((x * 16 + y) * 16 + z) * 16 + w, r)%N
      | _, _, _, _ => None
      end
  | _ => None
  end.

Definition simple_escape (c : N) : option N :=
  if (c =? 34)%N then Some 34%N          (* quote *)
  else if (c =? 92)%N then Some 92%N     (* backslash *)
  else if (c =? 47)%N then Some 47%N     (* slash *)
  else if (c =? 98)%N then Some 8%N      (* b *)
  else if (c =? 102)%N then Some 12%N    (* f *)
  else if (c =? 110)%N then Some 10%N    (* n *)
  else if (c =? 114)%N then Some 13%N    (* r *)
  else if (c =? 116)%N then Some 9%N     (* t *)
  else None.

(** The body of a string, after its opening quote. *)
Fixpoint scanstring (fuel : nat) (s acc : pystr) : option (pystr * pystr) :=
  match fuel with
  | O => None
  | S fuel' =>
      match s with
      | [] => None
      | c :: r =>
          if (c =? 34)%N then Some (rev acc, r)
          else if (c <? 32)%N then None
          else if (c =? 92)%N then
            match r with
            | [] => None
            | e :: r' =>
                if (e =? 117)%N then
                  match hex4 r' with
                  | None => None
                  | Some (u1, r1) =>
                      let lone := scanstring fuel' r1 (u1 :: acc) in
                      if ((55296 <=? u1) && (u1 <=? 56319))%N then
                        match r1 with
                        | 92%N :: 117%N :: r2 =>
                            match hex4 r2 with
                            | Some (u2, r3) =>
                                if ((56320 <=? u2) && (u2 <=? 57343))%N
                                then scanstring fuel' r3
                                       ((65536 + (u1 - 55296) * 1024 + (u2 - 56320))%N :: acc)
                                else lone
                            | None => lone
                            end
                        | _ => lone
                        end
                      else lone
                  end
                else
                  match simple_escape e with
                  | Some x => scanstring fuel' r' (x :: acc)
                  | None => None
                  end
            end
          else scanstring fuel' r (c :: acc)
      end
  end.

Fixpoint span_digits (s : pystr) : pystr * pystr :=
  match s with
  | c :: s' => if is_digit c then let (d, r) := span_digits s' in (c :: d, r) else ([], s)
  | [] => ([], [])
  end.

Definition digits_value (d : pystr) : Z :=
  fold_left (fun a c => 10 * a + Z.of_N (c - 48)) d 0.

(** The integer part of a number: [0] or a digit from 1 to 9 followed
    by digits. *)
Definition int_part (s : pystr) : option (pystr * pystr) :=
  match s with
  | c :: r =>
      if (c =? 48)%N then Some ([c], r)
      else if is_digit c then let (d, r') := span_digits r in Some (c :: d, r')
      else None
  | [] => None
  end.

Definition frac_part (s : pystr) : pystr * pystr :=
  match s with
  | 46%N :: r =>
      match span_digits r with
      | ([], _) => ([], s)
      | (d, r') => (46%N :: d, r')
      end
  | _ => ([], s)
  end.

Definition exp_part (s : pystr) : pystr * pystr :=
  match s with
  | e :: r =>
      if ((e =? 101) || (e =? 69))%N then
        let (sign, r1) :=
          match r with
          | g :: r0 => if ((g =? 43) || (g =? 45))%N then ([g], r0) else ([], r)
          | [] => ([], r)
          end in
        match span_digits r1 with
        | ([], _) => ([], s)
        | (d, r') => (e :: sign ++ d, r')
        end
      else ([], s)
  | [] => ([], s)
  end.

(** A number, when the text starts with one.  An integer is converted
    by [int], which refuses more than [max_str_digits] digits (the sign
    does not count); a number with a fraction or an exponent is a
    float, whatever its length. *)
Definition number (s : pystr) : option scanned :=
  let (neg, s1) := match s with
                   | 45%N :: r => (true, r)
                   | _ => (false, s)
                   end in
  match int_part s1 with
  | None => None
  | Some (ip, r1) =>
      let (fp, r2) := frac_part r1 in
      let (ep, r3) := exp_part r2 in
      match fp, ep with
      | [], [] =>
          if (max_str_digits <? length ip)%nat then Some (Stopped (TooLong (length ip)))
          else Some (Scanned (JInt (if neg then - digits_value ip else digits_value ip)) r3)
      | _, _ => Some (Scanned (JFloat ((if neg then [45%N] else []) ++ ip ++ fp ++ ep)) r3)
      end
  end.

Definition literal (s : pystr) : scanned :=
  if startswith s (U "null") then Scanned JNull (drop 4 s)
  else if startswith s (U "true") then Scanned (JBool true) (drop 4 s)
  else if startswith s (U "false") then Scanned (JBool false) (drop 5 s)
  else match number s with
       | Some r => r
       | None =>
           if startswith s (U "NaN") then Scanned (JFloat (U "NaN")) (drop 3 s)
           else if startswith s (U "Infinity") then Scanned (JFloat (U "Infinity")) (drop 8 s)
           else if startswith s (U "-Infinity") then Scanned (JFloat (U "-Infinity")) (drop 9 s)
           else Stopped Malformed
       end.

Section Composite.
(** The decoder of a value one nesting level down. *)
Variable value : pystr -> scanned.

(** The items of an array, from the first item on.  [fuel] bounds the
    number of items; the length of the text is enough. *)
Fixpoint elements (fuel : nat) (s : pystr) (acc : list json) : scanned :=
  match fuel with
  | O => Stopped Malformed
  | S fuel' =>
      match value s with
      | Stopped f => Stopped f
      | Scanned v r =>
          match skip_ws r with
          | 93%N :: r' => Scanned (JArr (rev (v :: acc))) r'
          | 44%N :: r' => elements fuel' (skip_ws r') (v :: acc)
          | _ => Stopped Malformed
          end
      end
  end.

(** The members of an object, from the first key on. *)
Fixpoint members (fuel : nat) (s : pystr) (acc : list (pystr * json)) : scanned :=
  match fuel with
  | O => Stopped Malformed
  | S fuel' =>
      match s with
      | 34%N :: r =>
          match scanstring (length r) r [] with
          | None => Stopped Malformed
          | Some (k, r1) =>
              match skip_ws r1 with
              | 58%N :: r2 =>
                  match value (skip_ws r2) with
                  | Stopped f => Stopped f
                  | Scanned v r3 =>
                      match skip_ws r3 with
                      | 125%N :: r' => Scanned (JObj (dict_set k v acc)) r'
                      | 44%N :: r' => members fuel' (skip_ws r') (dict_set k v acc)
                      | _ => Stopped Malformed
                      end
                  end
              | _ => Stopped Malformed
              end
          end
      | _ => Stopped Malformed
      end
  end.
End Composite.

(** One value.  [depth] is the number of containers that can still be
    entered: the scanner counts a level of recursion when it enters an
    array or an object, not for a string, a number or a literal. *)
Fixpoint value (depth : nat) (s : pystr) : scanned :=
  match s with
  | 34%N :: r =>
      match scanstring (length r) r [] with
      | Some (x, r') => Scanned (JStr x) r'
      | None => Stopped Malformed
      end
  | 91%N :: r =>
      match depth with
      | O => Stopped TooDeep
      | S depth' =>
          match skip_ws r with
          | 93%N :: r' => Scanned (JArr []) r'
          | r0 => elements (value depth') (length r0) r0 []
          end
      end
  | 123%N :: r =>
      match depth with
      | O => Stopped TooDeep
      | S depth' =>
          match skip_ws r with
          | 125%N :: r' => Scanned (JObj []) r'
          | r0 => members (value depth') (length r0) r0 []
          end
      end
  | _ => literal s
  end.

(** [json.loads(s)] on a [str], when [depth] containers can be
    entered. *)
Definition loads_within (depth : nat) (s : pystr) : decoding :=
  if startswith s [65279%N] then Refused Malformed
  else match value depth (skip_ws s) with
       | Scanned v r => match skip_ws r with [] => Decoded v | _ => Refused Malformed end
       | Stopped f => Refused f
       end.

Definition loads : pystr -> decoding := loads_within nesting_limit.

End RefJson.

(** ** Values, objects and the store *)

Abbreviation loc := nat.

Inductive val : Type :=
| VNone
| VBool (b : bool)
| VInt (z : Z)
| VFloat (lexeme : pystr)
| VStr (s : pystr)
| VRef (l : loc).             (* a dict or a list, by reference *)

Inductive obj : Type :=
| ODict (items : list (pystr * val))
| OList (items : list val).

Abbreviation heap := (list obj).

(** The objects [json.loads] builds for a decoded text: the parts
    first, then the container that holds them; every container is a new
    object. *)
Fixpoint alloc (j : json) (h : heap) : val * heap :=
  match j with
  | JNull => (VNone, h)
  | JBool b => (VBool b, h)
  | JInt z => (VInt z, h)
  | JFloat x => (VFloat x, h)
  | JStr s => (VStr s, h)
  | JArr js =>
      let '(vs, h1) :=
        (fix items (js : list json) (h : heap) : list val * heap :=
           match js with
           | [] => ([], h)
           | j :: r =>
               let '(v, h1) := alloc j h in
               let '(vs, h2) := items r h1 in
               (v :: vs, h2)
           end) js h in
      (VRef (length h1), h1 ++ [OList vs])
  | JObj kvs =>
      let '(d, h1) :=
        (fix items (kvs : list (pystr * json)) (h : heap) : list (pystr * val) * heap :=
           match kvs with
           | [] => ([], h)
           | (k, j) :: r =>
               let '(v, h1) := alloc j h in
               let '(d, h2) := items r h1 in
               ((k, v) :: d, h2)
           end) kvs h in
      (VRef (length h1), h1 ++ [ODict d])
  end.

(** ** Exceptions, messages, the world *)

Inductive exn : Type :=
| ValueError (msg : pystr)
| KeyError (key : pystr)
| TypeError
| AttributeError
| IndexError
| ZeroDivisionError
| JSONDecodeError
| RecursionError
| GraphRecursionError
| ModelCallError (msg : pystr)    (* whatever [Exception] the model client raises *)
| CancelledError.                 (* asyncio.CancelledError: a [BaseException], no [Exception] *)

(** [isinstance(e, Exception)] *)
Definition is_Exception (e : exn) : bool :=
  match e with
  | CancelledError => false
  | _ => true
  end.

Inductive outcome (A : Type) : Type :=
| Ret (a : A)
| Raise (e : exn).
Arguments Ret {A} a.
Arguments Raise {A} e.

(** An f-string, as its pieces: literal text, an interpolated integer,
    the [str()] of an exception. *)
Inductive piece : Type :=
| Lit (s : pystr)
| Num (n : Z)
| Err (e : exn).

Definition message := list piece.

(** The record [_stream_update] and the handler hand to the sink. *)
Record update : Type := {
  u_stage : pystr;
  u_message : message;
  u_progress : Z;
  u_timestamp : Z
}.

(** One call [streams.learningPathCreation.set(key, channel, value)]. *)
Record sink_call : Type := {
  s_key : val;
  s_channel : pystr;
  s_value : update
}.

Inductive level : Type := INFO | ERROR.

(** The events handed to [emit]. *)
Inductive event : Type :=
| Generated (userId topic learningPath traceId : val) (completedAt : Z)
| Failed (userId topic : val) (error : exn) (traceId : val).

Definition event_topic (e : event) : pystr :=
  match e with
  | Generated _ _ _ _ _ => U "learning.path.generated"
  | Failed _ _ _ _ => U "learning.path.failed"
  end.

Record World : Type := {
  store : heap;
  sink : list sink_call;          (* calls of the streaming sink, oldest first *)
  log : list (level * message);   (* logger lines, oldest first *)
  emitted : list event;           (* events emitted, oldest first *)
  model_calls : nat;              (* calls of the model client so far *)
  clock_reads : nat               (* readings of the clock so far *)
}.

(** What a run is given from outside. *)
Inductive reply : Type :=
| Content (text : pystr)          (* [response.content] *)
| Failure (msg : pystr)           (* the call raised an [Exception] *)
| Cancelled.                      (* the task was cancelled while it awaited the call *)

Record Env : Type := {
  GROQ_API_KEY : option pystr;    (* [os.environ.get('GROQ_API_KEY')] *)
  model : nat -> reply;           (* the outcome of the n-th model call *)
  now_ms : nat -> Z;              (* [int(datetime.now().timestamp() * 1000)] at the n-th reading *)
  now_iso : nat -> pystr          (* [datetime.now().isoformat()] at the n-th reading *)
}.

(** ** The monad of stateful code that may raise *)

Definition M (A : Type) : Type := World -> outcome A * World.

Definition ret {A} (a : A) : M A := fun w => (Ret a, w).

Definition raise {A} (e : exn) : M A := fun w => (Raise e, w).

Definition bind {A B} (m : M A) (k : A -> M B) : M B :=
  fun w =>
    match m w with
    | (Ret a, w') => k a w'
    | (Raise e, w') => (Raise e, w')
    end.

Notation "'let*' x ':=' m 'in' k" := (bind m (fun x => k))
  (at level 10, x name, m at level 100, k at level 200).
Notation "'do' m 'then' k" := (bind m (fun _ => k))
  (at level 10, m at level 100, k at level 200).

(** [try: body except <caught>: handler] *)
Definition try_except {A} (body : M A) (caught : exn -> bool) (handler : exn -> M A) : M A :=
  fun w =>
    match body w with
    | (Ret a, w') => (Ret a, w')
    | (Raise e, w') => if caught e then handler e w' else (Raise e, w')
    end.

Definition when (b : bool) (m : M unit) : M unit := if b then m else ret tt.

Definition lift {A} (r : outcome A) : M A := fun w => (r, w).

Definition set_store (h : heap) (w : World) : World :=
  {| store := h; sink := sink w; log := log w; emitted := emitted w;
     model_calls := model_calls w; clock_reads := clock_reads w |}.

(** One more call of the model client. *)
Definition count_call (w : World) : World :=
  {| store := store w; sink := sink w; log := log w; emitted := emitted w;
     model_calls := S (model_calls w); clock_reads := clock_reads w |}.

(** A new object. *)
Definition new (o : obj) : M val :=
  fun w => (Ret (VRef (length (store w))), set_store (store w ++ [o]) w).

Definition logger_call (lv : level) (msg : message) : M unit :=
  fun w => (Ret tt,
            {| store := store w; sink := sink w; log := log w ++ [(lv, msg)];
               emitted := emitted w; model_calls := model_calls w;
               clock_reads := clock_reads w |}).

Definition sink_set (key : val) (channel : pystr) (u : update) : M unit :=
  fun w => (Ret tt,
            {| store := store w;
               sink := sink w ++ [{| s_key := key; s_channel := channel; s_value := u |}];
               log := log w; emitted := emitted w; model_calls := model_calls w;
               clock_reads := clock_reads w |}).

Definition emit_call (e : event) : M unit :=
  fun w => (Ret tt,
            {| store := store w; sink := sink w; log := log w;
               emitted := emitted w ++ [e]; model_calls := model_calls w;
               clock_reads := clock_reads w |}).

(** ** Operations of Python on values *)

(** [v.get(k, default)]: only a dict has [get].  The default is built
    when the key is missing. *)
Definition py_get (v : val) (k : pystr) (default : M val) : M val :=
  fun w =>
    match v with
    | VRef l =>
        match store w !! l with
        | Some (ODict d) =>
            match dict_get k d with
            | Some x => (Ret x, w)
            | None => default w
            end
        | _ => (Raise AttributeError, w)
        end
    | _ => (Raise AttributeError, w)
    end.

(** [v[k]] for a string [k] *)
Definition py_getitem (v : val) (k : pystr) : M val :=
  fun w =>
    match v with
    | VRef l =>
        match store w !! l with
        | Some (ODict d) =>
            match dict_get k d with
            | Some x => (Ret x, w)
            | None => (Raise (KeyError k), w)
            end
        | _ => (Raise TypeError, w)
        end
    | _ => (Raise TypeError, w)
    end.

(** [v[k] = x] for a string [k] *)
Definition py_setitem (v : val) (k : pystr) (x : val) : M unit :=
  fun w =>
    match v with
    | VRef l =>
        match store w !! l with
        | Some (ODict d) => (Ret tt, set_store (<[l := ODict (dict_set k x d)]> (store w)) w)
        | _ => (Raise TypeError, w)
        end
    | _ => (Raise TypeError, w)
    end.

(** [v.append(x)] *)
Definition py_append (v : val) (x : val) : M unit :=
  fun w =>
    match v with
    | VRef l =>
        match store w !! l with
        | Some (OList xs) => (Ret tt, set_store (<[l := OList (xs ++ [x])]> (store w)) w)
        | _ => (Raise AttributeError, w)
        end
    | _ => (Raise AttributeError, w)
    end.

(** [len(v)] *)
Definition py_len (v : val) : M Z :=
  fun w =>
    match v with
    | VStr s => (Ret (Z.of_nat (length s)), w)
    | VRef l =>
        match store w !! l with
        | Some (ODict d) => (Ret (Z.of_nat (length d)), w)
        | Some (OList xs) => (Ret (Z.of_nat (length xs)), w)
        | None => (Raise TypeError, w)
        end
    | _ => (Raise TypeError, w)
    end.

(** The items a [for] loop over [v] visits: the items of a list, the
    keys of a dict, the characters of a string. *)
Definition py_iter (v : val) : M (list val) :=
  fun w =>
    match v with
    | VStr s => (Ret (map (fun c => VStr [c]) s), w)
    | VRef l =>
        match store w !! l with
        | Some (ODict d) => (Ret (map (fun kv => VStr (fst kv)) d), w)
        | Some (OList xs) => (Ret xs, w)
        | None => (Raise TypeError, w)
        end
    | _ => (Raise TypeError, w)
    end.

Fixpoint join_strs (sep : pystr) (xs : list val) : outcome pystr :=
  match xs with
  | [] => Ret []
  | x :: r =>
      match x with
      | VStr s =>
          match r with
          | [] => Ret s
          | _ :: _ =>
              match join_strs sep r with
              | Ret t => Ret (s ++ sep ++ t)
              | Raise e => Raise e
              end
          end
      | _ => Raise TypeError
      end
  end.

(** [sep.join(v)]: every item must be a string. *)
Definition py_join (sep : pystr) (v : val) : M pystr :=
  let* xs := py_iter v in lift (join_strs sep xs).

(** [for idx, x in enumerate(xs): body], counting from [idx]. *)
Fixpoint for_enumerate (body : nat -> val -> M unit) (idx : nat) (xs : list val) : M unit :=
  match xs with
  | [] => ret tt
  | x :: r => do body idx x then for_enumerate body (S idx) r
  end.

(** [l[i]] on a list of strings *)
Definition py_index (l : list pystr) (i : nat) : outcome pystr :=
  match l !! i with
  | Some x => Ret x
  | None => Raise IndexError
  end.

(** [None] or a string, as a value. *)
Definition of_opt (o : option pystr) : val :=
  match o with
  | Some s => VStr s
  | None => VNone
  end.

(** [str(x)] for [None] or a string, as an f-string renders it. *)
Definition str_of (o : option pystr) : pystr :=
  match o with
  | Some s => s
  | None => U "None"
  end.

(** Truth value of [None] or a string. *)
Definition truthy (o : option pystr) : bool :=
  match o with
  | Some (_ :: _) => true
  | _ => false
  end.

(** [x / y] on integers, then [int(_ * 15)], with exact rationals in
    place of binary64. *)
Definition py_truediv (x y : Z) : outcome Q :=
  if y =? 0 then Raise ZeroDivisionError else Ret (Qmake x 1 / Qmake y 1)%Q.

Definition py_int (q : Q) : Z := Z.quot (Qnum q) (Zpos (Qden q)).

(** ** The request, the context, the pipeline state *)

(** The payload of [learning.path.requested].  A field is [None] when
    the key is absent; [req_preferences] is the value stored under
    [preferences], an object of the store. *)
Record Request : Type := {
  req_userId : option pystr;
  req_topic : option pystr;
  req_background : option pystr;
  req_goalLevel : option pystr;
  req_preferences : option val;
  req_traceId : option pystr
}.

(** The attributes of [ctx] the handler reads: which collaborators are
    there, and the trace id. *)
Record Ctx : Type := {
  ctx_logger : bool;
  ctx_emit : bool;
  ctx_streams : bool;
  ctx_traceId : option pystr
}.

(** The state dict of the graph; its keys are those [generate] sets. *)
Record State : Type := {
  user_id : option pystr;
  topic : option pystr;
  background : option pystr;
  goal_level : pystr;
  preferences : val;
  trace_id : option pystr;
  analysis : val;
  curriculum_structure : val;
  enriched_modules : val;
  final_path : val;
  progress : Z;
  current_stage : pystr;
  error : val
}.

(** The attributes of a [LearningPathGenerator]. *)
Record Generator : Type := {
  logger : bool;
  streams : bool;
  emit_fn : bool;
  self_trace_id : option pystr
}.

(** The three assignments that end a stage. *)
Definition set_analysis (st : State) (v : val) : State :=
  {| user_id := user_id st; topic := topic st; background := background st;
     goal_level := goal_level st; preferences := preferences st; trace_id := trace_id st;
     analysis := v; curriculum_structure := curriculum_structure st;
     enriched_modules := enriched_modules st; final_path := final_path st;
     progress := 20; current_stage := U "analyzing"; error := error st |}.

Definition set_curriculum_structure (st : State) (v : val) : State :=
  {| user_id := user_id st; topic := topic st; background := background st;
     goal_level := goal_level st; preferences := preferences st; trace_id := trace_id st;
     analysis := analysis st; curriculum_structure := v;
     enriched_modules := enriched_modules st; final_path := final_path st;
     progress := 60; current_stage := U "generating"; error := error st |}.

Definition set_enriched_modules (st : State) (v : val) : State :=
  {| user_id := user_id st; topic := topic st; background := background st;
     goal_level := goal_level st; preferences := preferences st; trace_id := trace_id st;
     analysis := analysis st; curriculum_structure := curriculum_structure st;
     enriched_modules := v; final_path := final_path st;
     progress := 90; current_stage := U "enriching"; error := error st |}.

Definition set_final_path (st : State) (v : val) : State :=
  {| user_id := user_id st; topic := topic st; background := background st;
     goal_level := goal_level st; preferences := preferences st; trace_id := trace_id st;
     analysis := analysis st; curriculum_structure := curriculum_structure st;
     enriched_modules := enriched_modules st; final_path := v;
     progress := 100; current_stage := U "completed"; error := error st |}.

(** ** The generator and the handler *)

Section Step.

(** [json.loads] on the text of a value. *)
Variable loads : pystr -> decoding.

Variable E : Env.

Definition clock_ms : M Z :=
  fun w => (Ret (now_ms E (clock_reads w)),
            {| store := store w; sink := sink w; log := log w; emitted := emitted w;
               model_calls := model_calls w; clock_reads := S (clock_reads w) |}).

Definition clock_iso : M pystr :=
  fun w => (Ret (now_iso E (clock_reads w)),
            {| store := store w; sink := sink w; log := log w; emitted := emitted w;
               model_calls := model_calls w; clock_reads := S (clock_reads w) |}).

(** [(await self.llm.ainvoke(...)).content] *)
Definition ainvoke : M pystr :=
  fun w =>
    match model E (model_calls w) with
    | Content text => (Ret text, count_call w)
    | Failure msg => (Raise (ModelCallError msg), count_call w)
    | Cancelled => (Raise CancelledError, count_call w)
    end.

(** What [json.loads] raises when it refuses a text. *)
Definition decode_error (f : failure) : exn :=
  match f with
  | Malformed => JSONDecodeError
  | TooDeep => RecursionError
  | TooLong digits =>
      ValueError
        (U "Exceeds the limit (4300 digits) for integer string conversion: value has "
         ++ U (NilZero.string_of_uint (Nat.to_uint digits))
         ++ U " digits; use sys.set_int_max_str_digits() to increase the limit")
  end.

(** The text between [try:] and [json.loads] (lines 187-194, and again
    266-273), with the decoding: the decoded value, or what is raised. *)
Definition extract_json (text : pystr) : outcome json :=
  let content := strip text in
  let fenced :=
    if startswith content fence then
      match py_index (split fence content) 1 with
      | Ret content => Ret (if startswith content (U "json") then drop 4 content else content)
      | Raise e => Raise e
      end
    else Ret content in
  match fenced with
  | Ret content =>
      match loads (strip content) with
      | Decoded j => Ret j
      | Refused f => Raise (decode_error f)
      end
  | Raise e => Raise e
  end.

(** The same, with the objects of the decoded value put in the store. *)
Definition parse_response (text : pystr) : M val :=
  let* j := lift (extract_json text) in
  fun w => let '(v, h) := alloc j (store w) in (Ret v, set_store h w).

Definition is_JSONDecodeError (e : exn) : bool :=
  match e with
  | JSONDecodeError => true
  | _ => false
  end.

(** [LearningPathGenerator.__init__] *)
Definition init (logger streams emit : bool) (trace_id : option pystr) : M Generator :=
  if truthy (GROQ_API_KEY E)
  then ret {| logger := logger; streams := streams; emit_fn := emit; self_trace_id := trace_id |}
  else raise (ValueError (U "GROQ_API_KEY environment variable not set")).

Definition _stream_update (self : Generator) (stage : pystr) (msg : message) (progress : Z)
  : M unit :=
  do when (streams self && truthy (self_trace_id self))
       (let* t := clock_ms in
        sink_set (of_opt (self_trace_id self)) (U "learningPath")
          {| u_stage := stage; u_message := msg; u_progress := progress; u_timestamp := t |})
  then when (logger self)
         (logger_call INFO ([Lit [128202%N; 32%N]; Lit stage; Lit (U ": ")] ++ msg)).

(** Node 1 *)
Definition _analyze_background (self : Generator) (state : State) : M State :=
  do _stream_update self (U "analyzing")
       [Lit (U "Analyzing your background for "); Lit (str_of (topic state)); Lit (U "...")] 15
  then
  let* response := ainvoke in
  let analysis := strip response in
  do when (logger self) (logger_call INFO [Lit [9989%N]; Lit (U " Background analysis completed")])
  then ret (set_analysis state (VStr analysis)).

(** The dict of the [except] branch of node 2 (lines 199-204). *)
Definition fallback_curriculum (state : State) (modules : val) : list (pystr * val) :=
  [(U "title", VStr (U "Learning Path: " ++ str_of (topic state)));
   (U "description", analysis state);
   (U "total_hours", VInt 30);
   (U "modules", modules)].

(** Node 2 *)
Definition _generate_curriculum (self : Generator) (state : State) : M State :=
  do _stream_update self (U "generating")
       [Lit (U "Creating curriculum structure for "); Lit (str_of (topic state)); Lit (U "...")] 40
  then
  let* response := ainvoke in
  let* curriculum :=
    try_except (parse_response response) is_JSONDecodeError
      (fun e =>
         do when (logger self) (logger_call ERROR [Lit (U "Failed to parse curriculum JSON")])
         then
         let* modules := new (OList []) in
         new (ODict (fallback_curriculum state modules))) in
  do when (logger self)
       (let* modules := py_get curriculum (U "modules") (new (OList [])) in
        let* n := py_len modules in
        logger_call INFO [Lit [9989%N]; Lit (U " Curriculum structure generated")])
  then ret (set_curriculum_structure state curriculum).

(** The values the prompt of one module interpolates. *)
Definition resource_prompt (module preferences : val) : M (list val) :=
  let* title := py_getitem module (U "title") in
  let* description := py_get module (U "description") (ret (VStr [])) in
  let* key_concepts := py_get module (U "key_concepts") (new (OList [])) in
  let* concepts := py_join (U ", ") key_concepts in
  let* videos := py_get preferences (U "includeVideos") (ret (VBool true)) in
  let* articles := py_get preferences (U "includeArticles") (ret (VBool true)) in
  let* docs := py_get preferences (U "includeDocs") (ret (VBool true)) in
  ret [title; description; VStr concepts; videos; articles; docs].

(** The [try] statement of the loop of node 3 (lines 265-276). *)
Definition attach_resources (module : val) (response : pystr) : M unit :=
  try_except
    (let* resources_data := parse_response response in
     let* resources := py_get resources_data (U "resources") (new (OList [])) in
     py_setitem module (U "resources") resources)
    is_JSONDecodeError
    (fun _ =>
       let* resources := new (OList []) in
       py_setitem module (U "resources") resources).

(** [75 + int(done / total * 15)] *)
Definition interpolate (done total : Z) : outcome Z :=
  match py_truediv done total with
  | Ret ratio => Ret (75 + py_int (ratio * Qmake 15 1)%Q)
  | Raise e => Raise e
  end.

(** The progress update of the loop of node 3 (lines 280-286). *)
Definition report_enriched (self : Generator) (curriculum : val) (idx : nat) : M unit :=
  let* modules := py_get curriculum (U "modules") (new (OList [])) in
  let* total := py_len modules in
  let* progress := lift (interpolate (Z.of_nat idx + 1) total) in
  let* modules := py_get curriculum (U "modules") (new (OList [])) in
  let* total := py_len modules in
  _stream_update self (U "enriching")
    [Lit (U "Enriched module "); Num (Z.of_nat idx + 1); Lit (U "/"); Num total] progress.

(** The body of the loop of node 3 (lines 232-286). *)
Definition enrich_module (self : Generator) (curriculum preferences enriched : val)
    (idx : nat) (module : val) : M unit :=
  let* prompt := resource_prompt module preferences in
  let* response := ainvoke in
  do attach_resources module response then
  do py_append enriched module then
  report_enriched self curriculum idx.

(** Node 3 *)
Definition _enrich_resources (self : Generator) (state : State) : M State :=
  do _stream_update self (U "enriching") [Lit (U "Finding the best learning resources...")] 75
  then
  let curriculum := curriculum_structure state in
  let preferences := preferences state in
  let* enriched_modules := new (OList []) in
  let* modules := py_get curriculum (U "modules") (new (OList [])) in
  let* items := py_iter modules in
  do for_enumerate (enrich_module self curriculum preferences enriched_modules) 0 items
  then
  do when (logger self)
       (let* n := py_len enriched_modules in
        logger_call INFO [Lit [9989%N]; Lit (U " Resources enriched")])
  then ret (set_enriched_modules state enriched_modules).

(** Node 4 *)
Definition _finalize_path (self : Generator) (state : State) : M State :=
  do _stream_update self (U "completed")
       [Lit (U "Your "); Lit (str_of (topic state)); Lit (U " learning path is ready! ");
        Lit [127881%N]] 100
  then
  let curriculum := curriculum_structure state in
  do py_setitem curriculum (U "modules") (enriched_modules state) then
  let* created := clock_iso in
  let* final_path :=
    new (ODict [(U "userId", of_opt (user_id state));
                (U "topic", of_opt (topic state));
                (U "background", of_opt (background state));
                (U "goalLevel", VStr (goal_level state));
                (U "preferences", preferences state);
                (U "analysis", analysis state);
                (U "curriculum", curriculum);
                (U "createdAt", VStr created);
                (U "traceId", of_opt (trace_id state))]) in
  do when (logger self)
       (let* modules := py_get curriculum (U "modules") (new (OList [])) in
        let* n := py_len modules in
        logger_call INFO [Lit [127881%N]; Lit (U " Learning path finalized")])
  then ret (set_final_path state final_path).

(** The graph of [_build_graph]: four nodes, the entry point and the
    edges; [None] is [END]. *)
Inductive node : Type :=
| analyze_background
| generate_curriculum
| enrich_resources
| finalize_path.

Definition entry_point : node := analyze_background.

Definition edge (n : node) : option node :=
  match n with
  | analyze_background => Some generate_curriculum
  | generate_curriculum => Some enrich_resources
  | enrich_resources => Some finalize_path
  | finalize_path => None
  end.

Definition run_node (self : Generator) (n : node) : State -> M State :=
  match n with
  | analyze_background => _analyze_background self
  | generate_curriculum => _generate_curriculum self
  | enrich_resources => _enrich_resources self
  | finalize_path => _finalize_path self
  end.

(** The compiled graph runs the node, then the node its edge leads to,
    for at most [limit] steps. *)
Fixpoint run_from (limit : nat) (self : Generator) (n : node) (state : State) : M State :=
  match limit with
  | O => raise GraphRecursionError
  | S limit' =>
      let* state' := run_node self n state in
      match edge n with
      | Some n' => run_from limit' self n' state'
      | None => ret state'
      end
  end.

Definition recursion_limit : nat := 25.

(** [self.graph.ainvoke(initial_state)] *)
Definition graph_ainvoke (self : Generator) (initial_state : State) : M State :=
  run_from recursion_limit self entry_point initial_state.

(** [req.get('preferences', {})] *)
Definition get_preferences (req : Request) : M val :=
  match req_preferences req with
  | Some v => ret v
  | None => new (ODict [])
  end.

(** [req.get('goalLevel', 'intermediate')] *)
Definition get_goalLevel (req : Request) : pystr :=
  match req_goalLevel req with
  | Some s => s
  | None => U "intermediate"
  end.

(** [LearningPathGenerator.generate] *)
Definition generate (self : Generator) (req : Request) : M val :=
  let* preferences := get_preferences req in
  let initial_state :=
    {| user_id := req_userId req; topic := req_topic req; background := req_background req;
       goal_level := get_goalLevel req; preferences := preferences;
       trace_id := req_traceId req;
       analysis := VNone; curriculum_structure := VNone; enriched_modules := VNone;
       final_path := VNone; progress := 0; current_stage := U "analyzing"; error := VNone |} in
  let* final_state := graph_ainvoke self initial_state in
  ret (final_path final_state).

(** The record the handler upserts when the run failed. *)
Definition error_update (error : exn) (t : Z) : update :=
  {| u_stage := U "error";
     u_message := [Lit (U "Failed to generate learning path: "); Err error];
     u_progress := 0;
     u_timestamp := t |}.

(** The [try] block of the handler. *)
Definition handler_try (logger streams emit : bool) (trace_id user_id topic : option pystr)
    (req : Request) : M unit :=
  let* generator := init logger streams emit trace_id in
  let* learning_path := generate generator req in
  do when emit
       (let* t := clock_ms in
        emit_call (Generated (of_opt user_id) (of_opt topic) learning_path (of_opt trace_id) t))
  then
  when logger
    (logger_call INFO
       [Lit [127881%N]; Lit (U " Learning path generation completed successfully")]).

(** The [except Exception as error] block of the handler. *)
Definition handler_except (logger streams emit : bool) (trace_id user_id topic : option pystr)
    (error : exn) : M unit :=
  do when logger
       (logger_call ERROR [Lit [10060%N]; Lit (U " Learning path generation failed")])
  then
  do when (streams && truthy trace_id)
       (let* t := clock_ms in
        sink_set (of_opt trace_id) (U "learningPath") (error_update error t))
  then
  when emit (emit_call (Failed (of_opt user_id) (of_opt topic) error (of_opt trace_id))).

(** [req.get('traceId') or getattr(ctx, 'traceId', None)] *)
Definition handler_trace_id (req : Request) (ctx : option Ctx) : option pystr :=
  if truthy (req_traceId req) then req_traceId req
  else match ctx with
       | Some c => ctx_traceId c
       | None => None
       end.

Definition has_logger (ctx : option Ctx) : bool :=
  match ctx with Some c => ctx_logger c | None => false end.

Definition has_emit (ctx : option Ctx) : bool :=
  match ctx with Some c => ctx_emit c | None => false end.

Definition has_streams (ctx : option Ctx) : bool :=
  match ctx with Some c => ctx_streams c | None => false end.

(** What the handler does before its [try]: it reads the request and
    logs the activation. *)
Definition handler_enter (req : Request) (ctx : option Ctx) : M unit :=
  let* preferences := get_preferences req in
  when (has_logger ctx) (logger_call INFO [Lit [129302%N]; Lit (U " LangGraph Agent activated")]).

(** [handler(req, ctx)] *)
Definition handler (req : Request) (ctx : option Ctx) : M unit :=
  let logger := has_logger ctx in
  let emit := has_emit ctx in
  let streams := has_streams ctx in
  let trace_id := handler_trace_id req ctx in
  let user_id := req_userId req in
  let topic := req_topic req in
  do handler_enter req ctx then
  try_except
    (handler_try logger streams emit trace_id user_id topic req)
    is_Exception
    (handler_except logger streams emit trace_id user_id topic).

End Step.

(** The progress values the sink has been given, oldest first. *)
Definition progress_trace (w : World) : list Z :=
  map (fun c => u_progress (s_value c)) (sink w).

(** A text of the source or of a model reply, written with ['] for the
    double quote. *)
Definition J (s : string) : pystr :=
  map (fun c => if (c =? 39)%N then 34%N else c) (U s).

Definition nl : pystr := [10%N].

(** [s] ends in a backtick. *)
Definition ends_with_backtick (s : pystr) : bool :=
  match rev s with
  | c :: _ => (c =? backtick)%N
  | [] => false
  end.

Definition all_space (s : pystr) : bool := forallb is_space s.

Definition no_backtick (s : pystr) : bool := forallb (fun c => negb (c =? backtick)%N) s.

(** The value reported after [k] modules out of [n]. *)
Definition progress_at (n : nat) (k : nat) : Z := 75 + (Z.of_nat k * 15) / Z.of_nat n.

(** The generator reports to the sink. *)
Definition streaming (self : Generator) : bool := streams self && truthy (self_trace_id self).

(** The value of [progress] a node leaves in the state. *)
Definition node_progress (n : node) : Z :=
  match n with
  | analyze_background => 20
  | generate_curriculum => 60
  | enrich_resources => 90
  | finalize_path => 100
  end.

(** The four fields the nodes fill in, in the order of the graph. *)
Definition fields (state : State) : val * val * val * val :=
  (analysis state, curriculum_structure state, enriched_modules state, final_path state).

(** The handler reports to the sink. *)
Definition observing (req : Request) (ctx : option Ctx) : bool :=
  has_streams ctx && truthy (handler_trace_id req ctx).

(** The [try] block of the handler, run where the handler runs it. *)
Definition run_outcome (loads : pystr -> decoding) (E : Env) (req : Request)
    (ctx : option Ctx) (w : World) : outcome unit * World :=
  handler_try loads E (has_logger ctx) (has_streams ctx) (has_emit ctx)
    (handler_trace_id req ctx) (req_userId req) (req_topic req) req
    (snd (handler_enter req ctx w)).

(** The call of the sink in the [except] block. *)
Definition error_call (E : Env) (req : Request) (ctx : option Ctx) (error : exn) (w : World)
  : sink_call :=
  {| s_key := of_opt (handler_trace_id req ctx);
     s_channel := U "learningPath";
     s_value := error_update error (now_ms E (clock_reads w)) |}.

(** The event of the [except] block. *)
Definition failed_event (req : Request) (ctx : option Ctx) (error : exn) : event :=
  Failed (of_opt (req_userId req)) (of_opt (req_topic req)) error
    (of_opt (handler_trace_id req ctx)).

(** [m] only adds objects to the store, and it does not raise
    [ZeroDivisionError]. *)
Definition grows {A} (m : M A) : Prop :=
  forall w, (exists ext, snd (m w) = set_store (store w ++ ext) w) /\
            fst (m w) <> Raise ZeroDivisionError.

(** The store after one round: objects [e] were added, the module at
    [l] got its [resources], the list at [le] got the module. *)
Definition round_store (h e : heap) (l le : loc) (d : list (pystr * val)) (x : val)
    (done : list val) : heap :=
  <[le := OList (done ++ [VRef l])]> (<[l := ODict (dict_set (U "resources") x d)]> (h ++ e)).

(** [m] leaves the sink as it is, and it does not raise
    [ZeroDivisionError]. *)
Definition quiet {A} (m : M A) : Prop :=
  forall w, sink (snd (m w)) = sink w /\ fst (m w) <> Raise ZeroDivisionError.

(** [v] is a dict that has a [resources] entry. *)
Definition has_resources (h : heap) (v : val) : Prop :=
  exists (l : loc) (d : list (pystr * val)) (x : val),
    v = VRef l /\ h !! l = Some (ODict d) /\ dict_get (U "resources") d = Some x.

(** The objects the loop of node 3 works on: the curriculum dict at
    [lc], its list of modules [ms] at [lm], and the list of the modules
    enriched so far, [done], at [le]. *)
Definition loop_inv (lc lm le : loc) (ms done : list val) (h : heap) : Prop :=
  (exists dc, h !! lc = Some (ODict dc) /\ dict_get (U "modules") dc = Some (VRef lm)) /\
  h !! lm = Some (OList ms) /\
  h !! le = Some (OList done) /\
  le <> lm /\
  Forall (has_resources h) done.

(** ** The progress formula in binary64

    [interpolate] takes the quotient exactly.  Python evaluates
    [int((idx + 1) / total * 15)] in binary64: the division and the
    product are rounded to nearest-even, [int] truncates. *)
Module Binary64.

Definition of_Z (z : Z) : spec_float := binary_normalize 53 1024 z 0 false.

(** [int(x)] on a finite float. *)
Definition to_Z (x : spec_float) : Z :=
  match x with
  | S754_finite s m e =>
      let v := if 0 <=? e then Zpos m * 2 ^ e else Zpos m / 2 ^ (- e) in
      if s then - v else v
  | _ => 0
  end.

Definition interpolate (done total : Z) : Z :=
  75 + to_Z (SFmul 53 1024 (SFdiv 53 1024 (of_Z done) (of_Z total)) (of_Z 15)).

(** The two evaluations agree for every count of modules up to [bound]. *)
Definition agrees_up_to (bound : nat) : bool :=
  forallb
    (fun n => forallb (fun k => interpolate (Z.of_nat k) (Z.of_nat n) =? progress_at n k)
                (seq 1 n))
    (seq 1 bound).

End Binary64.

(** ** Concrete runs

    A request, a context and canned replies of the model, for running
    the code on concrete inputs. *)

Definition empty_world : World :=
  {| store := []; sink := []; log := []; emitted := []; model_calls := 0; clock_reads := 0 |}.

Definition demo_env (key : option pystr) (replies : list reply) : Env :=
  {| GROQ_API_KEY := key;
     model := fun n => List.nth n replies (Failure (U "no reply"));
     now_ms := fun n => 1000 + Z.of_nat n;
     now_iso := fun _ => U "2025-01-01T00:00:00" |}.

Definition demo_req : Request :=
  {| req_userId := Some (U "u1"); req_topic := Some (U "Rust");
     req_background := Some (U "knows C"); req_goalLevel := Some (U "advanced");
     req_preferences := None; req_traceId := Some (U "t1") |}.

Definition demo_ctx : Ctx :=
  {| ctx_logger := true; ctx_emit := true; ctx_streams := true; ctx_traceId := None |}.

Definition demo_self : Generator :=
  {| logger := true; streams := true; emit_fn := true; self_trace_id := Some (U "t1") |}.

(** A curriculum of two modules, in a fence. *)
Definition curriculum_reply : pystr :=
  U "```json" ++ nl
  ++ J "{'title': 'Rust', 'modules': [{'title': 'A', 'key_concepts': ['x', 'y']}, {'title': 'B'}]}"
  ++ nl ++ U "```".

Definition resources_reply : pystr := J "{'resources': [{'type': 'video', 'title': 'V'}]}".

Definition other_reply : pystr := J "{'items': []}".

(** The replies of a run that succeeds: the analysis, the curriculum,
    a reply that is not JSON for the first module, resources for the
    second. *)
Definition good_replies : list reply :=
  [Content (U " knows C, wants Rust "); Content curriculum_reply;
   Content (U "not json"); Content resources_reply].

(** The store when the loop of node 3 starts in that run: the
    preferences, the objects of the curriculum, the list of the
    enriched modules. *)
Definition demo_store : heap :=
  [ODict [];
   OList [VStr (U "x"); VStr (U "y")];
   ODict [(U "title", VStr (U "A")); (U "key_concepts", VRef 1)];
   ODict [(U "title", VStr (U "B"))];
   OList [VRef 2; VRef 3];
   ODict [(U "title", VStr (U "Rust")); (U "modules", VRef 4)];
   OList []].

Definition demo_loop_world : World :=
  {| store := demo_store; sink := []; log := []; emitted := [];
     model_calls := 2; clock_reads := 0 |}.

(** The state and the world when node 3 starts in that run. *)
Definition demo_state2 : State :=
  {| user_id := Some (U "u1"); topic := Some (U "Rust"); background := Some (U "knows C");
     goal_level := U "advanced"; preferences := VRef 0; trace_id := Some (U "t1");
     analysis := VStr (U "knows C, wants Rust"); curriculum_structure := VRef 5;
     enriched_modules := VNone; final_path := VNone;
     progress := 60; current_stage := U "generating"; error := VNone |}.

Definition demo_world2 : World :=
  {| store := take 6 demo_store; sink := []; log := []; emitted := [];
     model_calls := 2; clock_reads := 0 |}.

(** A generator that neither logs nor reports. *)
Definition silent_self : Generator :=
  {| logger := false; streams := false; emit_fn := false; self_trace_id := None |}.

(** The replies of a run whose curriculum reply is not JSON. *)
Definition fallback_replies : list reply :=
  [Content (U "knows C"); Content (U "Here is your curriculum!")].

(** The state and the world when node 3 starts in that run. *)
Definition fallback_state2 : State :=
  {| user_id := Some (U "u1"); topic := Some (U "Rust"); background := Some (U "knows C");
     goal_level := U "advanced"; preferences := VRef 0; trace_id := Some (U "t1");
     analysis := VStr (U "knows C"); curriculum_structure := VRef 2;
     enriched_modules := VNone; final_path := VNone;
     progress := 60; current_stage := U "generating"; error := VNone |}.

Definition fallback_world2 : World :=
  {| store := [ODict []; OList [];
               ODict [(U "title", VStr (U "Learning Path: Rust"));
                      (U "description", VStr (U "knows C"));
                      (U "total_hours", VInt 30);
                      (U "modules", VRef 1)]];
     sink := []; log := []; emitted := []; model_calls := 2; clock_reads := 0 |}.

(** The state when the graph starts in that run. *)
Definition demo_state0 : State :=
  {| user_id := Some (U "u1"); topic := Some (U "Rust"); background := Some (U "knows C");
     goal_level := U "advanced"; preferences := VRef 0; trace_id := Some (U "t1");
     analysis := VNone; curriculum_structure := VNone;
     enriched_modules := VNone; final_path := VNone;
     progress := 0; current_stage := U "analyzing"; error := VNone |}.

Definition demo_world0 : World :=
  {| store := [ODict []]; sink := []; log := []; emitted := [];
     model_calls := 0; clock_reads := 0 |}.

(** ** Relations between the world before and after *)

(** Whatever [m] does, the world it leaves is related by [R] to the
    world it was given. *)
Definition preserves {A} (R : World -> World -> Prop) (m : M A) : Prop :=
  forall w, R w (snd (m w)).

(** The stages the nodes report. *)
Definition node_stages : list pystr :=
  [U "analyzing"; U "generating"; U "enriching"; U "completed"].

(** The keys of existing dicts a node assigns. *)
Definition writes (n : node) (k : pystr) : Prop :=
  match n with
  | enrich_resources => k = U "resources"
  | finalize_path => k = U "modules"
  | _ => False
  end.

(** From store [h] to store [h']: every list is still there, with items
    added at its end at most; every dict is still there with its keys,
    and with the same values but under the keys [writable]. *)
Definition frame (writable : pystr -> Prop) (h h' : heap) : Prop :=
  forall l : loc,
    (forall xs, h !! l = Some (OList xs) -> exists ys, h' !! l = Some (OList (xs ++ ys))) /\
    (forall d, h !! l = Some (ODict d) ->
       exists d', h' !! l = Some (ODict d') /\
                  (forall k x, dict_get k d = Some x -> exists x', dict_get k d' = Some x') /\
                  (forall k, ~ writable k -> dict_get k d' = dict_get k d)).

Definition store_frame (writable : pystr -> Prop) (w w' : World) : Prop :=
  frame writable (store w) (store w').

(** From store [h] to store [h'], for the objects below location [n]:
    every list is still there as it was; every dict is still there with
    its keys, and with the same values but under the keys [writable]. *)
Definition kept_below (n : nat) (writable : pystr -> Prop) (h h' : heap) : Prop :=
  forall l : loc, (l < n)%nat ->
    (forall xs, h !! l = Some (OList xs) -> h' !! l = Some (OList xs)) /\
    (forall d, h !! l = Some (ODict d) ->
       exists d', h' !! l = Some (ODict d') /\
                  (forall k x, dict_get k d = Some x -> exists x', dict_get k d' = Some x') /\
                  (forall k, ~ writable k -> dict_get k d' = dict_get k d)).

Definition store_kept (n : nat) (writable : pystr -> Prop) (w w' : World) : Prop :=
  kept_below n writable (store w) (store w').

(** Objects were added to the store, and that is all. *)
Definition store_extended (w w' : World) : Prop :=
  exists ext, store w' = store w ++ ext.

Definition same_emitted (w w' : World) : Prop := emitted w' = emitted w.

Definition same_calls (w w' : World) : Prop := model_calls w' = model_calls w.

(** A call of the sink under the trace id [tid], on the channel
    [learningPath], for one of the stages. *)
Definition reported_by (tid : option pystr) (c : sink_call) : Prop :=
  s_key c = of_opt tid /\
  s_channel c = U "learningPath" /\
  In (u_stage (s_value c)) (U "error" :: node_stages).

Definition sink_adds (P : sink_call -> Prop) (w w' : World) : Prop :=
  exists cs, sink w' = sink w ++ cs /\ Forall P cs.

(** A decoded value that is a JSON object. *)
Definition is_object (j : json) : bool :=
  match j with
  | JObj _ => true
  | _ => false
  end.

(** A value under [modules] that the loop of node 3 cannot use: not a
    list, and not empty either (an empty string or an empty dict gives
    no round). *)
Definition not_modules (h : heap) (x : val) : bool :=
  match x with
  | VStr s => match s with [] => false | _ :: _ => true end
  | VRef l =>
      match h !! l with
      | Some (ODict (_ :: _)) => true
      | _ => false
      end
  | _ => true
  end.

(** An item of [modules] the loop of node 3 cannot take the title of:
    it is no dict, or a dict without [title]. *)
Definition untitled (h : heap) (v : val) : bool :=
  match v with
  | VRef l =>
      match h !! l with
      | Some (ODict d) => match dict_get (U "title") d with Some _ => false | None => true end
      | Some (OList _) => true
      | None => false
      end
  | _ => true
  end.

(** The dict that node 4 builds (lines 311-321). *)
Definition final_path_items (state : State) (created : pystr) : list (pystr * val) :=
  [(U "userId", of_opt (user_id state));
   (U "topic", of_opt (topic state));
   (U "background", of_opt (background state));
   (U "goalLevel", VStr (goal_level state));
   (U "preferences", preferences state);
   (U "analysis", analysis state);
   (U "curriculum", curriculum_structure state);
   (U "createdAt", VStr created);
   (U "traceId", of_opt (trace_id state))].

(** The JSON value that a value of the store stands for: the converse
    of [alloc].  [fuel] bounds the depth. *)
Fixpoint read_all (f : val -> option json) (xs : list val) : option (list json) :=
  match xs with
  | [] => Some []
  | x :: r =>
      match f x, read_all f r with
      | Some j, Some js => Some (j :: js)
      | _, _ => None
      end
  end.

Fixpoint read_items (f : val -> option json) (d : list (pystr * val))
  : option (list (pystr * json)) :=
  match d with
  | [] => Some []
  | (k, x) :: r =>
      match f x, read_items f r with
      | Some j, Some js => Some ((k, j) :: js)
      | _, _ => None
      end
  end.

Fixpoint read (fuel : nat) (h : heap) (v : val) : option json :=
  match fuel with
  | O => None
  | S fuel' =>
      match v with
      | VNone => Some JNull
      | VBool b => Some (JBool b)
      | VInt z => Some (JInt z)
      | VFloat x => Some (JFloat x)
      | VStr s => Some (JStr s)
      | VRef l =>
          match h !! l with
          | Some (OList xs) => option_map JArr (read_all (read fuel' h) xs)
          | Some (ODict d) => option_map JObj (read_items (read fuel' h) d)
          | None => None
          end
      end
  end.

(** The state and the world when node 2 starts in the run of
    [good_replies], for a generator that neither logs nor reports. *)
Definition demo_state1 : State := set_analysis demo_state0 (VStr (U "knows C, wants Rust")).

Definition demo_world1 : World :=
  {| store := [ODict []]; sink := []; log := []; emitted := [];
     model_calls := 1; clock_reads := 0 |}.

(** What [curriculum_reply] decodes to. *)
Definition demo_curriculum : json :=
  JObj [(U "title", JStr (U "Rust"));
        (U "modules",
         JArr [JObj [(U "title", JStr (U "A"));
                     (U "key_concepts", JArr [JStr (U "x"); JStr (U "y")])];
               JObj [(U "title", JStr (U "B"))]])].

(** A reply that is JSON, and a list. *)
Definition list_reply : pystr := J "[1, 2]".

(** A reply that is an integer of 4301 digits, and what [int] says of
    it. *)
Definition long_integer : pystr := repeat 49%N 4301.

Definition too_long_message : pystr :=
  U "Exceeds the limit (4300 digits) for integer string conversion: value has 4301 digits; use sys.set_int_max_str_digits() to increase the limit".

(** A reply that opens 1000 arrays. *)
Definition deep_reply : pystr := repeat 91%N 1000.

(** A curriculum whose [modules] is a string. *)
Definition text_modules_world : World :=
  {| store := [ODict []; OList []; ODict [(U "modules", VStr (U "soon"))]];
     sink := []; log := []; emitted := []; model_calls := 2; clock_reads := 0 |}.

(** A curriculum whose only module has a [name] and no [title]. *)
Definition untitled_world : World :=
  {| store := [ODict [(U "name", VStr (U "A"))]; OList [VRef 0];
               ODict [(U "modules", VRef 1)]];
     sink := []; log := []; emitted := []; model_calls := 2; clock_reads := 0 |}.

(** The state and the world when node 4 starts in the run of
    [fallback_replies]. *)
Definition fallback_state3 : State := set_enriched_modules fallback_state2 (VRef 3).

Definition fallback_world3 : World :=
  {| store := store fallback_world2 ++ [OList []];
     sink := []; log := []; emitted := []; model_calls := 2; clock_reads := 0 |}.

(** * Properties *)

(** ** Strings *)

Lemma lstrip_app (a b : pystr) :
  lstrip (a ++ b) = if all_space a then lstrip b else lstrip a ++ b.
Proof.
  induction a as [|c a IH]; simpl; [reflexivity|].
  destruct (is_space c); simpl; [exact IH | reflexivity].
Qed.

Lemma lstrip_suffix (s : pystr) : exists w, s = w ++ lstrip s.
Proof.
  induction s as [|c s [w IH]]; simpl.
  - exists []. reflexivity.
  - destruct (is_space c).
    + exists (c :: w). simpl. congruence.
    + exists []. reflexivity.
Qed.

Lemma rstrip_prefix (s : pystr) : exists w, s = rstrip s ++ w.
Proof.
  unfold rstrip. destruct (lstrip_suffix (rev s)) as [w Hw].
  exists (rev w). rewrite <- rev_app_distr, <- Hw, rev_involutive. reflexivity.
Qed.

Lemma rstrip_app_space (s ws : pystr) :
  all_space ws = true -> rstrip (s ++ ws) = rstrip s.
Proof.
  intros H. unfold rstrip. rewrite rev_app_distr, lstrip_app.
  assert (Hr : all_space (rev ws) = true).
  { unfold all_space in *. rewrite forallb_forall in *.
    intros x Hx. apply H. apply in_rev. exact Hx. }
  rewrite Hr. reflexivity.
Qed.

Lemma lstrip_head (c : N) (s : pystr) : is_space c = false -> lstrip (c :: s) = c :: s.
Proof. intros H. simpl. rewrite H. reflexivity. Qed.

Lemma rstrip_cons_head (c : N) (s : pystr) :
  is_space c = false -> exists y, rstrip (c :: s) = c :: y.
Proof.
  intros H. unfold rstrip. simpl rev. rewrite lstrip_app.
  destruct (all_space (rev s)).
  - rewrite lstrip_head by exact H. exists []. reflexivity.
  - rewrite rev_app_distr. simpl. eexists. reflexivity.
Qed.

Lemma lstrip_idem (s : pystr) : lstrip (lstrip s) = lstrip s.
Proof.
  induction s as [|c s IH]; simpl; [reflexivity|].
  destruct (is_space c) eqn:Hc; [exact IH|]. simpl. rewrite Hc. reflexivity.
Qed.

Lemma lstrip_nonspace (s : pystr) :
  lstrip s = [] \/ exists c r, lstrip s = c :: r /\ is_space c = false.
Proof.
  induction s as [|c s IH]; simpl; [left; reflexivity|].
  destruct (is_space c) eqn:Hc; [exact IH|]. right. eauto.
Qed.

Lemma strip_idem (s : pystr) : strip (strip s) = strip s.
Proof.
  unfold strip.
  destruct (lstrip_nonspace s) as [H | (c & r & H & Hc)]; rewrite H.
  - reflexivity.
  - destruct (rstrip_cons_head c r Hc) as [y Hy]. rewrite Hy.
    rewrite lstrip_head by exact Hc. rewrite <- Hy.
    unfold rstrip. rewrite rev_involutive, lstrip_idem. reflexivity.
Qed.

Lemma strip_surrounded (a s b : pystr) :
  all_space a = true -> all_space b = true -> strip (a ++ s ++ b) = strip s.
Proof.
  intros Ha Hb. unfold strip. rewrite lstrip_app, Ha, lstrip_app.
  destruct (all_space s) eqn:Hs.
  - assert (H1 : lstrip b = []).
    { clear -Hb. induction b as [|c b IH]; simpl in *; [reflexivity|].
      apply andb_true_iff in Hb as [Hc Hb]. rewrite Hc. auto. }
    assert (H2 : lstrip s = []).
    { clear -Hs. induction s as [|c s IH]; simpl in *; [reflexivity|].
      apply andb_true_iff in Hs as [Hc Hs]. rewrite Hc. auto. }
    rewrite H1, H2. reflexivity.
  - apply rstrip_app_space. exact Hb.
Qed.

Lemma startswith_app (a b p : pystr) :
  startswith a p = true -> startswith (a ++ b) p = true.
Proof.
  revert a. induction p as [|x p IH]; intros a H; [reflexivity|].
  destruct a as [|y a]; simpl in *; [discriminate|].
  apply andb_true_iff in H as [H1 H2]. rewrite H1. simpl. auto.
Qed.

Lemma startswith_self_app (p b : pystr) : startswith (p ++ b) p = true.
Proof.
  induction p as [|x p IH]; simpl; [reflexivity|].
  rewrite N.eqb_refl. exact IH.
Qed.

Lemma contains_tail (sep : pystr) (c : N) (s : pystr) :
  contains sep (c :: s) = false -> contains sep s = false.
Proof.
  unfold contains. simpl.
  destruct (startswith (c :: s) sep); [discriminate|].
  destruct (find_sep sep s) as [[a b]|]; [discriminate | reflexivity].
Qed.

Lemma contains_head (sep s : pystr) :
  contains sep s = false -> startswith s sep = false.
Proof.
  unfold contains. destruct s as [|c s]; simpl.
  - destruct (startswith [] sep); [discriminate | reflexivity].
  - destruct (startswith (c :: s) sep); [discriminate | reflexivity].
Qed.

Lemma contains_suffix (sep a s : pystr) :
  contains sep (a ++ s) = false -> contains sep s = false.
Proof.
  induction a as [|c a IH]; simpl; [auto|].
  intros H. apply IH. eapply contains_tail. exact H.
Qed.

Lemma strip_no_fence (s : pystr) :
  contains fence s = false -> startswith (strip s) fence = false.
Proof.
  intros H. unfold strip.
  destruct (lstrip_suffix s) as [a Ha].
  assert (H1 : contains fence (lstrip s) = false).
  { apply (contains_suffix fence a). rewrite <- Ha. exact H. }
  destruct (rstrip_prefix (lstrip s)) as [b Hb].
  destruct (startswith (rstrip (lstrip s)) fence) eqn:Hs; [|reflexivity].
  apply (startswith_app _ b) in Hs. rewrite <- Hb in Hs.
  apply contains_head in H1. congruence.
Qed.

Lemma all_space_no_backtick (s : pystr) : all_space s = true -> no_backtick s = true.
Proof.
  unfold all_space, no_backtick. rewrite !forallb_forall.
  intros H x Hx. specialize (H x Hx).
  destruct (x =? backtick)%N eqn:Hb; [|reflexivity].
  apply N.eqb_eq in Hb. subst x. discriminate H.
Qed.

Lemma find_sep_cons (sep : pystr) (c : N) (s : pystr) :
  find_sep sep (c :: s) =
    if startswith (c :: s) sep then Some ([], drop (length sep) (c :: s))
    else match find_sep sep s with
         | Some (a, b) => Some (c :: a, b)
         | None => None
         end.
Proof. reflexivity. Qed.

Lemma startswith_cons (a b : N) (p s : pystr) :
  startswith (b :: s) (a :: p) = (a =? b)%N && startswith s p.
Proof. reflexivity. Qed.

Lemma startswith_fence_other (c : N) (s : pystr) :
  (c =? backtick)%N = false -> startswith (c :: s) fence = false.
Proof.
  intros H. unfold fence. rewrite startswith_cons, N.eqb_sym, H. reflexivity.
Qed.

Lemma find_sep_skip (c : N) (s : pystr) :
  (c =? backtick)%N = false ->
  find_sep fence (c :: s) =
    match find_sep fence s with
    | Some (a, b) => Some (c :: a, b)
    | None => None
    end.
Proof.
  intros H. rewrite find_sep_cons, startswith_fence_other by exact H. reflexivity.
Qed.

Lemma find_sep_skip_all (p s a b : pystr) :
  no_backtick p = true ->
  find_sep fence s = Some (a, b) ->
  find_sep fence (p ++ s) = Some (p ++ a, b).
Proof.
  intros Hp Hs. induction p as [|c p IH]; [exact Hs|].
  simpl in Hp. apply andb_true_iff in Hp as [Hc Hp].
  apply negb_true_iff in Hc.
  change ((c :: p) ++ s) with (c :: (p ++ s)).
  rewrite find_sep_skip by exact Hc. rewrite (IH Hp). reflexivity.
Qed.

Lemma ends_with_backtick_tail (c d : N) (s : pystr) :
  ends_with_backtick (c :: d :: s) = ends_with_backtick (d :: s).
Proof.
  unfold ends_with_backtick. simpl.
  destruct (rev s ++ [d]) as [|x r] eqn:Hr.
  - destruct (rev s); discriminate Hr.
  - reflexivity.
Qed.

(** The text up to the closing fence is found whole when it holds no
    fence of its own and no backtick touches the closing fence. *)
Lemma find_sep_closing (s q : pystr) :
  contains fence s = false ->
  ends_with_backtick s = false ->
  no_backtick q = true ->
  find_sep fence (s ++ q ++ fence) = Some (s ++ q, []).
Proof.
  intros Hc He Hq. induction s as [|c s IH].
  - simpl app. rewrite <- (app_nil_r q) at 2.
    apply find_sep_skip_all; [exact Hq | reflexivity].
  - assert (Hhead : startswith ((c :: s) ++ q ++ fence) fence = false).
    { apply contains_head in Hc.
      destruct (c =? backtick)%N eqn:Hcb.
      2:{ apply startswith_fence_other. exact Hcb. }
      apply N.eqb_eq in Hcb. subst c.
      destruct s as [|c2 s].
      { discriminate He. }
      destruct (c2 =? backtick)%N eqn:Hc2.
      2:{ change (startswith (backtick :: c2 :: (s ++ q ++ fence)) fence = false).
          unfold fence. rewrite !startswith_cons, (N.eqb_sym backtick c2), Hc2.
          apply andb_false_r. }
      apply N.eqb_eq in Hc2. subst c2.
      destruct s as [|c3 s].
      { discriminate He. }
      exact Hc. }
    assert (Hrec : find_sep fence (s ++ q ++ fence) = Some (s ++ q, [])).
    { apply IH.
      - eapply contains_tail. exact Hc.
      - destruct s as [|d s]; [reflexivity|].
        rewrite ends_with_backtick_tail in He. exact He. }
    change ((c :: s) ++ q ++ fence) with (c :: (s ++ q ++ fence)) in Hhead |- *.
    rewrite find_sep_cons, Hhead, Hrec. reflexivity.
Qed.

Lemma split_fenced (x : pystr) :
  find_sep fence (x ++ fence) = Some (x, []) ->
  split fence (fence ++ x ++ fence) !! 1%nat = Some x.
Proof.
  intros H. unfold split.
  change (length (fence ++ x ++ fence)) with (S (S (S (length (x ++ fence))))).
  change (split_fuel (S (S (S (length (x ++ fence))))) fence (fence ++ x ++ fence))
    with ([] :: match find_sep fence (x ++ fence) with
                | Some (a, b) => a :: split_fuel (S (length (x ++ fence))) fence b
                | None => [x ++ fence]
                end).
  rewrite H. reflexivity.
Qed.

Lemma rstrip_last (y : pystr) (c : N) :
  is_space c = false -> rstrip (y ++ [c]) = y ++ [c].
Proof.
  intros H. unfold rstrip. rewrite rev_app_distr. simpl app.
  rewrite lstrip_head by exact H. simpl. rewrite rev_involutive. reflexivity.
Qed.

Lemma strip_fenced (a x b : pystr) :
  all_space a = true -> all_space b = true ->
  strip (a ++ (fence ++ x ++ fence) ++ b) = fence ++ x ++ fence.
Proof.
  intros Ha Hb. rewrite strip_surrounded by assumption.
  unfold strip.
  change (fence ++ x ++ fence) with (backtick :: ([backtick; backtick] ++ x ++ fence)).
  rewrite lstrip_head by reflexivity.
  replace (backtick :: [backtick; backtick] ++ x ++ fence)
    with ((fence ++ x ++ [backtick; backtick]) ++ [backtick]).
  - apply rstrip_last. reflexivity.
  - unfold fence. rewrite <- !app_assoc. reflexivity.
Qed.

Lemma split_fuel_head (n : nat) (sep s : pystr) : exists a r, split_fuel n sep s = a :: r.
Proof.
  destruct n as [|n]; simpl; [eauto|].
  destruct (find_sep sep s) as [[a b]|]; eauto.
Qed.

(** A text that starts with a fence splits in two parts at least, so
    that taking the second part does not fail. *)
Lemma split_fence_second (c : pystr) :
  startswith c fence = true -> exists x, split fence c !! 1%nat = Some x.
Proof.
  intros H. destruct c as [|c0 c]; [discriminate H|].
  unfold split. cbn [length split_fuel]. rewrite find_sep_cons, H.
  destruct (split_fuel_head (length c) fence (drop (length fence) (c0 :: c))) as (a & r & Hs).
  rewrite Hs. exists a. reflexivity.
Qed.

(** Extraction raises what [json.loads] raises, and nothing else. *)
Lemma extract_json_raises (loads : pystr -> decoding) (text : pystr) (e : exn) :
  extract_json loads text = Raise e -> exists f, e = decode_error f.
Proof.
  unfold extract_json, py_index.
  destruct (startswith (strip text) fence) eqn:Hf.
  - destruct (split_fence_second _ Hf) as [x Hx]. rewrite Hx.
    destruct (loads _) as [j|f]; [discriminate|].
    intros H. exists f. congruence.
  - destruct (loads _) as [j|f]; [discriminate|].
    intros H. exists f. congruence.
Qed.

Lemma decode_error_not_division (f : failure) : decode_error f <> ZeroDivisionError.
Proof. destruct f; discriminate. Qed.

Lemma decode_error_caught (f : failure) :
  is_JSONDecodeError (decode_error f) = true -> decode_error f = JSONDecodeError.
Proof. destruct f; [reflexivity | discriminate | discriminate]. Qed.

Lemma decode_error_Exception (f : failure) : is_Exception (decode_error f) = true.
Proof. destruct f; reflexivity. Qed.

(** ** C5 *)

(** C5, as stated, fails: the JSON text of the string made of three
    backticks decodes on its own, and wrapped in a fence tagged [json]
    the split cuts it at its own backticks, so that decoding fails. *)
Lemma fenced_json_differs :
  let s := J "'```'" in
  RefJson.loads s = Decoded (JStr fence) /\
  extract_json RefJson.loads s = Ret (JStr fence) /\
  extract_json RefJson.loads (U "```json" ++ nl ++ s ++ nl ++ U "```") = Raise JSONDecodeError.
Proof. vm_compute. repeat split. Qed.

(** C5 (amended): for every text [s] that holds no run of three
    backticks and does not end in a backtick, extraction from [s]
    wrapped in a fence tagged [json], with white space around the fence
    and around [s], gives what extraction from [s] gives: the same
    decoded value, or the same error. *)
Theorem extract_json_fenced (loads : pystr -> decoding) (s ws1 ws2 ws3 ws4 : pystr) :
  all_space ws1 = true -> all_space ws2 = true ->
  all_space ws3 = true -> all_space ws4 = true ->
  contains fence s = false ->
  ends_with_backtick s = false ->
  extract_json loads (ws1 ++ (fence ++ (U "json" ++ ws2 ++ s ++ ws3) ++ fence) ++ ws4)
  = extract_json loads s.
Proof.
  intros H1 H2 H3 H4 Hc He. unfold extract_json.
  rewrite strip_fenced by assumption.
  rewrite startswith_self_app.
  assert (Hf : find_sep fence ((U "json" ++ ws2 ++ s ++ ws3) ++ fence)
               = Some (U "json" ++ ws2 ++ s ++ ws3, [])).
  { rewrite <- !app_assoc. rewrite (app_assoc (U "json") ws2).
    replace (U "json" ++ ws2 ++ s ++ ws3) with ((U "json" ++ ws2) ++ s ++ ws3)
      by (rewrite <- app_assoc; reflexivity).
    rewrite (app_assoc s ws3).
    apply find_sep_skip_all.
    - unfold no_backtick. rewrite forallb_app. apply andb_true_iff. split.
      + reflexivity.
      + apply all_space_no_backtick. exact H2.
    - rewrite <- app_assoc. apply find_sep_closing; try assumption.
      apply all_space_no_backtick. exact H3. }
  unfold py_index. rewrite (split_fenced _ Hf).
  rewrite startswith_self_app.
  change (drop 4 (U "json" ++ ws2 ++ s ++ ws3)) with (ws2 ++ s ++ ws3).
  rewrite strip_surrounded by assumption.
  rewrite (strip_no_fence s Hc). rewrite strip_idem. reflexivity.
Qed.

Lemma extract_json_fenced_witness :
  extract_json RefJson.loads
    ([32%N] ++ (fence ++ (U "json" ++ nl ++ J "{'a': [1, 2]}" ++ nl) ++ fence) ++ nl)
  = extract_json RefJson.loads (J "{'a': [1, 2]}").
Proof.
  apply (extract_json_fenced RefJson.loads (J "{'a': [1, 2]}") [32%N] nl nl nl); reflexivity.
Defined.

(** ** Running monadic code *)

Lemma bind_ret_eq {A B} (m : M A) (k : A -> M B) (w w1 : World) (a : A) :
  m w = (Ret a, w1) -> bind m k w = k a w1.
Proof. intros H. unfold bind. rewrite H. reflexivity. Qed.

Lemma bind_raise_eq {A B} (m : M A) (k : A -> M B) (w w1 : World) (e : exn) :
  m w = (Raise e, w1) -> bind m k w = (Raise e, w1).
Proof. intros H. unfold bind. rewrite H. reflexivity. Qed.

Lemma lookup_snoc (h : heap) (o : obj) : (h ++ [o]) !! length h = Some o.
Proof. rewrite lookup_app_r by lia. rewrite Nat.sub_diag. reflexivity. Qed.

Lemma lookup_snoc_old (h : heap) (o : obj) (l : loc) (x : obj) :
  h !! l = Some x -> (h ++ [o]) !! l = Some x.
Proof. intros H. rewrite lookup_app_l; [exact H | eapply lookup_lt_Some; exact H]. Qed.

Lemma py_get_found (l : loc) (k : pystr) (dflt : M val) (w : World)
    (d : list (pystr * val)) (x : val) :
  store w !! l = Some (ODict d) -> dict_get k d = Some x ->
  py_get (VRef l) k dflt w = (Ret x, w).
Proof. intros H1 H2. unfold py_get. rewrite H1, H2. reflexivity. Qed.

Lemma py_get_missing (l : loc) (k : pystr) (dflt : M val) (w : World)
    (d : list (pystr * val)) :
  store w !! l = Some (ODict d) -> dict_get k d = None ->
  py_get (VRef l) k dflt w = dflt w.
Proof. intros H1 H2. unfold py_get. rewrite H1, H2. reflexivity. Qed.

Lemma py_len_list (l : loc) (w : World) (xs : list val) :
  store w !! l = Some (OList xs) -> py_len (VRef l) w = (Ret (Z.of_nat (length xs)), w).
Proof. intros H. unfold py_len. rewrite H. reflexivity. Qed.

Ltac exec :=
  unfold bind, try_except, when, ret, raise, lift, new, logger_call, sink_set, emit_call,
    set_store;
  cbn [store sink log emitted model_calls clock_reads fst snd andb orb negb
       is_JSONDecodeError logger streams emit_fn self_trace_id].

(** ** Dictionaries and the store *)

Lemma eqb_refl (k : pystr) : PyStr.eqb k k = true.
Proof. unfold PyStr.eqb. apply bool_decide_eq_true. reflexivity. Qed.

Lemma eqb_neq (k k' : pystr) : k <> k' -> PyStr.eqb k k' = false.
Proof. intros H. unfold PyStr.eqb. apply bool_decide_eq_false. exact H. Qed.

Lemma eqb_eq (k k' : pystr) : PyStr.eqb k k' = true -> k = k'.
Proof. unfold PyStr.eqb. apply bool_decide_eq_true. Qed.

Lemma dict_get_set_eq {A} (k : pystr) (v : A) (d : list (pystr * A)) :
  dict_get k (dict_set k v d) = Some v.
Proof.
  induction d as [|[k' v'] d IH]; simpl.
  - rewrite eqb_refl. reflexivity.
  - destruct (PyStr.eqb k k') eqn:Hk; simpl.
    + rewrite eqb_refl. reflexivity.
    + rewrite Hk. exact IH.
Qed.

Lemma dict_get_set_ne {A} (k k' : pystr) (v : A) (d : list (pystr * A)) :
  k <> k' -> dict_get k (dict_set k' v d) = dict_get k d.
Proof.
  intros Hne. induction d as [|[k0 v0] d IH]; simpl.
  - rewrite eqb_neq by exact Hne. reflexivity.
  - destruct (PyStr.eqb k' k0) eqn:Hk; simpl.
    + apply eqb_eq in Hk. subst k0. rewrite eqb_neq by exact Hne. reflexivity.
    + rewrite IH. reflexivity.
Qed.

Lemma dict_get_keys {A B} (k : pystr) (d1 : list (pystr * A)) (d2 : list (pystr * B)) :
  map fst d1 = map fst d2 -> dict_get k d1 = None -> dict_get k d2 = None.
Proof.
  revert d2. induction d1 as [|[k1 v1] d1 IH]; intros [|[k2 v2] d2] H; simpl in *;
    try discriminate; [reflexivity|].
  injection H as -> H. destruct (PyStr.eqb k k2); [discriminate|]. apply IH. exact H.
Qed.

Lemma modules_not_resources : U "modules" <> U "resources".
Proof. discriminate. Qed.

(** Decoding only adds objects to the store. *)
Lemma alloc_extends (j : json) (h : heap) : exists ext, snd (alloc j h) = h ++ ext.
Proof.
  revert j h. fix IH 1. intros j h. destruct j as [| b | z | x | s | js | kvs]; simpl.
  1-5: exists []; rewrite app_nil_r; reflexivity.
  - assert (Hitems : forall js h, exists ext,
               snd ((fix items (js : list json) (h : heap) : list val * heap :=
                       match js with
                       | [] => ([], h)
                       | j :: r =>
                           let '(v, h1) := alloc j h in
                           let '(vs, h2) := items r h1 in (v :: vs, h2)
                       end) js h) = h ++ ext).
    { clear js h. intros js. induction js as [|j r IHr]; intros h.
      - exists []. rewrite app_nil_r. reflexivity.
      - destruct (IH j h) as [e1 He1]. destruct (alloc j h) as [v h1]. simpl in He1.
        destruct (IHr h1) as [e2 He2].
        match type of He2 with snd ?t = _ => destruct t as [vs h2] end.
        simpl in *. subst. exists (e1 ++ e2). rewrite app_assoc. reflexivity. }
    destruct (Hitems js h) as [e He].
    match type of He with snd ?t = _ => destruct t as [vs h1] end.
    simpl in *. subst. exists (e ++ [OList vs]). rewrite app_assoc. reflexivity.
  - assert (Hitems : forall kvs h, exists ext,
               snd ((fix items (kvs : list (pystr * json)) (h : heap)
                       : list (pystr * val) * heap :=
                       match kvs with
                       | [] => ([], h)
                       | (k, j) :: r =>
                           let '(v, h1) := alloc j h in
                           let '(d, h2) := items r h1 in ((k, v) :: d, h2)
                       end) kvs h) = h ++ ext).
    { clear kvs h. intros kvs. induction kvs as [|[k j] r IHr]; intros h.
      - exists []. rewrite app_nil_r. reflexivity.
      - destruct (IH j h) as [e1 He1]. destruct (alloc j h) as [v h1]. simpl in He1.
        destruct (IHr h1) as [e2 He2].
        match type of He2 with snd ?t = _ => destruct t as [d h2] end.
        simpl in *. subst. exists (e1 ++ e2). rewrite app_assoc. reflexivity. }
    destruct (Hitems kvs h) as [e He].
    match type of He with snd ?t = _ => destruct t as [d h1] end.
    simpl in *. subst. exists (e ++ [ODict d]). rewrite app_assoc. reflexivity.
Qed.

Lemma alloc_object (kvs : list (pystr * json)) (h : heap) :
  exists (d : list (pystr * val)) (ext : heap),
    alloc (JObj kvs) h = (VRef (length (h ++ ext)), (h ++ ext) ++ [ODict d]) /\
    map fst d = map fst kvs.
Proof.
  simpl.
  assert (Hitems : forall kvs h, exists d ext,
             (fix items (kvs : list (pystr * json)) (h : heap)
                : list (pystr * val) * heap :=
                match kvs with
                | [] => ([], h)
                | (k, j) :: r =>
                    let '(v, h1) := alloc j h in
                    let '(d, h2) := items r h1 in ((k, v) :: d, h2)
                end) kvs h = (d, h ++ ext) /\ map fst d = map fst kvs).
  { clear kvs h. intros kvs. induction kvs as [|[k j] r IHr]; intros h.
    - exists [], []. rewrite app_nil_r. split; reflexivity.
    - destruct (alloc_extends j h) as [e1 He1]. destruct (alloc j h) as [v h1].
      simpl in He1. subst h1. destruct (IHr (h ++ e1)) as (d & e2 & Hd & Hk).
      rewrite Hd. exists ((k, v) :: d), (e1 ++ e2). rewrite app_assoc. simpl.
      rewrite Hk. split; reflexivity. }
  destruct (Hitems kvs h) as (d & ext & Hd & Hk). rewrite Hd. exists d, ext.
  split; [reflexivity | exact Hk].
Qed.

Lemma set_store_id (w : World) : set_store (store w) w = w.
Proof. destruct w. reflexivity. Qed.

Lemma world_eta_nil (w : World) :
  {| store := store w ++ []; sink := sink w; log := log w; emitted := emitted w;
     model_calls := model_calls w; clock_reads := clock_reads w |} = w.
Proof. destruct w. cbn. rewrite app_nil_r. reflexivity. Qed.

Lemma py_getitem_ret (v : val) (k : pystr) (w : World) (x : val) :
  fst (py_getitem v k w) = Ret x ->
  exists l d, v = VRef l /\ store w !! l = Some (ODict d) /\ dict_get k d = Some x.
Proof.
  unfold py_getitem. destruct v as [| | | | |l]; try discriminate.
  destruct (store w !! l) as [[d|xs]|] eqn:Hl; try discriminate.
  destruct (dict_get k d) as [y|] eqn:Hk; try discriminate.
  simpl. intros [= ->]. eauto.
Qed.

Lemma py_append_list (le : loc) (x : val) (w : World) (xs : list val) :
  store w !! le = Some (OList xs) ->
  py_append (VRef le) x w = (Ret tt, set_store (<[le := OList (xs ++ [x])]> (store w)) w).
Proof. intros H. unfold py_append. rewrite H. reflexivity. Qed.

Lemma py_setitem_dict (l : loc) (k : pystr) (x : val) (w : World) (d : list (pystr * val)) :
  store w !! l = Some (ODict d) ->
  py_setitem (VRef l) k x w = (Ret tt, set_store (<[l := ODict (dict_set k x d)]> (store w)) w).
Proof. intros H. unfold py_setitem. rewrite H. reflexivity. Qed.

(** *** Code that only adds objects to the store *)

Lemma grows_ret {A} (a : A) : grows (ret a).
Proof.
  intros w. split; [|discriminate].
  exists []. rewrite app_nil_r. symmetry. apply set_store_id.
Qed.

Lemma grows_raise {A} (e : exn) : e <> ZeroDivisionError -> grows (@raise A e).
Proof.
  intros He w. split; [|cbn; congruence].
  exists []. rewrite app_nil_r. symmetry. apply set_store_id.
Qed.

Lemma grows_lift {A} (r : outcome A) : r <> Raise ZeroDivisionError -> grows (lift r).
Proof.
  intros Hr w. split; [|exact Hr].
  exists []. rewrite app_nil_r. symmetry. apply set_store_id.
Qed.

Lemma grows_new (o : obj) : grows (new o).
Proof. intros w. split; [|discriminate]. exists [o]. reflexivity. Qed.

Lemma grows_bind {A B} (m : M A) (k : A -> M B) :
  grows m -> (forall a, grows (k a)) -> grows (bind m k).
Proof.
  intros Hm Hk w. unfold bind. destruct (Hm w) as [[e1 H1] H1'].
  destruct (m w) as [[a|e] w1]; simpl in H1; subst w1.
  - destruct (Hk a (set_store (store w ++ e1) w)) as [[e2 H2] H2'].
    split; [|exact H2'].
    exists (e1 ++ e2). rewrite H2. cbn [set_store store sink log emitted model_calls clock_reads].
    rewrite app_assoc. reflexivity.
  - split; [exists e1; reflexivity|].
    cbn in *. intros [= ->]. apply H1'. reflexivity.
Qed.

Lemma grows_py_get (v : val) (k : pystr) (dflt : M val) : grows dflt -> grows (py_get v k dflt).
Proof.
  intros Hd w. unfold py_get.
  destruct v as [| | | | |l]; try (apply (@grows_raise val AttributeError); discriminate).
  destruct (store w !! l) as [[d|xs]|];
    try (apply (@grows_raise val AttributeError); discriminate).
  destruct (dict_get k d) as [x|]; [apply (grows_ret x w) | apply Hd].
Qed.

Lemma grows_py_getitem (v : val) (k : pystr) : grows (py_getitem v k).
Proof.
  intros w. unfold py_getitem.
  destruct v as [| | | | |l]; try (apply (@grows_raise val TypeError); discriminate).
  destruct (store w !! l) as [[d|xs]|];
    try (apply (@grows_raise val TypeError); discriminate).
  destruct (dict_get k d) as [x|];
    [apply (grows_ret x w) | apply (@grows_raise val (KeyError k)); discriminate].
Qed.

Lemma grows_py_iter (v : val) : grows (py_iter v).
Proof.
  intros w. unfold py_iter.
  destruct v as [| | | |s|l];
    try (apply (@grows_raise (list val) TypeError); discriminate).
  - apply (grows_ret (map (fun c => VStr [c]) s) w).
  - destruct (store w !! l) as [[d|xs]|].
    + apply (grows_ret (map (fun kv => VStr (fst kv)) d) w).
    + apply (grows_ret xs w).
    + apply (@grows_raise (list val) TypeError); discriminate.
Qed.

Lemma join_strs_raises (sep : pystr) (xs : list val) :
  join_strs sep xs <> Raise ZeroDivisionError.
Proof.
  induction xs as [|x r IH]; simpl; [discriminate|].
  destruct x; try discriminate.
  destruct r; [discriminate|].
  destruct (join_strs sep (v :: r)) as [t|e]; [discriminate | congruence].
Qed.

Lemma grows_resource_prompt (module preferences : val) :
  grows (resource_prompt module preferences).
Proof.
  unfold resource_prompt, py_join.
  repeat first
    [ apply grows_bind; [|intros ?]
    | apply grows_py_getitem
    | apply grows_py_get
    | apply grows_py_iter
    | apply grows_lift; apply join_strs_raises
    | apply grows_new
    | apply grows_ret ].
Qed.

Lemma bind_fst_ret {A B} (m : M A) (k : A -> M B) (w : World) (b : B) :
  fst (bind m k w) = Ret b -> exists a, fst (m w) = Ret a.
Proof.
  unfold bind. destruct (m w) as [[a|e] w1]; simpl; [eauto | discriminate].
Qed.

(** The prompt of a module only adds objects to the store, and it
    is built only for a module that is a dict. *)
Lemma resource_prompt_spec (module preferences : val) (w : World) :
  exists ext,
    snd (resource_prompt module preferences w) = set_store (store w ++ ext) w /\
    fst (resource_prompt module preferences w) <> Raise ZeroDivisionError /\
    forall p, fst (resource_prompt module preferences w) = Ret p ->
              exists l d, module = VRef l /\ store w !! l = Some (ODict d).
Proof.
  destruct (grows_resource_prompt module preferences w) as [[ext H] H'].
  exists ext. split; [exact H|]. split; [exact H'|]. intros p Hp.
  unfold resource_prompt in Hp. apply bind_fst_ret in Hp as [t Ht].
  apply py_getitem_ret in Ht as (l & d & -> & Hl & _). eauto.
Qed.

(** *** The blocks of the loop of node 3 *)

Lemma interpolate_pos (idx n : nat) :
  n <> 0%nat -> interpolate (Z.of_nat idx + 1) (Z.of_nat n) = Ret (progress_at n (S idx)).
Proof.
  intros Hn. unfold interpolate, py_truediv, progress_at.
  destruct (Z.of_nat n) as [|q|q] eqn:Hq; try lia.
  cbn [Z.eqb]. f_equal. f_equal.
  unfold py_int, Qdiv, Qinv, Qmult. cbn [Qnum Qden].
  rewrite Z.quot_div_nonneg by lia.
  f_equal; lia.
Qed.

Lemma interpolate_zero (x : Z) : interpolate x 0 = Raise ZeroDivisionError.
Proof. reflexivity. Qed.

Lemma stream_update_spec (E : Env) (self : Generator) (stage : pystr) (msg : message)
    (p : Z) (w : World) :
  exists w1,
    _stream_update E self stage msg p w = (Ret tt, w1) /\
    store w1 = store w /\
    model_calls w1 = model_calls w /\
    emitted w1 = emitted w /\
    sink w1 = sink w ++
      (if streaming self
       then [{| s_key := of_opt (self_trace_id self); s_channel := U "learningPath";
                s_value := {| u_stage := stage; u_message := msg; u_progress := p;
                              u_timestamp := now_ms E (clock_reads w) |} |}]
       else []).
Proof.
  unfold _stream_update, streaming, clock_ms.
  destruct (streams self && truthy (self_trace_id self)), (logger self); exec;
    eexists; repeat split; rewrite ?app_nil_r; reflexivity.
Qed.

Lemma progress_trace_app (w w1 : World) (cs : list sink_call) :
  sink w1 = sink w ++ cs ->
  progress_trace w1 = progress_trace w ++ map (fun c => u_progress (s_value c)) cs.
Proof. intros H. unfold progress_trace. rewrite H, map_app. reflexivity. Qed.

Lemma stream_update_trace (E : Env) (self : Generator) (stage : pystr) (msg : message)
    (p : Z) (w : World) :
  exists w1,
    _stream_update E self stage msg p w = (Ret tt, w1) /\
    store w1 = store w /\
    model_calls w1 = model_calls w /\
    emitted w1 = emitted w /\
    progress_trace w1 = progress_trace w ++ (if streaming self then [p] else []).
Proof.
  destruct (stream_update_spec E self stage msg p w) as (w1 & H & Hs & Hc & He & Hk).
  exists w1. repeat split; try assumption.
  rewrite (progress_trace_app _ _ _ Hk). destruct (streaming self); reflexivity.
Qed.

(** The progress update of the loop, when the curriculum holds the
    list [ms] of modules and [ms] is not empty. *)
Lemma report_enriched_spec (E : Env) (self : Generator) (lc lm : loc) (idx : nat)
    (w : World) (dc : list (pystr * val)) (ms : list val) :
  store w !! lc = Some (ODict dc) ->
  dict_get (U "modules") dc = Some (VRef lm) ->
  store w !! lm = Some (OList ms) ->
  ms <> [] ->
  report_enriched E self (VRef lc) idx w
  = _stream_update E self (U "enriching")
      [Lit (U "Enriched module "); Num (Z.of_nat idx + 1); Lit (U "/");
       Num (Z.of_nat (length ms))]
      (progress_at (length ms) (S idx)) w.
Proof.
  intros Hc Hm Hl Hne. unfold report_enriched.
  assert (Hn : length ms <> 0%nat) by (destruct ms; [congruence | discriminate]).
  rewrite (bind_ret_eq _ _ w w (VRef lm)) by (eapply py_get_found; eassumption).
  rewrite (bind_ret_eq _ _ w w (Z.of_nat (length ms))) by (apply py_len_list; exact Hl).
  rewrite (bind_ret_eq _ _ w w (progress_at (length ms) (S idx)))
    by (unfold lift; rewrite interpolate_pos by exact Hn; reflexivity).
  rewrite (bind_ret_eq _ _ w w (VRef lm)) by (eapply py_get_found; eassumption).
  rewrite (bind_ret_eq _ _ w w (Z.of_nat (length ms))) by (apply py_len_list; exact Hl).
  reflexivity.
Qed.

(** The [try] statement of the loop, on a module that is a dict: it
    sets [resources] and returns, or it raises and the module is as it
    was; either way objects may have been added to the store. *)
Lemma attach_resources_spec (loads : pystr -> decoding) (l : loc) (text : pystr)
    (w : World) (d : list (pystr * val)) :
  store w !! l = Some (ODict d) ->
  exists ext,
    (exists x, attach_resources loads (VRef l) text w
               = (Ret tt, set_store (<[l := ODict (dict_set (U "resources") x d)]>
                                       (store w ++ ext)) w)) \/
    (exists e, attach_resources loads (VRef l) text w
               = (Raise e, set_store (store w ++ ext) w) /\ e <> ZeroDivisionError).
Proof.
  intros Hl. unfold attach_resources, parse_response. exec.
  assert (Hold : forall ext, (store w ++ ext) !! l = Some (ODict d)).
  { intros ext. rewrite lookup_app_l; [exact Hl | eapply lookup_lt_Some; exact Hl]. }
  destruct (extract_json loads text) as [j|e] eqn:He.
  - destruct (alloc_extends j (store w)) as [e1 He1].
    destruct (alloc j (store w)) as [v h1]. simpl in He1. subst h1.
    unfold py_get, py_setitem.
    destruct v as [| | | | |l0]; exec;
      try (exists e1; right; exists AttributeError; split; [reflexivity | discriminate]).
    destruct ((store w ++ e1) !! l0) as [[d0|xs]|]; exec;
      try (exists e1; right; exists AttributeError; split; [reflexivity | discriminate]).
    destruct (dict_get (U "resources") d0) as [x|]; exec.
    + rewrite Hold. exists e1. left. exists x. reflexivity.
    + rewrite <- app_assoc, Hold. exists (e1 ++ [OList []]). left.
      eexists. reflexivity.
  - apply extract_json_raises in He. destruct He as [f ->].
    destruct f; unfold decode_error; unfold py_setitem; exec.
    + rewrite Hold. exists [OList []]. left. eexists. reflexivity.
    + exists []. right. exists RecursionError. rewrite app_nil_r.
      split; [destruct w; reflexivity | discriminate].
    + exists []. right. eexists (ValueError _). rewrite app_nil_r.
      split; [destruct w; reflexivity | discriminate].
Qed.

(** C2 and C10 rest on the two ways the [try] statement ends with an
    empty list of resources. *)
Lemma attach_resources_decode_error (loads : pystr -> decoding) (l : loc) (text : pystr)
    (w : World) (d : list (pystr * val)) :
  store w !! l = Some (ODict d) ->
  extract_json loads text = Raise JSONDecodeError ->
  attach_resources loads (VRef l) text w
  = (Ret tt,
     set_store (<[l := ODict (dict_set (U "resources") (VRef (length (store w))) d)]>
                  (store w ++ [OList []])) w).
Proof.
  intros Hl He. unfold attach_resources, parse_response, py_setitem. exec.
  rewrite He. exec. rewrite (lookup_snoc_old _ _ _ _ Hl). reflexivity.
Qed.

Lemma attach_resources_no_key (loads : pystr -> decoding) (l : loc) (text : pystr)
    (w : World) (d : list (pystr * val)) (kvs : list (pystr * json)) :
  store w !! l = Some (ODict d) ->
  extract_json loads text = Ret (JObj kvs) ->
  dict_get (U "resources") kvs = None ->
  exists h,
    attach_resources loads (VRef l) text w
    = (Ret tt,
       set_store (<[l := ODict (dict_set (U "resources") (VRef (length h)) d)]>
                    (h ++ [OList []])) w) /\
    exists ext, h = store w ++ ext.
Proof.
  intros Hl He Hk. unfold attach_resources, parse_response. exec. rewrite He.
  destruct (alloc_object kvs (store w)) as (d0 & ext & Ha & Hkeys).
  rewrite Ha. exec. unfold py_get, py_setitem. exec.
  rewrite lookup_snoc.
  rewrite (dict_get_keys (U "resources") kvs d0) by (first [exact Hk | symmetry; exact Hkeys]).
  exec.
  assert (Hold : (((store w ++ ext) ++ [ODict d0]) ++ [OList []]) !! l = Some (ODict d)).
  { apply lookup_snoc_old, lookup_snoc_old.
    rewrite lookup_app_l; [exact Hl | eapply lookup_lt_Some; exact Hl]. }
  rewrite Hold. exists ((store w ++ ext) ++ [ODict d0]). split; [reflexivity|].
  exists (ext ++ [ODict d0]). rewrite app_assoc. reflexivity.
Qed.

(** *** One round of the loop of node 3 *)

Lemma lookup_app_old (h e : heap) (l : loc) (o : obj) :
  h !! l = Some o -> (h ++ e) !! l = Some o.
Proof. intros H. rewrite lookup_app_l; [exact H | eapply lookup_lt_Some; exact H]. Qed.

Lemma round_store_module (h e : heap) (l le : loc) (d : list (pystr * val)) (x : val)
    (done : list val) :
  h !! l = Some (ODict d) -> h !! le = Some (OList done) ->
  round_store h e l le d x done !! l = Some (ODict (dict_set (U "resources") x d)).
Proof.
  intros Hl He. unfold round_store.
  assert (le <> l) by (intros ->; congruence).
  rewrite list_lookup_insert_ne by assumption.
  apply list_lookup_insert_eq. rewrite length_app.
  apply lookup_lt_Some in Hl. lia.
Qed.

Lemma round_store_list (h e : heap) (l le : loc) (d : list (pystr * val)) (x : val)
    (done : list val) :
  h !! le = Some (OList done) ->
  round_store h e l le d x done !! le = Some (OList (done ++ [VRef l])).
Proof.
  intros He. unfold round_store.
  apply list_lookup_insert_eq. rewrite length_insert, length_app.
  apply lookup_lt_Some in He. lia.
Qed.

Lemma round_store_other (h e : heap) (l le l0 : loc) (d : list (pystr * val)) (x : val)
    (done : list val) (o : obj) :
  l0 <> l -> l0 <> le -> h !! l0 = Some o ->
  round_store h e l le d x done !! l0 = Some o.
Proof.
  intros H1 H2 Ho. unfold round_store.
  rewrite !list_lookup_insert_ne by congruence. apply lookup_app_old. exact Ho.
Qed.

Lemma round_store_resources (h e : heap) (l le : loc) (d : list (pystr * val)) (x : val)
    (done : list val) (v : val) :
  h !! l = Some (ODict d) -> h !! le = Some (OList done) ->
  has_resources h v -> has_resources (round_store h e l le d x done) v.
Proof.
  intros Hl He (l0 & d0 & x0 & -> & Hl0 & Hx0).
  destruct (decide (l0 = l)) as [->|Hne].
  - exists l, (dict_set (U "resources") x d), x.
    split; [reflexivity|]. split; [apply round_store_module; assumption|].
    apply dict_get_set_eq.
  - exists l0, d0, x0. split; [reflexivity|]. split; [|exact Hx0].
    apply round_store_other; [exact Hne | intros ->; congruence | exact Hl0].
Qed.

Lemma round_store_inv (h e : heap) (lc lm l le : loc) (d : list (pystr * val)) (x : val)
    (ms done : list val) :
  h !! l = Some (ODict d) ->
  loop_inv lc lm le ms done h ->
  loop_inv lc lm le ms (done ++ [VRef l]) (round_store h e l le d x done).
Proof.
  intros Hl ((dc & Hc & Hmods) & Hm & He & Hne & Hres).
  repeat split.
  - destruct (decide (lc = l)) as [->|Hcl].
    + exists (dict_set (U "resources") x d). split; [apply round_store_module; assumption|].
      rewrite dict_get_set_ne by exact modules_not_resources. congruence.
    + exists dc. split; [|exact Hmods].
      apply round_store_other; [exact Hcl | intros ->; congruence | exact Hc].
  - apply round_store_other; [intros ->; congruence | congruence | exact Hm].
  - apply round_store_list. exact He.
  - exact Hne.
  - apply Forall_app. split.
    + eapply List.Forall_impl; [|exact Hres]. intros v Hv.
      apply round_store_resources; assumption.
    + constructor; [|constructor].
      exists l, (dict_set (U "resources") x d), x.
      split; [reflexivity|]. split; [apply round_store_module; assumption|].
      apply dict_get_set_eq.
Qed.

Lemma ainvoke_content (E : Env) (w : World) (text : pystr) :
  model E (model_calls w) = Content text -> ainvoke E w = (Ret text, count_call w).
Proof. intros H. unfold ainvoke. rewrite H. reflexivity. Qed.

Lemma ainvoke_failure (E : Env) (w : World) (msg : pystr) :
  model E (model_calls w) = Failure msg ->
  ainvoke E w = (Raise (ModelCallError msg), count_call w).
Proof. intros H. unfold ainvoke. rewrite H. reflexivity. Qed.

Lemma ainvoke_cancelled (E : Env) (w : World) :
  model E (model_calls w) = Cancelled ->
  ainvoke E w = (Raise CancelledError, count_call w).
Proof. intros H. unfold ainvoke. rewrite H. reflexivity. Qed.

Lemma loop_inv_grow (lc lm le : loc) (ms done : list val) (h e : heap) :
  loop_inv lc lm le ms done h -> loop_inv lc lm le ms done (h ++ e).
Proof.
  intros ((dc & Hc & Hmods) & Hm & He & Hne & Hres). repeat split.
  - exists dc. split; [apply lookup_app_old; exact Hc | exact Hmods].
  - apply lookup_app_old. exact Hm.
  - apply lookup_app_old. exact He.
  - exact Hne.
  - eapply List.Forall_impl; [|exact Hres].
    intros v (l0 & d0 & x0 & -> & H1 & H2). exists l0, d0, x0.
    split; [reflexivity|]. split; [apply lookup_app_old; exact H1 | exact H2].
Qed.

(** One round of the loop that gets a reply and attaches resources
    [x]: it returns, and the store is that of [round_store]. *)
Lemma enrich_module_run (loads : pystr -> decoding) (E : Env) (self : Generator)
    (lc lm le l : loc) (prefs : val) (ms done : list val) (w : World)
    (p : list val) (e0 ext : heap) (d : list (pystr * val)) (text : pystr) (x : val) :
  loop_inv lc lm le ms done (store w) ->
  ms <> [] ->
  resource_prompt (VRef l) prefs w = (Ret p, set_store (store w ++ e0) w) ->
  store w !! l = Some (ODict d) ->
  model E (model_calls w) = Content text ->
  attach_resources loads (VRef l) text (count_call (set_store (store w ++ e0) w))
  = (Ret tt,
     set_store (<[l := ODict (dict_set (U "resources") x d)]> ((store w ++ e0) ++ ext))
       (count_call (set_store (store w ++ e0) w))) ->
  exists w',
    enrich_module loads E self (VRef lc) prefs (VRef le) (length done) (VRef l) w = (Ret tt, w') /\
    store w' = round_store (store w ++ e0) ext l le d x done /\
    progress_trace w' = progress_trace w ++
      (if streaming self then [progress_at (length ms) (S (length done))] else []).
Proof.
  intros Hinv Hms Hp Hl Hmodel Hattach. unfold enrich_module.
  rewrite (bind_ret_eq _ _ _ _ _ Hp).
  rewrite (bind_ret_eq _ _ _ _ _ (ainvoke_content E (set_store (store w ++ e0) w) text Hmodel)).
  rewrite (bind_ret_eq _ _ _ _ _ Hattach).
  set (w2 := count_call (set_store (store w ++ e0) w)).
  assert (Hst2 : store w2 = store w ++ e0) by reflexivity.
  assert (Hl2 : store w2 !! l = Some (ODict d)) by (apply lookup_app_old; exact Hl).
  assert (Hinv2 : loop_inv lc lm le ms done (store w2)) by (apply loop_inv_grow; exact Hinv).
  pose proof (round_store_inv (store w2) ext lc lm l le d x ms done Hl2 Hinv2) as Hinv3.
  match goal with |- context [bind (py_append _ _) _ ?W] => set (w3 := W) end.
  assert (Hle : store w3 !! le = Some (OList done)).
  { destruct Hinv2 as (_ & _ & He & _). unfold w3. cbn [set_store store].
    rewrite list_lookup_insert_ne by (intros ->; congruence).
    apply lookup_app_old. exact He. }
  rewrite (bind_ret_eq _ _ _ _ _ (py_append_list le (VRef l) w3 done Hle)).
  match goal with |- context [report_enriched _ _ _ _ ?W] => set (w4 := W) end.
  assert (Hst4 : store w4 = round_store (store w2) ext l le d x done) by reflexivity.
  assert (Hsk4 : progress_trace w4 = progress_trace w) by reflexivity.
  rewrite <- Hst4 in Hinv3.
  destruct Hinv3 as ((dc' & Hc' & Hmods') & Hm' & Hrest).
  rewrite (report_enriched_spec E self lc lm (length done) w4 dc' ms Hc' Hmods' Hm' Hms).
  destruct (stream_update_trace E self (U "enriching")
              [Lit (U "Enriched module "); Num (Z.of_nat (length done) + 1); Lit (U "/");
               Num (Z.of_nat (length ms))]
              (progress_at (length ms) (S (length done))) w4)
    as (w5 & Hs & Hst & _ & _ & Htr).
  exists w5. split; [exact Hs|]. split.
  - rewrite Hst. exact Hst4.
  - rewrite Htr, Hsk4. reflexivity.
Qed.

(** One round of the loop, from a store that satisfies the invariant:
    either it returns, the invariant holds with the module added to
    the enriched ones, and one value was reported; or it raises
    something other than [ZeroDivisionError] and nothing was reported. *)
Lemma enrich_module_spec (loads : pystr -> decoding) (E : Env) (self : Generator)
    (lc lm le : loc) (prefs : val) (ms done : list val) (m : val) (w : World) :
  loop_inv lc lm le ms done (store w) ->
  ms <> [] ->
  (exists w',
     enrich_module loads E self (VRef lc) prefs (VRef le) (length done) m w = (Ret tt, w') /\
     loop_inv lc lm le ms (done ++ [m]) (store w') /\
     progress_trace w' = progress_trace w ++
       (if streaming self then [progress_at (length ms) (S (length done))] else []))
  \/
  (exists e w',
     enrich_module loads E self (VRef lc) prefs (VRef le) (length done) m w = (Raise e, w') /\
     e <> ZeroDivisionError /\
     progress_trace w' = progress_trace w).
Proof.
  intros Hinv Hms.
  destruct (resource_prompt_spec m prefs w) as (e0 & Hw1 & Hz & Hret).
  destruct (resource_prompt m prefs w) as [[p|e] w1] eqn:Hp; cbn [fst snd] in *; subst w1.
  2:{ right. exists e, (set_store (store w ++ e0) w). unfold enrich_module.
      rewrite (bind_raise_eq _ _ _ _ _ Hp). split; [reflexivity|].
      split; [congruence | reflexivity]. }
  destruct (Hret p eq_refl) as (l & d & -> & Hl).
  destruct (model E (model_calls w)) as [text|msg|] eqn:Hmodel.
  2:{ right. eexists _, _. unfold enrich_module. rewrite (bind_ret_eq _ _ _ _ _ Hp).
      rewrite (bind_raise_eq _ _ _ _ _ (ainvoke_failure E (set_store (store w ++ e0) w) msg Hmodel)).
      split; [reflexivity|]. split; [discriminate | reflexivity]. }
  2:{ right. eexists _, _. unfold enrich_module. rewrite (bind_ret_eq _ _ _ _ _ Hp).
      rewrite (bind_raise_eq _ _ _ _ _ (ainvoke_cancelled E (set_store (store w ++ e0) w) Hmodel)).
      split; [reflexivity|]. split; [discriminate | reflexivity]. }
  set (w2 := count_call (set_store (store w ++ e0) w)).
  assert (Hl2 : store w2 !! l = Some (ODict d)) by (apply lookup_app_old; exact Hl).
  destruct (attach_resources_spec loads l text w2 d Hl2) as [ext [[x Hat] | (e & Hat & Hez)]].
  2:{ right. eexists _, _. unfold enrich_module. rewrite (bind_ret_eq _ _ _ _ _ Hp).
      rewrite (bind_ret_eq _ _ _ _ _
                 (ainvoke_content E (set_store (store w ++ e0) w) text Hmodel)).
      fold w2. rewrite (bind_raise_eq _ _ _ _ _ Hat).
      split; [reflexivity|]. split; [exact Hez | reflexivity]. }
  left.
  destruct (enrich_module_run loads E self lc lm le l prefs ms done w p e0 ext d text x
              Hinv Hms Hp Hl Hmodel Hat) as (w' & Hrun & Hst & Htr).
  exists w'. split; [exact Hrun|]. split; [|exact Htr].
  rewrite Hst. apply round_store_inv; [exact Hl2 | apply loop_inv_grow; exact Hinv].
Qed.

(** *** Code that does not report *)

Lemma quiet_ret {A} (a : A) : quiet (ret a).
Proof. intros w. split; [reflexivity | discriminate]. Qed.

Lemma quiet_raise {A} (e : exn) : e <> ZeroDivisionError -> quiet (@raise A e).
Proof. intros He w. split; [reflexivity | cbn; congruence]. Qed.

Lemma quiet_lift {A} (r : outcome A) : r <> Raise ZeroDivisionError -> quiet (lift r).
Proof. intros Hr w. split; [reflexivity | exact Hr]. Qed.

Lemma quiet_bind {A B} (m : M A) (k : A -> M B) :
  quiet m -> (forall a, quiet (k a)) -> quiet (bind m k).
Proof.
  intros Hm Hk w. unfold bind. destruct (Hm w) as [H1 H1'].
  destruct (m w) as [[a|e] w1]; cbn [fst snd] in *.
  - destruct (Hk a w1) as [H2 H2']. split; [congruence | exact H2'].
  - split; [exact H1|]. intros [= ->]. apply H1'. reflexivity.
Qed.

Lemma quiet_when (b : bool) (m : M unit) : quiet m -> quiet (when b m).
Proof. intros H. destruct b; [exact H | apply quiet_ret]. Qed.

Lemma quiet_try_except {A} (body : M A) (caught : exn -> bool) (handler : exn -> M A) :
  quiet body -> (forall e, quiet (handler e)) -> quiet (try_except body caught handler).
Proof.
  intros Hb Hh w. unfold try_except. destruct (Hb w) as [H1 H1'].
  destruct (body w) as [[a|e] w1]; cbn [fst snd] in *.
  - split; [exact H1 | discriminate].
  - destruct (caught e).
    + destruct (Hh e w1) as [H2 H2']. split; [congruence | exact H2'].
    + split; [exact H1|]. exact H1'.
Qed.

Lemma quiet_new (o : obj) : quiet (new o).
Proof. intros w. split; [reflexivity | discriminate]. Qed.

Lemma quiet_logger_call (lv : level) (msg : message) : quiet (logger_call lv msg).
Proof. intros w. split; [reflexivity | discriminate]. Qed.

Lemma quiet_emit_call (e : event) : quiet (emit_call e).
Proof. intros w. split; [reflexivity | discriminate]. Qed.

Lemma quiet_clock_ms (E : Env) : quiet (clock_ms E).
Proof. intros w. split; [reflexivity | discriminate]. Qed.

Lemma quiet_clock_iso (E : Env) : quiet (clock_iso E).
Proof. intros w. split; [reflexivity | discriminate]. Qed.

Lemma quiet_ainvoke (E : Env) : quiet (ainvoke E).
Proof.
  intros w. unfold ainvoke. destruct (model E (model_calls w));
    (split; [reflexivity | discriminate]).
Qed.

Lemma quiet_py_get (v : val) (k : pystr) (dflt : M val) : quiet dflt -> quiet (py_get v k dflt).
Proof.
  intros Hd w. unfold py_get.
  destruct v as [| | | | |l]; try (split; [reflexivity | discriminate]).
  destruct (store w !! l) as [[d|xs]|]; try (split; [reflexivity | discriminate]).
  destruct (dict_get k d) as [x|]; [split; [reflexivity | discriminate] | apply Hd].
Qed.

Lemma quiet_py_getitem (v : val) (k : pystr) : quiet (py_getitem v k).
Proof.
  intros w. unfold py_getitem.
  destruct v as [| | | | |l]; try (split; [reflexivity | discriminate]).
  destruct (store w !! l) as [[d|xs]|]; try (split; [reflexivity | discriminate]).
  destruct (dict_get k d) as [x|]; (split; [reflexivity | discriminate]).
Qed.

Lemma quiet_py_setitem (v : val) (k : pystr) (x : val) : quiet (py_setitem v k x).
Proof.
  intros w. unfold py_setitem.
  destruct v as [| | | | |l]; try (split; [reflexivity | discriminate]).
  destruct (store w !! l) as [[d|xs]|]; (split; [reflexivity | discriminate]).
Qed.

Lemma quiet_py_append (v x : val) : quiet (py_append v x).
Proof.
  intros w. unfold py_append.
  destruct v as [| | | | |l]; try (split; [reflexivity | discriminate]).
  destruct (store w !! l) as [[d|xs]|]; (split; [reflexivity | discriminate]).
Qed.

Lemma quiet_py_len (v : val) : quiet (py_len v).
Proof.
  intros w. unfold py_len.
  destruct v as [| | | |s|l]; try (split; [reflexivity | discriminate]).
  destruct (store w !! l) as [[d|xs]|]; (split; [reflexivity | discriminate]).
Qed.

Lemma quiet_py_iter (v : val) : quiet (py_iter v).
Proof.
  intros w. unfold py_iter.
  destruct v as [| | | |s|l]; try (split; [reflexivity | discriminate]).
  destruct (store w !! l) as [[d|xs]|]; (split; [reflexivity | discriminate]).
Qed.

Lemma quiet_parse_response (loads : pystr -> decoding) (text : pystr) :
  quiet (parse_response loads text).
Proof.
  intros w. unfold parse_response, bind, lift.
  destruct (extract_json loads text) as [j|e] eqn:He.
  - destruct (alloc j (store w)) as [v h]. split; [reflexivity | discriminate].
  - apply extract_json_raises in He. destruct He as [f ->].
    split; [reflexivity|]. cbn [fst]. intros H. inversion H as [H1].
    exact (decode_error_not_division f H1).
Qed.

Ltac quiet_tac :=
  repeat first
    [ apply quiet_parse_response
    | apply quiet_bind; [|intros ?]
    | apply quiet_when
    | apply quiet_try_except; [|intros ?]
    | apply quiet_ret
    | apply quiet_new
    | apply quiet_logger_call
    | apply quiet_emit_call
    | apply quiet_clock_ms
    | apply quiet_clock_iso
    | apply quiet_ainvoke
    | apply quiet_py_getitem
    | apply quiet_py_setitem
    | apply quiet_py_append
    | apply quiet_py_len
    | apply quiet_py_iter
    | apply quiet_py_get
    | apply quiet_lift; apply join_strs_raises ].

Lemma quiet_resource_prompt (module preferences : val) :
  quiet (resource_prompt module preferences).
Proof. unfold resource_prompt, py_join. quiet_tac. Qed.

Lemma quiet_attach_resources (loads : pystr -> decoding) (module : val) (text : pystr) :
  quiet (attach_resources loads module text).
Proof. unfold attach_resources. quiet_tac. Qed.

Lemma quiet_trace {A} (m : M A) (w : World) :
  quiet m -> progress_trace (snd (m w)) = progress_trace w.
Proof. intros H. unfold progress_trace. destruct (H w) as [-> _]. reflexivity. Qed.

(** *** The loop of node 3 *)

Lemma enrich_loop_spec (loads : pystr -> decoding) (E : Env) (self : Generator)
    (lc lm le : loc) (prefs : val) (ms : list val) :
  forall (rest done : list val) (w : World),
    ms = done ++ rest ->
    loop_inv lc lm le ms done (store w) ->
    exists j : nat,
      (j <= length rest)%nat /\
      progress_trace
        (snd (for_enumerate (enrich_module loads E self (VRef lc) prefs (VRef le))
                (length done) rest w))
      = progress_trace w ++
          (if streaming self
           then map (progress_at (length ms)) (seq (S (length done)) j) else []) /\
      match fst (for_enumerate (enrich_module loads E self (VRef lc) prefs (VRef le))
                   (length done) rest w) with
      | Ret _ =>
          j = length rest /\
          loop_inv lc lm le ms ms
            (store (snd (for_enumerate (enrich_module loads E self (VRef lc) prefs (VRef le))
                           (length done) rest w)))
      | Raise e => e <> ZeroDivisionError
      end.
Proof.
  induction rest as [|m rest IH]; intros done w Hms Hinv.
  - exists 0%nat. cbn. split; [lia|]. split.
    + destruct (streaming self); rewrite app_nil_r; reflexivity.
    + split; [reflexivity|]. rewrite app_nil_r in Hms. subst done. exact Hinv.
  - cbn [for_enumerate].
    assert (Hne : ms <> []) by (subst ms; destruct done; discriminate).
    destruct (enrich_module_spec loads E self lc lm le prefs ms done m w Hinv Hne)
      as [(w1 & Hb & Hinv1 & Htr1) | (e & w1 & Hb & He & Htr1)].
    + rewrite (bind_ret_eq _ _ _ _ _ Hb).
      assert (Hms1 : ms = (done ++ [m]) ++ rest) by (rewrite <- app_assoc; exact Hms).
      destruct (IH (done ++ [m]) w1 Hms1 Hinv1) as (j & Hj & Htr & Hres).
      assert (Hlen : length (done ++ [m]) = S (length done))
        by (rewrite length_app; cbn; lia).
      rewrite Hlen in Htr, Hres.
      exists (S j). split; [cbn; lia|]. split.
      * rewrite Htr, Htr1. rewrite <- app_assoc. f_equal.
        destruct (streaming self); reflexivity.
      * destruct (fst (for_enumerate _ (S (length done)) rest w1)).
        -- destruct Hres as [-> Hres]. split; [reflexivity | exact Hres].
        -- exact Hres.
    + rewrite (bind_raise_eq _ _ _ _ _ Hb). exists 0%nat. cbn. split; [lia|]. split.
      * rewrite Htr1. destruct (streaming self); rewrite app_nil_r; reflexivity.
      * exact He.
Qed.

(** A loop over strings (the keys of a dict, the characters of a
    string) stops at its first item: a string has no ['title']. *)
Lemma enrich_loop_strings (loads : pystr -> decoding) (E : Env) (self : Generator)
    (curriculum prefs enriched : val) (idx : nat) (s : pystr) (rest : list val) (w : World) :
  for_enumerate (enrich_module loads E self curriculum prefs enriched) idx (VStr s :: rest) w
  = (Raise TypeError, w).
Proof. reflexivity. Qed.

Lemma progress_at_mono (n k k' : nat) :
  (k <= k')%nat -> progress_at n k <= progress_at n k'.
Proof.
  intros H. unfold progress_at.
  destruct n as [|n].
  - cbn. rewrite !Z.div_0_r. lia.
  - apply Z.add_le_mono_l. apply Z.div_le_mono; lia.
Qed.

Lemma progress_at_bounds (n k : nat) :
  (k <= n)%nat -> 75 <= progress_at n k <= 90.
Proof.
  intros H. unfold progress_at. destruct n as [|n].
  - cbn. rewrite Z.div_0_r. lia.
  - assert (0 <= Z.of_nat k * 15 / Z.of_nat (S n)) by (apply Z.div_pos; lia).
    assert (Z.of_nat k * 15 / Z.of_nat (S n) <= 15).
    { apply Z.div_le_upper_bound; lia. }
    lia.
Qed.

Lemma progress_at_full (n : nat) : n <> 0%nat -> progress_at n n = 90.
Proof.
  intros H. unfold progress_at. rewrite Z.mul_comm, Z.div_mul by lia. reflexivity.
Qed.

Lemma py_iter_list (l : loc) (w : World) (xs : list val) :
  store w !! l = Some (OList xs) -> py_iter (VRef l) w = (Ret xs, w).
Proof. intros H. unfold py_iter. rewrite H. reflexivity. Qed.

Lemma new_eq (o : obj) (w : World) :
  new o w = (Ret (VRef (length (store w))), set_store (store w ++ [o]) w).
Proof. reflexivity. Qed.

(** *** Node 3 on a curriculum whose modules are a list *)

Lemma enrich_resources_list (loads : pystr -> decoding) (E : Env) (self : Generator)
    (state : State) (w : World) (lc lm : loc) (dc : list (pystr * val)) (ms : list val) :
  curriculum_structure state = VRef lc ->
  store w !! lc = Some (ODict dc) ->
  dict_get (U "modules") dc = Some (VRef lm) ->
  store w !! lm = Some (OList ms) ->
  exists j : nat,
    (j <= length ms)%nat /\
    progress_trace (snd (_enrich_resources loads E self state w))
    = progress_trace w ++
        (if streaming self then 75 :: map (progress_at (length ms)) (seq 1 j) else []) /\
    match fst (_enrich_resources loads E self state w) with
    | Ret state' =>
        j = length ms /\
        exists le,
          state' = set_enriched_modules state (VRef le) /\
          loop_inv lc lm le ms ms (store (snd (_enrich_resources loads E self state w)))
    | Raise e => e <> ZeroDivisionError
    end.
Proof.
  intros Hcur Hc Hmods Hm. unfold _enrich_resources. rewrite Hcur.
  destruct (stream_update_trace E self (U "enriching")
              [Lit (U "Finding the best learning resources...")] 75 w)
    as (w1 & Hs & Hst1 & _ & _ & Htr1).
  rewrite (bind_ret_eq _ _ _ _ _ Hs).
  rewrite (bind_ret_eq _ _ _ _ _ (new_eq (OList []) w1)).
  set (le := length (store w1)).
  set (w2 := set_store (store w1 ++ [OList []]) w1).
  assert (Hinv : loop_inv lc lm le ms [] (store w2)).
  { unfold w2. cbn [set_store store]. rewrite Hst1. repeat split.
    - exists dc. split; [apply lookup_app_old; exact Hc | exact Hmods].
    - apply lookup_app_old. exact Hm.
    - unfold le. rewrite Hst1. apply lookup_snoc.
    - unfold le. rewrite Hst1. apply lookup_lt_Some in Hm. lia.
    - constructor. }
  assert (Htr2 : progress_trace w2 = progress_trace w1) by reflexivity.
  destruct Hinv as ((dc2 & Hc2 & Hmods2) & Hm2 & Hrest).
  rewrite (bind_ret_eq _ _ _ _ _ (py_get_found lc (U "modules") _ w2 dc2 (VRef lm) Hc2 Hmods2)).
  rewrite (bind_ret_eq _ _ _ _ _ (py_iter_list lm w2 ms Hm2)).
  assert (Hinv : loop_inv lc lm le ms [] (store w2)).
  { split; [exists dc2; split; assumption|]. split; assumption. }
  destruct (enrich_loop_spec loads E self lc lm le (preferences state) ms ms [] w2
              eq_refl Hinv) as (j & Hj & Htr & Hres).
  cbn [length] in Htr, Hres.
  exists j. split; [exact Hj|].
  destruct (for_enumerate (enrich_module loads E self (VRef lc) (preferences state) (VRef le))
              0 ms w2) as [[u|e] w3] eqn:Hloop; cbn [fst snd] in Htr, Hres.
  - rewrite (bind_ret_eq _ _ _ _ _ Hloop). destruct Hres as [-> Hinv3].
    assert (Hle3 : store w3 !! le = Some (OList ms)) by apply Hinv3.
    assert (Htr3 : progress_trace w3 = progress_trace w ++
              (if streaming self
               then 75 :: map (progress_at (length ms)) (seq 1 (length ms)) else [])).
    { rewrite Htr, Htr2, Htr1, <- app_assoc. destruct (streaming self); reflexivity. }
    destruct (logger self); unfold when.
    + rewrite (bind_ret_eq _ _ w3
                 {| store := store w3; sink := sink w3;
                    log := log w3 ++ [(INFO, [Lit [9989%N]; Lit (U " Resources enriched")])];
                    emitted := emitted w3; model_calls := model_calls w3;
                    clock_reads := clock_reads w3 |} tt).
      2:{ rewrite (bind_ret_eq _ _ _ _ _ (py_len_list le w3 ms Hle3)). reflexivity. }
      cbn [ret fst snd store]. split; [exact Htr3|]. split; [reflexivity|].
      exists le. split; [reflexivity | exact Hinv3].
    + cbn [bind ret fst snd]. split; [exact Htr3|]. split; [reflexivity|].
      exists le. split; [reflexivity | exact Hinv3].
  - rewrite (bind_raise_eq _ _ _ _ _ Hloop). cbn [fst snd]. split; [|exact Hres].
    rewrite Htr, Htr2, Htr1, <- app_assoc. destruct (streaming self); reflexivity.
Qed.

Lemma round_store_ext (h e : heap) (l le l0 : loc) (d : list (pystr * val)) (x : val)
    (done : list val) (o : obj) :
  l0 <> l -> l0 <> le -> (h ++ e) !! l0 = Some o ->
  round_store h e l le d x done !! l0 = Some o.
Proof.
  intros H1 H2 Ho. unfold round_store.
  rewrite !list_lookup_insert_ne by congruence. exact Ho.
Qed.

(** A round that attaches a new empty list: the module has it as its
    [resources] afterwards, and the loop goes on with the next module. *)
Lemma enrich_module_empty (loads : pystr -> decoding) (E : Env) (self : Generator)
    (lc lm le : loc) (prefs : val) (ms done rest : list val) (m : val) (w : World)
    (p : list val) (text : pystr) :
  loop_inv lc lm le ms done (store w) ->
  ms <> [] ->
  fst (resource_prompt m prefs w) = Ret p ->
  model E (model_calls w) = Content text ->
  (forall (l : loc) (d : list (pystr * val)) (w2 : World),
     store w2 !! l = Some (ODict d) ->
     exists h ext,
       h = store w2 ++ ext /\
       attach_resources loads (VRef l) text w2
       = (Ret tt, set_store (<[l := ODict (dict_set (U "resources") (VRef (length h)) d)]>
                               (h ++ [OList []])) w2)) ->
  exists (w' : World) (l lr : loc) (d : list (pystr * val)),
    m = VRef l /\
    enrich_module loads E self (VRef lc) prefs (VRef le) (length done) m w = (Ret tt, w') /\
    store w' !! l = Some (ODict d) /\
    dict_get (U "resources") d = Some (VRef lr) /\
    store w' !! lr = Some (OList []) /\
    for_enumerate (enrich_module loads E self (VRef lc) prefs (VRef le))
      (length done) (m :: rest) w
    = for_enumerate (enrich_module loads E self (VRef lc) prefs (VRef le))
        (S (length done)) rest w'.
Proof.
  intros Hinv Hms Hp Hmodel Hattach.
  destruct (resource_prompt_spec m prefs w) as (e0 & Hw1 & _ & Hret).
  destruct (Hret p Hp) as (l & d & -> & Hl).
  destruct (resource_prompt (VRef l) prefs w) as [r w1] eqn:Hrp.
  cbn [fst snd] in Hp, Hw1. subst r w1.
  set (w2 := count_call (set_store (store w ++ e0) w)).
  assert (Hl2 : store w2 !! l = Some (ODict d)) by (apply lookup_app_old; exact Hl).
  destruct (Hattach l d w2 Hl2) as (h & ext & -> & Hat).
  assert (Hat' : attach_resources loads (VRef l) text w2
                 = (Ret tt,
                    set_store (<[l := ODict (dict_set (U "resources")
                                               (VRef (length (store w2 ++ ext))) d)]>
                                 ((store w ++ e0) ++ (ext ++ [OList []]))) w2)).
  { rewrite Hat. rewrite (app_assoc (store w ++ e0) ext [OList []]). reflexivity. }
  destruct (enrich_module_run loads E self lc lm le l prefs ms done w p e0 (ext ++ [OList []])
              d text (VRef (length (store w2 ++ ext))) Hinv Hms Hrp Hl Hmodel Hat')
    as (w' & Hrun & Hst & _).
  assert (Hlen : (length (store w) <= length (store w2 ++ ext))%nat).
  { unfold w2. cbn [count_call set_store store]. rewrite !length_app. lia. }
  assert (Hle : store w !! le = Some (OList done)) by apply Hinv.
  exists w', l, (length (store w2 ++ ext)), (dict_set (U "resources")
                                               (VRef (length (store w2 ++ ext))) d).
  split; [reflexivity|]. split; [exact Hrun|]. split.
  { rewrite Hst. apply round_store_module; apply lookup_app_old; assumption. }
  split; [apply dict_get_set_eq|]. split.
  { rewrite Hst. apply round_store_ext.
    - apply lookup_lt_Some in Hl. lia.
    - apply lookup_lt_Some in Hle. lia.
    - rewrite (app_assoc (store w ++ e0) ext [OList []]). apply lookup_snoc. }
  cbn [for_enumerate]. rewrite (bind_ret_eq _ _ _ _ _ Hrun). reflexivity.
Qed.

(** *** Node 3 in general *)

Lemma py_iter_inv (v : val) (w w' : World) (m0 : val) (rest : list val) :
  py_iter v w = (Ret (m0 :: rest), w') ->
  (forall s, m0 <> VStr s) ->
  w' = w /\ exists lm, v = VRef lm /\ store w !! lm = Some (OList (m0 :: rest)).
Proof.
  unfold py_iter. intros H Hns.
  destruct v as [| | | |s|l]; try discriminate.
  - destruct s as [|c s]; [discriminate|]. cbn in H. injection H as <- _ _.
    exfalso. eapply Hns. reflexivity.
  - destruct (store w !! l) as [[d|xs]|] eqn:Hl; try discriminate.
    + destruct d as [|[k x] d]; [discriminate|]. cbn in H. injection H as <- _ _.
      exfalso. eapply Hns. reflexivity.
    + injection H as -> <-. split; [reflexivity|]. exists l. split; [reflexivity | exact Hl].
Qed.

Lemma py_get_inv (v : val) (k : pystr) (o : obj) (w w' : World) (x : val) :
  py_get v k (new o) w = (Ret x, w') ->
  exists lc dc,
    v = VRef lc /\ store w !! lc = Some (ODict dc) /\
    ((dict_get k dc = Some x /\ w' = w) \/
     (dict_get k dc = None /\ x = VRef (length (store w)) /\
      w' = set_store (store w ++ [o]) w)).
Proof.
  unfold py_get. intros H.
  destruct v as [| | | | |l]; try discriminate.
  destruct (store w !! l) as [[d|xs]|] eqn:Hl; try discriminate.
  exists l, d. split; [reflexivity|]. split; [exact Hl|].
  destruct (dict_get k d) as [y|].
  - injection H as -> <-. left. split; reflexivity.
  - unfold new in H. injection H as <- <-. right. repeat split.
Qed.

(** Node 3 reports 75, then one value for each module it enriched, in
    order; it does not raise [ZeroDivisionError]. *)
Lemma enrich_resources_trace (loads : pystr -> decoding) (E : Env) (self : Generator)
    (state : State) (w : World) :
  exists n j : nat,
    (j <= n)%nat /\
    progress_trace (snd (_enrich_resources loads E self state w))
    = progress_trace w ++
        (if streaming self then 75 :: map (progress_at n) (seq 1 j) else []) /\
    fst (_enrich_resources loads E self state w) <> Raise ZeroDivisionError.
Proof.
  unfold _enrich_resources.
  destruct (stream_update_trace E self (U "enriching")
              [Lit (U "Finding the best learning resources...")] 75 w)
    as (w1 & Hs & Hst1 & _ & _ & Htr1).
  rewrite (bind_ret_eq _ _ _ _ _ Hs).
  rewrite (bind_ret_eq _ _ _ _ _ (new_eq (OList []) w1)).
  set (le := length (store w1)).
  set (w2 := set_store (store w1 ++ [OList []]) w1).
  assert (Htr2 : progress_trace w2 = progress_trace w1) by reflexivity.
  assert (Hle2 : store w2 !! le = Some (OList [])) by apply lookup_snoc.
  set (tail := fun _ : unit =>
                 do when (logger self)
                      (let* n := py_len (VRef le) in
                       logger_call INFO [Lit [9989%N]; Lit (U " Resources enriched")])
                 then ret (set_enriched_modules state (VRef le))).
  assert (Htail : forall u, quiet (tail u)) by (intros u; unfold tail; quiet_tac).
  (* what is to be shown, for an outcome that reported nothing more *)
  assert (Hquiet : forall (r : outcome State) (w' : World),
             progress_trace w' = progress_trace w2 -> r <> Raise ZeroDivisionError ->
             exists n j : nat,
               (j <= n)%nat /\
               progress_trace (snd (r, w'))
               = progress_trace w ++
                   (if streaming self then 75 :: map (progress_at n) (seq 1 j) else []) /\
               fst (r, w') <> Raise ZeroDivisionError).
  { intros r w' Hw' Hr. exists 0%nat, 0%nat. split; [lia|]. split; [|exact Hr].
    cbn [snd seq map]. rewrite Hw', Htr2, Htr1. reflexivity. }
  destruct (py_get (curriculum_structure state) (U "modules") (new (OList [])) w2)
    as [[mv|e] w3] eqn:Hget.
  2:{ rewrite (bind_raise_eq _ _ _ _ _ Hget).
      pose proof (quiet_py_get (curriculum_structure state) (U "modules") _
                    (quiet_new (OList [])) w2) as [Hq1 Hq2].
      rewrite Hget in Hq1, Hq2. cbn [fst snd] in Hq1, Hq2.
      apply Hquiet; [unfold progress_trace; rewrite Hq1; reflexivity|].
      intros [= ->]. apply Hq2. reflexivity. }
  rewrite (bind_ret_eq _ _ _ _ _ Hget).
  assert (Htr3 : progress_trace w3 = progress_trace w2).
  { pose proof (quiet_py_get (curriculum_structure state) (U "modules") _
                  (quiet_new (OList [])) w2) as [Hq1 _].
    rewrite Hget in Hq1. cbn [snd] in Hq1. unfold progress_trace. rewrite Hq1. reflexivity. }
  destruct (py_iter mv w3) as [[items|e] w4] eqn:Hiter.
  2:{ rewrite (bind_raise_eq _ _ _ _ _ Hiter).
      pose proof (quiet_py_iter mv w3) as [Hq1 Hq2].
      rewrite Hiter in Hq1, Hq2. cbn [fst snd] in Hq1, Hq2.
      apply Hquiet; [unfold progress_trace; rewrite Hq1; exact Htr3|].
      intros [= ->]. apply Hq2. reflexivity. }
  rewrite (bind_ret_eq _ _ _ _ _ Hiter).
  assert (Htr4 : progress_trace w4 = progress_trace w2).
  { pose proof (quiet_py_iter mv w3) as [Hq1 _].
    rewrite Hiter in Hq1. cbn [snd] in Hq1. unfold progress_trace at 1. rewrite Hq1.
    exact Htr3. }
  fold tail.
  destruct items as [|m0 rest].
  { cbn [for_enumerate]. rewrite (bind_ret_eq _ _ w4 w4 tt) by reflexivity.
    destruct (Htail tt w4) as [Hq1 Hq2].
    destruct (tail tt w4) as [r w5]. cbn [fst snd] in Hq1, Hq2.
    apply Hquiet; [unfold progress_trace; rewrite Hq1; exact Htr4 | exact Hq2]. }
  assert (Hstr : (exists s, m0 = VStr s) \/ (forall s, m0 <> VStr s)).
  { destruct m0; try (right; discriminate). left. eauto. }
  destruct Hstr as [[s ->] | Hns].
  { rewrite (bind_raise_eq _ _ _ _ _ (enrich_loop_strings loads E self _ _ _ 0 s rest w4)).
    apply Hquiet; [exact Htr4 | discriminate]. }
  destruct (py_iter_inv mv w3 w4 m0 rest Hiter Hns) as (-> & lm & -> & Hlm).
  destruct (py_get_inv _ _ _ _ _ _ Hget) as (lc & dc & Hcur & Hc & Hcase).
  destruct Hcase as [[Hmods ->] | (_ & [= ->] & ->)].
  2:{ cbn [set_store store] in Hlm. rewrite lookup_snoc in Hlm. discriminate. }
  rewrite Hcur.
  assert (Hinv : loop_inv lc lm le (m0 :: rest) [] (store w2)).
  { split; [exists dc; split; assumption|]. split; [exact Hlm|]. split; [exact Hle2|].
    split; [|constructor].
    intros Heq. clear -Heq Hle2 Hlm. clearbody le w2. congruence. }
  destruct (enrich_loop_spec loads E self lc lm le (preferences state) (m0 :: rest)
              (m0 :: rest) [] w2 eq_refl Hinv) as (j & Hj & Htr & Hres).
  change (length []) with 0%nat in Htr, Hres.
  destruct (for_enumerate (enrich_module loads E self (VRef lc) (preferences state) (VRef le))
              0 (m0 :: rest) w2) as [[u|e] w5] eqn:Hloop; cbn [fst snd] in Htr, Hres.
  - rewrite (bind_ret_eq _ _ _ _ _ Hloop).
    destruct (Htail u w5) as [Hq1 Hq2].
    destruct (tail u w5) as [r w6]. cbn [fst snd] in Hq1, Hq2.
    exists (length (m0 :: rest)), j. split; [exact Hj|]. split; [|exact Hq2].
    cbn [snd]. unfold progress_trace at 1. rewrite Hq1. fold (progress_trace w5).
    rewrite Htr, Htr2, Htr1, <- app_assoc. destruct (streaming self); reflexivity.
  - rewrite (bind_raise_eq _ _ _ _ _ Hloop).
    exists (length (m0 :: rest)), j. split; [exact Hj|]. split; [|cbn; congruence].
    cbn [snd]. rewrite Htr, Htr2, Htr1, <- app_assoc. destruct (streaming self); reflexivity.
Qed.

(** ** C6 *)

(** C6: when node 3 returns, [enriched_modules] is a list that holds
    the modules of [curriculum_structure] in the same order (the same
    objects), the list of the curriculum is as it was, and every module
    has a [resources] entry. *)
Theorem enrichment_preserves_order (loads : pystr -> decoding) (E : Env) (self : Generator)
    (state state' : State) (w w' : World) (lc lm : loc) (dc : list (pystr * val))
    (ms : list val) :
  curriculum_structure state = VRef lc ->
  store w !! lc = Some (ODict dc) ->
  dict_get (U "modules") dc = Some (VRef lm) ->
  store w !! lm = Some (OList ms) ->
  _enrich_resources loads E self state w = (Ret state', w') ->
  exists (le : loc) (dc' : list (pystr * val)),
    enriched_modules state' = VRef le /\
    store w' !! le = Some (OList ms) /\
    curriculum_structure state' = VRef lc /\
    store w' !! lc = Some (ODict dc') /\
    dict_get (U "modules") dc' = Some (VRef lm) /\
    store w' !! lm = Some (OList ms) /\
    Forall (has_resources (store w')) ms.
Proof.
  intros Hcur Hc Hmods Hm Hrun.
  destruct (enrich_resources_list loads E self state w lc lm dc ms Hcur Hc Hmods Hm)
    as (j & _ & _ & Hres).
  rewrite Hrun in Hres. cbn [fst snd] in Hres.
  destruct Hres as (_ & le & -> & (dc' & Hc' & Hmods') & Hm' & Hle & _ & Hall).
  exists le, dc'. repeat split; assumption.
Qed.

(** *** Nodes 1, 2 and 4 *)

(** A progress update followed by code that does not report. *)
Lemma update_then_quiet {A} (E : Env) (self : Generator) (stage : pystr) (msg : message)
    (p : Z) (k : M A) (w : World) :
  quiet k ->
  progress_trace (snd ((do _stream_update E self stage msg p then k) w))
  = progress_trace w ++ (if streaming self then [p] else []) /\
  fst ((do _stream_update E self stage msg p then k) w) <> Raise ZeroDivisionError.
Proof.
  intros Hk.
  destruct (stream_update_trace E self stage msg p w) as (w1 & Hs & _ & _ & _ & Htr).
  rewrite (bind_ret_eq _ _ _ _ _ Hs). destruct (Hk w1) as [H1 H2].
  split; [|exact H2]. unfold progress_trace at 1. rewrite H1. exact Htr.
Qed.

Lemma analyze_background_trace (E : Env) (self : Generator) (state : State) (w : World) :
  progress_trace (snd (_analyze_background E self state w))
  = progress_trace w ++ (if streaming self then [15] else []) /\
  fst (_analyze_background E self state w) <> Raise ZeroDivisionError.
Proof. unfold _analyze_background. apply update_then_quiet. quiet_tac. Qed.

Lemma generate_curriculum_trace (loads : pystr -> decoding) (E : Env) (self : Generator)
    (state : State) (w : World) :
  progress_trace (snd (_generate_curriculum loads E self state w))
  = progress_trace w ++ (if streaming self then [40] else []) /\
  fst (_generate_curriculum loads E self state w) <> Raise ZeroDivisionError.
Proof. unfold _generate_curriculum. apply update_then_quiet. quiet_tac. Qed.

Lemma finalize_path_trace (E : Env) (self : Generator) (state : State) (w : World) :
  progress_trace (snd (_finalize_path E self state w))
  = progress_trace w ++ (if streaming self then [100] else []) /\
  fst (_finalize_path E self state w) <> Raise ZeroDivisionError.
Proof. unfold _finalize_path. apply update_then_quiet. quiet_tac. Qed.

(** *** What a node that returns did to the state *)

Lemma bind_ret_inv {A B} (m : M A) (k : A -> M B) (w w' : World) (b : B) :
  bind m k w = (Ret b, w') -> exists a w1, m w = (Ret a, w1) /\ k a w1 = (Ret b, w').
Proof.
  unfold bind. destruct (m w) as [[a|e] w1]; [eauto | discriminate].
Qed.

Lemma analyze_background_ret (E : Env) (self : Generator) (state state' : State)
    (w w' : World) :
  _analyze_background E self state w = (Ret state', w') ->
  exists s, state' = set_analysis state (VStr s).
Proof.
  unfold _analyze_background. intros H.
  apply bind_ret_inv in H as (_ & w1 & _ & H).
  apply bind_ret_inv in H as (response & w2 & _ & H).
  apply bind_ret_inv in H as (_ & w3 & _ & H).
  injection H as <- _. eauto.
Qed.

Lemma generate_curriculum_ret (loads : pystr -> decoding) (E : Env) (self : Generator)
    (state state' : State) (w w' : World) :
  _generate_curriculum loads E self state w = (Ret state', w') ->
  exists v, state' = set_curriculum_structure state v.
Proof.
  unfold _generate_curriculum. intros H.
  apply bind_ret_inv in H as (_ & w1 & _ & H).
  apply bind_ret_inv in H as (response & w2 & _ & H).
  apply bind_ret_inv in H as (v & w3 & _ & H).
  apply bind_ret_inv in H as (_ & w4 & _ & H).
  injection H as <- _. eauto.
Qed.

Lemma py_get_ret_dict (v : val) (k : pystr) (dflt : M val) (w : World) (x : val) :
  fst (py_get v k dflt w) = Ret x -> exists l d, v = VRef l /\ store w !! l = Some (ODict d).
Proof.
  unfold py_get. destruct v as [| | | | |l]; try discriminate.
  destruct (store w !! l) as [[d|xs]|] eqn:Hl; try discriminate.
  intros _. exists l, d. split; [reflexivity | exact Hl].
Qed.

Lemma enrich_resources_ret (loads : pystr -> decoding) (E : Env) (self : Generator)
    (state state' : State) (w w' : World) :
  _enrich_resources loads E self state w = (Ret state', w') ->
  exists le lc,
    state' = set_enriched_modules state (VRef le) /\ curriculum_structure state = VRef lc.
Proof.
  unfold _enrich_resources. intros H.
  apply bind_ret_inv in H as (_ & w1 & _ & H).
  apply bind_ret_inv in H as (enriched & w2 & Hnew & H).
  apply bind_ret_inv in H as (modules & w3 & Hget & H).
  apply bind_ret_inv in H as (items & w4 & _ & H).
  apply bind_ret_inv in H as (_ & w5 & _ & H).
  apply bind_ret_inv in H as (_ & w6 & _ & H).
  injection H as <- _. injection Hnew as <- _.
  destruct (py_get_ret_dict (curriculum_structure state) (U "modules") (new (OList [])) w2 modules)
    as (lc & d & Hc & _); [rewrite Hget; reflexivity|].
  eauto.
Qed.

Lemma finalize_path_ret (E : Env) (self : Generator) (state state' : State) (w w' : World) :
  _finalize_path E self state w = (Ret state', w') ->
  exists lf, state' = set_final_path state (VRef lf).
Proof.
  unfold _finalize_path. intros H.
  apply bind_ret_inv in H as (_ & w1 & _ & H).
  apply bind_ret_inv in H as (_ & w2 & _ & H).
  apply bind_ret_inv in H as (created & w3 & _ & H).
  apply bind_ret_inv in H as (fp & w4 & Hnew & H).
  apply bind_ret_inv in H as (_ & w5 & _ & H).
  injection H as <- _. injection Hnew as <- _. eauto.
Qed.

(** *** The graph *)

Lemma graph_ainvoke_eq (loads : pystr -> decoding) (E : Env) (self : Generator)
    (state : State) :
  graph_ainvoke loads E self state
  = (let* s1 := _analyze_background E self state in
     let* s2 := _generate_curriculum loads E self s1 in
     let* s3 := _enrich_resources loads E self s2 in
     let* s4 := _finalize_path E self s3 in
     ret s4).
Proof. reflexivity. Qed.

Lemma progress_seq_sorted (n j a : nat) :
  StronglySorted Z.le (map (progress_at n) (seq a j)).
Proof.
  revert a. induction j as [|j IH]; intros a; cbn; constructor; [apply IH|].
  apply List.Forall_forall. intros x Hx.
  apply List.in_map_iff in Hx as (k & <- & Hk). apply List.in_seq in Hk.
  apply progress_at_mono. lia.
Qed.

Lemma progress_seq_range (n j : nat) :
  (j <= n)%nat -> Forall (fun x => 75 <= x <= 90) (map (progress_at n) (seq 1 j)).
Proof.
  intros H. apply List.Forall_forall. intros x Hx.
  apply List.in_map_iff in Hx as (k & <- & Hk). apply List.in_seq in Hk.
  apply progress_at_bounds. lia.
Qed.

Lemma ssorted_app (l1 l2 : list Z) (b : Z) :
  StronglySorted Z.le l1 -> StronglySorted Z.le l2 ->
  Forall (fun x => x <= b) l1 -> Forall (fun x => b <= x) l2 ->
  StronglySorted Z.le (l1 ++ l2).
Proof.
  intros H1 H2 Hb1 Hb2. induction l1 as [|x l1 IH]; [exact H2|].
  apply StronglySorted_inv in H1 as [H1 Hx]. inversion Hb1 as [|? ? Hxb Hb1']; subst.
  cbn. constructor; [apply IH; assumption|].
  apply Forall_app. split; [exact Hx|].
  eapply List.Forall_impl; [|exact Hb2]. intros y Hy. cbn in Hy. lia.
Qed.

(** The values a run of the graph reports: 15, 40, 75, one value for
    each enriched module, 100. *)
Lemma stage_values_ok (n j : nat) (tl : list Z) :
  (j <= n)%nat -> tl = [] \/ tl = [100] ->
  StronglySorted Z.le (15 :: 40 :: 75 :: map (progress_at n) (seq 1 j) ++ tl) /\
  Forall (fun x => 15 <= x <= 100) (15 :: 40 :: 75 :: map (progress_at n) (seq 1 j) ++ tl).
Proof.
  intros Hj Htl.
  pose proof (progress_seq_range n j Hj) as Hr.
  pose proof (progress_seq_sorted n j 1) as Hs.
  assert (Htl1 : StronglySorted Z.le tl /\ Forall (fun x => 90 <= x <= 100) tl).
  { destruct Htl as [-> | ->]; split; repeat constructor; lia. }
  destruct Htl1 as [Hts Htr].
  assert (Hps : StronglySorted Z.le (map (progress_at n) (seq 1 j) ++ tl)).
  { apply (ssorted_app _ _ 90); try assumption.
    - eapply List.Forall_impl; [|exact Hr]. intros x Hx. cbn in Hx. lia.
    - eapply List.Forall_impl; [|exact Htr]. intros x Hx. cbn in Hx. lia. }
  assert (Hpr : Forall (fun x => 75 <= x <= 100) (map (progress_at n) (seq 1 j) ++ tl)).
  { apply Forall_app. split.
    - eapply List.Forall_impl; [|exact Hr]. intros x Hx. cbn in Hx. lia.
    - eapply List.Forall_impl; [|exact Htr]. intros x Hx. cbn in Hx. lia. }
  split.
  - repeat constructor; try lia; try assumption;
      (eapply List.Forall_impl; [|exact Hpr]; intros x Hx; cbn in Hx; lia).
  - repeat constructor; try lia.
    eapply List.Forall_impl; [|exact Hpr]. intros x Hx. cbn in Hx. lia.
Qed.

(** A run of the graph reports values that do not decrease, between 15
    and 100; one that returns reported 100 last. *)
Lemma graph_trace (loads : pystr -> decoding) (E : Env) (self : Generator)
    (state : State) (w : World) :
  exists d : list Z,
    progress_trace (snd (graph_ainvoke loads E self state w))
    = progress_trace w ++ (if streaming self then d else []) /\
    StronglySorted Z.le d /\
    Forall (fun x => 15 <= x <= 100) d /\
    (forall state', fst (graph_ainvoke loads E self state w) = Ret state' ->
                    exists d', d = d' ++ [100]) /\
    fst (graph_ainvoke loads E self state w) <> Raise ZeroDivisionError.
Proof.
  rewrite graph_ainvoke_eq.
  destruct (analyze_background_trace E self state w) as [T1 Z1].
  destruct (_analyze_background E self state w) as [[s1|e1] w1] eqn:H1; cbn [fst snd] in T1, Z1.
  2:{ rewrite (bind_raise_eq _ _ _ _ _ H1). cbn [fst snd]. exists [15].
      split; [exact T1|]. split; [repeat constructor|]. split; [repeat constructor; lia|].
      split; [discriminate|]. intros [= ->]. apply Z1. reflexivity. }
  rewrite (bind_ret_eq _ _ _ _ _ H1).
  destruct (generate_curriculum_trace loads E self s1 w1) as [T2 Z2].
  destruct (_generate_curriculum loads E self s1 w1) as [[s2|e2] w2] eqn:H2;
    cbn [fst snd] in T2, Z2.
  2:{ rewrite (bind_raise_eq _ _ _ _ _ H2). cbn [fst snd]. exists [15; 40].
      split; [rewrite T2, T1, <- app_assoc; destruct (streaming self); reflexivity|].
      split; [repeat constructor; lia|]. split; [repeat constructor; lia|].
      split; [discriminate|]. intros [= ->]. apply Z2. reflexivity. }
  rewrite (bind_ret_eq _ _ _ _ _ H2).
  destruct (enrich_resources_trace loads E self s2 w2) as (n & j & Hj & T3 & Z3).
  destruct (_enrich_resources loads E self s2 w2) as [[s3|e3] w3] eqn:H3;
    cbn [fst snd] in T3, Z3.
  2:{ rewrite (bind_raise_eq _ _ _ _ _ H3). cbn [fst snd].
      exists (15 :: 40 :: 75 :: map (progress_at n) (seq 1 j) ++ []).
      destruct (stage_values_ok n j [] Hj (or_introl eq_refl)) as [Hs Hr].
      split; [rewrite T3, T2, T1, <- !app_assoc, app_nil_r;
              destruct (streaming self); reflexivity|].
      split; [exact Hs|]. split; [exact Hr|].
      split; [discriminate|]. intros [= ->]. apply Z3. reflexivity. }
  rewrite (bind_ret_eq _ _ _ _ _ H3).
  destruct (finalize_path_trace E self s3 w3) as [T4 Z4].
  exists (15 :: 40 :: 75 :: map (progress_at n) (seq 1 j) ++ [100]).
  destruct (stage_values_ok n j [100] Hj (or_intror eq_refl)) as [Hs Hr].
  assert (Happ : forall w4,
             progress_trace w4 = progress_trace w3 ++ (if streaming self then [100] else []) ->
             progress_trace w4 = progress_trace w ++
               (if streaming self
                then 15 :: 40 :: 75 :: map (progress_at n) (seq 1 j) ++ [100] else [])).
  { intros w4 ->. rewrite T3, T2, T1, <- !app_assoc. destruct (streaming self); reflexivity. }
  destruct (_finalize_path E self s3 w3) as [[s4|e4] w4] eqn:H4; cbn [fst snd] in T4, Z4.
  - rewrite (bind_ret_eq _ _ _ _ _ H4). cbn [ret fst snd].
    split; [apply Happ; exact T4|]. split; [exact Hs|]. split; [exact Hr|].
    split; [|discriminate]. intros _ _.
    exists (15 :: 40 :: 75 :: map (progress_at n) (seq 1 j)). reflexivity.
  - rewrite (bind_raise_eq _ _ _ _ _ H4). cbn [fst snd].
    split; [apply Happ; exact T4|]. split; [exact Hs|]. split; [exact Hr|].
    split; [discriminate|]. intros [= ->]. apply Z4. reflexivity.
Qed.

(** *** The handler *)

Lemma get_preferences_spec (req : Request) (w : World) :
  exists v w1,
    get_preferences req w = (Ret v, w1) /\
    sink w1 = sink w /\ emitted w1 = emitted w /\
    model_calls w1 = model_calls w /\ clock_reads w1 = clock_reads w.
Proof.
  unfold get_preferences. destruct (req_preferences req) as [v|].
  - exists v, w. repeat split.
  - eexists _, _. repeat split.
Qed.

Lemma handler_enter_spec (req : Request) (ctx : option Ctx) (w : World) :
  exists w0,
    handler_enter req ctx w = (Ret tt, w0) /\
    sink w0 = sink w /\ emitted w0 = emitted w /\
    model_calls w0 = model_calls w /\ clock_reads w0 = clock_reads w.
Proof.
  unfold handler_enter.
  destruct (get_preferences_spec req w) as (v & w1 & Hg & Hs & He & Hm & Hc).
  rewrite (bind_ret_eq _ _ _ _ _ Hg).
  destruct (has_logger ctx); cbn [when].
  - eexists. split; [reflexivity|]. cbn [logger_call snd sink emitted model_calls clock_reads].
    repeat split; assumption.
  - exists w1. repeat split; assumption.
Qed.

Lemma handler_except_spec (E : Env) (lg st em : bool) (tid uid tp : option pystr)
    (error : exn) (w : World) :
  exists w',
    handler_except E lg st em tid uid tp error w = (Ret tt, w') /\
    sink w' = sink w ++
      (if st && truthy tid
       then [{| s_key := of_opt tid; s_channel := U "learningPath";
                s_value := error_update error (now_ms E (clock_reads w)) |}]
       else []) /\
    emitted w' = emitted w ++
      (if em then [Failed (of_opt uid) (of_opt tp) error (of_opt tid)] else []) /\
    model_calls w' = model_calls w.
Proof.
  unfold handler_except, clock_ms.
  destruct lg, (st && truthy tid), em; exec; eexists;
    (split; [reflexivity|]); cbn [sink emitted model_calls]; rewrite ?app_nil_r;
    repeat split.
Qed.

Lemma generate_trace (loads : pystr -> decoding) (E : Env) (self : Generator)
    (req : Request) (w : World) :
  exists d : list Z,
    progress_trace (snd (generate loads E self req w))
    = progress_trace w ++ (if streaming self then d else []) /\
    StronglySorted Z.le d /\
    Forall (fun x => 15 <= x <= 100) d /\
    (forall v, fst (generate loads E self req w) = Ret v -> exists d', d = d' ++ [100]).
Proof.
  unfold generate.
  destruct (get_preferences_spec req w) as (v & w1 & Hg & Hs & _).
  rewrite (bind_ret_eq _ _ _ _ _ Hg).
  match goal with |- context [graph_ainvoke loads E self ?S] => set (s0 := S) end.
  destruct (graph_trace loads E self s0 w1) as (d & Htr & Hsorted & Hrange & Hlast & _).
  assert (Htr1 : progress_trace w1 = progress_trace w)
    by (unfold progress_trace; rewrite Hs; reflexivity).
  exists d.
  destruct (graph_ainvoke loads E self s0 w1) as [[fs|e] w2] eqn:Hgraph; cbn [fst snd] in *.
  - rewrite (bind_ret_eq _ _ _ _ _ Hgraph). cbn [ret fst snd].
    split; [rewrite Htr, Htr1; reflexivity|]. split; [exact Hsorted|].
    split; [exact Hrange|]. intros _ _. apply (Hlast fs). reflexivity.
  - rewrite (bind_raise_eq _ _ _ _ _ Hgraph). cbn [fst snd].
    split; [rewrite Htr, Htr1; reflexivity|]. split; [exact Hsorted|].
    split; [exact Hrange|]. discriminate.
Qed.

(** The [try] block reports what the graph reports. *)
Lemma handler_try_trace (loads : pystr -> decoding) (E : Env) (lg st em : bool)
    (tid uid tp : option pystr) (req : Request) (w : World) :
  exists d : list Z,
    progress_trace (snd (handler_try loads E lg st em tid uid tp req w))
    = progress_trace w ++ (if st && truthy tid then d else []) /\
    StronglySorted Z.le d /\
    Forall (fun x => 15 <= x <= 100) d /\
    (forall u, fst (handler_try loads E lg st em tid uid tp req w) = Ret u ->
               exists d', d = d' ++ [100]).
Proof.
  unfold handler_try, init.
  destruct (truthy (GROQ_API_KEY E)).
  2:{ exists []. cbv iota. unfold bind, raise. cbn [fst snd].
      split; [destruct (st && truthy tid); rewrite app_nil_r; reflexivity|].
      split; [constructor|]. split; [constructor|]. discriminate. }
  cbv iota.
  set (G := {| logger := lg; streams := st; emit_fn := em; self_trace_id := tid |}).
  rewrite (bind_ret_eq (ret G) _ w w G eq_refl).
  destruct (generate_trace loads E G req w) as (d & Htr & Hsorted & Hrange & Hlast).
  change (streaming G) with (st && truthy tid) in Htr.
  exists d. split; [|split; [exact Hsorted|split; [exact Hrange|]]].
  - destruct (generate loads E G req w) as [[lp|e] w2] eqn:Hgen; cbn [fst snd] in Htr.
    + rewrite (bind_ret_eq _ _ _ _ _ Hgen).
      match goal with |- progress_trace (snd (?m w2)) = _ =>
        assert (Hq : quiet m) by quiet_tac;
        rewrite (quiet_trace m w2 Hq) end.
      exact Htr.
    + rewrite (bind_raise_eq _ _ _ _ _ Hgen). exact Htr.
  - intros u Hu.
    destruct (generate loads E G req w) as [[lp|e] w2] eqn:Hgen.
    + apply (Hlast lp). reflexivity.
    + rewrite (bind_raise_eq _ _ _ _ _ Hgen) in Hu. discriminate Hu.
Qed.

(** ** C2 *)

Lemma attach_resources_passes (loads : pystr -> decoding) (v : val) (text : pystr)
    (e : exn) (w : World) :
  extract_json loads text = Raise e -> e <> JSONDecodeError ->
  attach_resources loads v text w = (Raise e, w).
Proof.
  intros He Hne.
  assert (Hc : is_JSONDecodeError e = false) by (destruct e; try reflexivity; congruence).
  unfold attach_resources, parse_response, try_except, bind, lift.
  rewrite He, Hc. reflexivity.
Qed.

(** C2, as stated, fails: a reply that opens 1000 arrays fails
    extraction, since [json.loads] raises [RecursionError] on it; the
    loop catches [json.JSONDecodeError] only, so that the round raises,
    the second module is never asked for, node 3 raises, and the run
    ends in the failure event. *)
Lemma deep_reply_aborts_enrichment :
  let E := demo_env (Some (U "k"))
             [Content (U " knows C, wants Rust "); Content curriculum_reply;
              Content deep_reply; Content resources_reply] in
  RefJson.loads deep_reply = Refused TooDeep /\
  extract_json RefJson.loads deep_reply = Raise RecursionError /\
  fst (_enrich_resources RefJson.loads E demo_self demo_state2 demo_world2)
  = Raise RecursionError /\
  model_calls (snd (_enrich_resources RefJson.loads E demo_self demo_state2 demo_world2))
  = 3%nat /\
  fst (handler RefJson.loads E demo_req (Some demo_ctx) empty_world) = Ret tt /\
  emitted (snd (handler RefJson.loads E demo_req (Some demo_ctx) empty_world))
  = [Failed (VStr (U "u1")) (VStr (U "Rust")) RecursionError (VStr (U "t1"))].
Proof. vm_compute. repeat split. Qed.

(** C2 (amended): in a round of the loop of node 3, when JSON
    extraction raises [e] on the reply of the model, the loop catches
    [e] if it is [json.JSONDecodeError] and passes it on otherwise.
    Caught, the module gets a new empty list as its [resources], the
    round returns, and the loop goes on with the next module in order.
    Passed on ([RecursionError] on a reply nested too deep,
    [ValueError] on too long an integer), [e] ends the round and the
    loop: the module is as it was, and no later module is worked on.
    (The round is one whose prompt can be built and whose model call
    returns; [loop_inv] describes the objects the loop works on.) *)
Theorem enrich_decode_error_empty_resources (loads : pystr -> decoding) (E : Env)
    (self : Generator) (lc lm le : loc) (prefs : val) (ms done rest : list val) (m : val)
    (w : World) (p : list val) (text : pystr) (e : exn) :
  loop_inv lc lm le ms done (store w) ->
  ms <> [] ->
  fst (resource_prompt m prefs w) = Ret p ->
  model E (model_calls w) = Content text ->
  extract_json loads text = Raise e ->
  (e = JSONDecodeError ->
   exists (w' : World) (l lr : loc) (d : list (pystr * val)),
     m = VRef l /\
     enrich_module loads E self (VRef lc) prefs (VRef le) (length done) m w = (Ret tt, w') /\
     store w' !! l = Some (ODict d) /\
     dict_get (U "resources") d = Some (VRef lr) /\
     store w' !! lr = Some (OList []) /\
     for_enumerate (enrich_module loads E self (VRef lc) prefs (VRef le))
       (length done) (m :: rest) w
     = for_enumerate (enrich_module loads E self (VRef lc) prefs (VRef le))
         (S (length done)) rest w') /\
  (e <> JSONDecodeError ->
   exists (w' : World) (l : loc) (d : list (pystr * val)),
     m = VRef l /\
     enrich_module loads E self (VRef lc) prefs (VRef le) (length done) m w = (Raise e, w') /\
     store w !! l = Some (ODict d) /\
     store w' !! l = Some (ODict d) /\
     store w' !! le = Some (OList done) /\
     model_calls w' = S (model_calls w) /\
     for_enumerate (enrich_module loads E self (VRef lc) prefs (VRef le))
       (length done) (m :: rest) w
     = (Raise e, w')).
Proof.
  intros Hinv Hms Hp Hmodel He. split.
  - intros ->.
    apply (enrich_module_empty loads E self lc lm le prefs ms done rest m w p text);
      try assumption.
    intros l d w2 Hl. exists (store w2), []. split; [rewrite app_nil_r; reflexivity|].
    apply attach_resources_decode_error; assumption.
  - intros Hne.
    destruct (resource_prompt_spec m prefs w) as (e0 & Hw1 & _ & Hret).
    destruct (Hret p Hp) as (l & d & -> & Hl).
    destruct (resource_prompt (VRef l) prefs w) as [r w1] eqn:Hrp.
    cbn [fst snd] in Hp, Hw1. subst r w1.
    set (w2 := count_call (set_store (store w ++ e0) w)).
    assert (Hrun : enrich_module loads E self (VRef lc) prefs (VRef le) (length done)
                     (VRef l) w = (Raise e, w2)).
    { unfold enrich_module. rewrite (bind_ret_eq _ _ _ _ _ Hrp).
      rewrite (bind_ret_eq _ _ _ _ _
                 (ainvoke_content E (set_store (store w ++ e0) w) text Hmodel)).
      fold w2. rewrite (bind_raise_eq _ _ _ _ _ (attach_resources_passes loads _ _ _ w2 He Hne)).
      reflexivity. }
    assert (Hle : store w !! le = Some (OList done)) by apply Hinv.
    exists w2, l, d. split; [reflexivity|]. split; [exact Hrun|]. split; [exact Hl|].
    split; [apply lookup_app_old; exact Hl|]. split; [apply lookup_app_old; exact Hle|].
    split; [reflexivity|].
    cbn [for_enumerate]. rewrite (bind_raise_eq _ _ _ _ _ Hrun). reflexivity.
Qed.

(** ** C10 *)

(** C10: in a round of the loop of node 3, when the reply of the model
    decodes to a JSON object that has no [resources] key, the module
    gets a new empty list as its [resources], as after a decoding
    failure, and the loop goes on with the next module. *)
Theorem enrich_missing_key_empty_resources (loads : pystr -> decoding) (E : Env)
    (self : Generator) (lc lm le : loc) (prefs : val) (ms done rest : list val) (m : val)
    (w : World) (p : list val) (text : pystr) (kvs : list (pystr * json)) :
  loop_inv lc lm le ms done (store w) ->
  ms <> [] ->
  fst (resource_prompt m prefs w) = Ret p ->
  model E (model_calls w) = Content text ->
  extract_json loads text = Ret (JObj kvs) ->
  dict_get (U "resources") kvs = None ->
  exists (w' : World) (l lr : loc) (d : list (pystr * val)),
    m = VRef l /\
    enrich_module loads E self (VRef lc) prefs (VRef le) (length done) m w = (Ret tt, w') /\
    store w' !! l = Some (ODict d) /\
    dict_get (U "resources") d = Some (VRef lr) /\
    store w' !! lr = Some (OList []) /\
    for_enumerate (enrich_module loads E self (VRef lc) prefs (VRef le))
      (length done) (m :: rest) w
    = for_enumerate (enrich_module loads E self (VRef lc) prefs (VRef le))
        (S (length done)) rest w'.
Proof.
  intros Hinv Hms Hp Hmodel He Hk.
  apply (enrich_module_empty loads E self lc lm le prefs ms done rest m w p text); try assumption.
  intros l d w2 Hl.
  destruct (attach_resources_no_key loads l text w2 d kvs Hl He Hk) as (h & Hat & ext & Hh).
  exists h, ext. split; assumption.
Qed.

(** ** C1 *)

(** C1, as stated, fails: a reply that is an integer of 4301 digits
    fails extraction, since [json.loads] raises [ValueError] on it;
    node 2 catches [json.JSONDecodeError] only, so that it raises, and
    the run ends in the failure event. *)
Lemma long_integer_aborts_curriculum :
  let E := demo_env (Some (U "k")) [Content (U "knows C"); Content long_integer] in
  RefJson.loads long_integer = Refused (TooLong 4301) /\
  extract_json RefJson.loads long_integer = Raise (ValueError too_long_message) /\
  fst (_generate_curriculum RefJson.loads E demo_self demo_state1 demo_world1)
  = Raise (ValueError too_long_message) /\
  fst (handler RefJson.loads E demo_req (Some demo_ctx) empty_world) = Ret tt /\
  emitted (snd (handler RefJson.loads E demo_req (Some demo_ctx) empty_world))
  = [Failed (VStr (U "u1")) (VStr (U "Rust")) (ValueError too_long_message) (VStr (U "t1"))].
Proof. vm_compute. repeat split. Qed.

(** C1 (amended): when JSON extraction raises [e] on the reply of the
    model to the curriculum prompt, node 2 catches [e] if it is
    [json.JSONDecodeError] and passes it on otherwise.  Caught, node 2
    returns: [curriculum_structure] is a new dict with the title
    ["Learning Path: " + topic], the analysis as description, 30 total
    hours and a new empty list of modules; [progress] is 60 and
    [current_stage] is ['generating'], and the other fields of the
    state are as they were.  Passed on ([RecursionError] on a reply
    nested too deep, [ValueError] on too long an integer), [e] is
    raised by node 2. *)
Theorem curriculum_fallback (loads : pystr -> decoding) (E : Env) (self : Generator)
    (state : State) (w : World) (text : pystr) (e : exn) :
  model E (model_calls w) = Content text ->
  extract_json loads text = Raise e ->
  (e = JSONDecodeError ->
   exists (state' : State) (w' : World) (lc lm : loc),
     _generate_curriculum loads E self state w = (Ret state', w') /\
     curriculum_structure state' = VRef lc /\
     store w !! lc = None /\ store w !! lm = None /\ lc <> lm /\
     store w' !! lc
     = Some (ODict [(U "title",
                     VStr (U "Learning Path: "
                           ++ match topic state with Some t => t | None => U "None" end));
                    (U "description", analysis state);
                    (U "total_hours", VInt 30);
                    (U "modules", VRef lm)]) /\
     store w' !! lm = Some (OList []) /\
     progress state' = 60 /\
     current_stage state' = U "generating" /\
     (user_id state', topic state', background state', goal_level state', preferences state',
      trace_id state', analysis state', enriched_modules state', final_path state', error state')
     = (user_id state, topic state, background state, goal_level state, preferences state,
        trace_id state, analysis state, enriched_modules state, final_path state, error state)) /\
  (e <> JSONDecodeError ->
   exists w' : World, _generate_curriculum loads E self state w = (Raise e, w')).
Proof.
  intros Hm He.
  unfold _generate_curriculum, _stream_update, parse_response, ainvoke, clock_ms.
  destruct self as [lg st em tid]. cbn [logger streams emit_fn self_trace_id].
  assert (Hlc : forall h : heap,
             ((h ++ [OList []]) ++ [ODict (fallback_curriculum state (VRef (length h)))])
               !! length (h ++ [OList []])
             = Some (ODict (fallback_curriculum state (VRef (length h))))).
  { intros h. apply lookup_snoc. }
  assert (Hlm : forall (h : heap) o, ((h ++ [OList []]) ++ [o]) !! length h = Some (OList [])).
  { intros h o. apply lookup_snoc_old, lookup_snoc. }
  assert (Hnew : forall (h : heap) (n : nat), (length h <= n)%nat -> h !! n = None).
  { intros h n Hn. apply lookup_ge_None. exact Hn. }
  split.
  - intros ->.
    destruct st, (truthy tid), lg; exec; rewrite Hm; exec; rewrite He; exec.
    all: try (erewrite py_get_found; [| cbn [store]; apply Hlc | reflexivity];
              erewrite py_len_list; [| cbn [store]; apply Hlm]).
    all: eexists _, _, (length (store w ++ [OList []])), (length (store w)).
    all: repeat split; cbn [store]; try apply Hlc; try apply Hlm;
      try (apply Hnew; rewrite ?length_app; cbn [length]; lia);
      try (rewrite length_app; cbn [length]; lia).
  - intros Hne.
    assert (Hc : is_JSONDecodeError e = false) by (destruct e; try reflexivity; congruence).
    destruct st, (truthy tid), lg; exec; rewrite Hm; exec; rewrite He; exec; rewrite Hc;
      eexists; reflexivity.
Qed.

(** ** C3 *)

(** C3 (amended): the handler returns when its [try] block returns.
    When the [try] block raises an [Exception], the handler catches it
    and returns: it has upserted the error record [{stage: 'error',
    message: 'Failed to generate learning path: ' + str(error),
    progress: 0, timestamp}] under the trace id if there are a sink and
    a trace id, and it has emitted [learning.path.failed] with
    [{userId, topic, error, traceId}] if there is an emitter.  When the
    [try] block raises what is no [Exception] (the task is cancelled
    while it awaits the model), the handler raises it, and it writes no
    record and emits no event. *)
Theorem handler_failure (loads : pystr -> decoding) (E : Env) (req : Request)
    (ctx : option Ctx) (w : World) :
  (forall w1 : World,
     run_outcome loads E req ctx w = (Ret tt, w1) ->
     handler loads E req ctx w = (Ret tt, w1)) /\
  (forall (e : exn) (w1 : World),
     run_outcome loads E req ctx w = (Raise e, w1) ->
     e <> CancelledError ->
     exists w' : World,
       handler loads E req ctx w = (Ret tt, w') /\
       sink w'
       = sink w1 ++
         (if has_streams ctx && truthy (handler_trace_id req ctx)
          then [{| s_key := of_opt (handler_trace_id req ctx);
                   s_channel := U "learningPath";
                   s_value :=
                     {| u_stage := U "error";
                        u_message := [Lit (U "Failed to generate learning path: "); Err e];
                        u_progress := 0;
                        u_timestamp := now_ms E (clock_reads w1) |} |}]
          else []) /\
       emitted w'
       = emitted w1 ++
         (if has_emit ctx
          then [Failed (of_opt (req_userId req)) (of_opt (req_topic req)) e
                  (of_opt (handler_trace_id req ctx))]
          else []) /\
       map event_topic (emitted w')
       = map event_topic (emitted w1) ++
         (if has_emit ctx then [U "learning.path.failed"] else [])) /\
  (forall w1 : World,
     run_outcome loads E req ctx w = (Raise CancelledError, w1) ->
     handler loads E req ctx w = (Raise CancelledError, w1)).
Proof.
  unfold run_outcome, handler.
  destruct (handler_enter_spec req ctx w) as (w0 & Henter & _).
  rewrite (bind_ret_eq _ _ _ _ _ Henter). rewrite Henter. cbn [snd].
  unfold try_except.
  destruct (handler_try loads E (has_logger ctx) (has_streams ctx) (has_emit ctx)
              (handler_trace_id req ctx) (req_userId req) (req_topic req) req w0)
    as [[[]|e] w1].
  - split; [|split]; [intros w1' [= <-]; reflexivity | discriminate | discriminate].
  - split; [discriminate|]. split.
    + intros e' w1' [= <- <-] Hne.
      assert (Hc : is_Exception e = true) by (destruct e; try reflexivity; congruence).
      rewrite Hc.
      destruct (handler_except_spec E (has_logger ctx) (has_streams ctx) (has_emit ctx)
                  (handler_trace_id req ctx) (req_userId req) (req_topic req) e w1)
        as (w' & Hx & Hs & He & _).
      exists w'. split; [exact Hx|]. split; [exact Hs|]. split; [exact He|].
      rewrite He, map_app. destruct (has_emit ctx); reflexivity.
    + intros w1' [= -> <-]. reflexivity.
Qed.

(** ** C9 *)

(** C9 (amended): a missing [GROQ_API_KEY] raises [ValueError] in the
    constructor, which the handler runs inside its [try] block on every
    request: no model call is made, and the error becomes the failure
    of that request (the error record, the failure event). *)
Theorem missing_key_fails_the_request (loads : pystr -> decoding) (E : Env)
    (req : Request) (ctx : option Ctx) (w : World) :
  truthy (GROQ_API_KEY E) = false ->
  exists w',
    handler loads E req ctx w = (Ret tt, w') /\
    model_calls w' = model_calls w /\
    sink w' = sink w ++
      (if observing req ctx
       then [error_call E req ctx (ValueError (U "GROQ_API_KEY environment variable not set")) w]
       else []) /\
    emitted w' = emitted w ++
      (if has_emit ctx
       then [failed_event req ctx (ValueError (U "GROQ_API_KEY environment variable not set"))]
       else []).
Proof.
  intros Hkey. unfold handler.
  destruct (handler_enter_spec req ctx w) as (w0 & Henter & Hs0 & He0 & Hm0 & Hc0).
  rewrite (bind_ret_eq _ _ _ _ _ Henter).
  unfold try_except, handler_try, init. rewrite Hkey.
  unfold bind at 1. unfold raise at 1. cbv iota beta.
  destruct (handler_except_spec E (has_logger ctx) (has_streams ctx) (has_emit ctx)
              (handler_trace_id req ctx) (req_userId req) (req_topic req)
              (ValueError (U "GROQ_API_KEY environment variable not set")) w0)
    as (w' & Hx & Hs & He & Hm).
  exists w'. split; [exact Hx|]. split; [congruence|]. split.
  - rewrite Hs, Hs0. unfold error_call, observing. rewrite Hc0. reflexivity.
  - rewrite He, He0. reflexivity.
Qed.

(** ** C4 *)

(** C4 (amended): in every run of the handler the values the nodes
    report to the sink do not decrease (15, 40, 75, a value from 75 to
    90 for each enriched module, 100).  When the [try] block returns,
    they are all that the sink observed, and the last one is 100.  When
    it raises an [Exception], the sink observes 0 after them, so that
    the observed sequence ends in a decrease whenever a node had
    reported; when it raises what the handler does not catch (a
    cancellation), they are all that the sink observed.  Nothing is
    observed without a sink and a trace id.  The [progress] field of
    the state is 20, 60, 90, 100 after the four nodes in turn. *)
Theorem progress_observed (loads : pystr -> decoding) (E : Env) (req : Request)
    (ctx : option Ctx) (w : World) :
  exists reported : list Z,
    Sorted Z.le reported /\
    Forall (fun x => 15 <= x <= 100) reported /\
    (observing req ctx = false -> reported = []) /\
    match fst (run_outcome loads E req ctx w) with
    | Ret _ =>
        progress_trace (snd (handler loads E req ctx w)) = progress_trace w ++ reported /\
        (observing req ctx = true -> exists r, reported = r ++ [100])
    | Raise e =>
        progress_trace (snd (handler loads E req ctx w))
        = progress_trace w ++ reported ++
          (if observing req ctx
           then match e with CancelledError => [] | _ => [0] end
           else [])
    end /\
    (forall self n state state' w1 w2,
        run_node loads E self n state w1 = (Ret state', w2) ->
        progress state' = node_progress n) /\
    (forall n n', edge n = Some n' -> node_progress n < node_progress n') /\
    0 < node_progress entry_point.
Proof.
  destruct (handler_enter_spec req ctx w) as (w0 & Henter & Hs0 & _).
  assert (Htr0 : progress_trace w0 = progress_trace w)
    by (unfold progress_trace; rewrite Hs0; reflexivity).
  destruct (handler_try_trace loads E (has_logger ctx) (has_streams ctx) (has_emit ctx)
              (handler_trace_id req ctx) (req_userId req) (req_topic req) req w0)
    as (d & Htr & Hsorted & Hrange & Hlast).
  fold (observing req ctx) in Htr.
  exists (if observing req ctx then d else []).
  split; [destruct (observing req ctx); [apply StronglySorted_Sorted; exact Hsorted
                                        | constructor]|].
  split; [destruct (observing req ctx); [exact Hrange | constructor]|].
  split; [intros ->; reflexivity|].
  split.
  - unfold run_outcome, handler. rewrite (bind_ret_eq _ _ _ _ _ Henter). rewrite Henter.
    cbn [snd]. unfold try_except.
    destruct (handler_try loads E (has_logger ctx) (has_streams ctx) (has_emit ctx)
                (handler_trace_id req ctx) (req_userId req) (req_topic req) req w0)
      as [[u|e] w1]; cbn [fst snd] in *.
    + split; [rewrite Htr, Htr0; reflexivity|]. intros ->. apply (Hlast u). reflexivity.
    + destruct (handler_except_spec E (has_logger ctx) (has_streams ctx) (has_emit ctx)
                  (handler_trace_id req ctx) (req_userId req) (req_topic req) e w1)
        as (w' & Hx & Hs & _).
      destruct (is_Exception e) eqn:Hc.
      * rewrite Hx. cbn [snd]. rewrite (progress_trace_app _ _ _ Hs), Htr, Htr0.
        fold (observing req ctx). rewrite <- app_assoc.
        destruct (observing req ctx); destruct e; try reflexivity; discriminate Hc.
      * cbn [snd]. rewrite Htr, Htr0.
        destruct e; try discriminate Hc.
        destruct (observing req ctx); rewrite ?app_nil_r; reflexivity.
  - split; [|split; [|reflexivity]].
    + intros self n state state' w1 w2 Hrun. destruct n; cbn [run_node] in Hrun.
      * apply analyze_background_ret in Hrun as [s ->]. reflexivity.
      * apply generate_curriculum_ret in Hrun as [v ->]. reflexivity.
      * apply enrich_resources_ret in Hrun as (le & lc & -> & _). reflexivity.
      * apply finalize_path_ret in Hrun as [lf ->]. reflexivity.
    + intros n n' Hedge. destruct n; cbn in Hedge; inversion Hedge; subst; reflexivity.
Qed.

(** ** C7 *)

(** C7 (amended): in a run of the graph that returns, each node sets
    its own field, from null to a value that is not null, in the order
    analyze, generate, enrich, finalize, and assigns no field of
    another node.  (The data the fields refer to is shared and is
    changed in place by later nodes: node 3 adds [resources] to the
    module dicts of the curriculum, node 4 rebinds its [modules].) *)
Theorem stages_fill_fields_in_order (loads : pystr -> decoding) (E : Env)
    (self : Generator) (state0 state4 : State) (w w4 : World) :
  fields state0 = (VNone, VNone, VNone, VNone) ->
  graph_ainvoke loads E self state0 w = (Ret state4, w4) ->
  exists (s1 s2 s3 : State) (w1 w2 w3 : World) (a c e f : val),
    _analyze_background E self state0 w = (Ret s1, w1) /\
    _generate_curriculum loads E self s1 w1 = (Ret s2, w2) /\
    _enrich_resources loads E self s2 w2 = (Ret s3, w3) /\
    _finalize_path E self s3 w3 = (Ret state4, w4) /\
    a <> VNone /\ c <> VNone /\ e <> VNone /\ f <> VNone /\
    fields s1 = (a, VNone, VNone, VNone) /\
    fields s2 = (a, c, VNone, VNone) /\
    fields s3 = (a, c, e, VNone) /\
    fields state4 = (a, c, e, f).
Proof.
  intros H0 Hrun. rewrite graph_ainvoke_eq in Hrun.
  apply bind_ret_inv in Hrun as (s1 & w1 & H1 & Hrun).
  apply bind_ret_inv in Hrun as (s2 & w2 & H2 & Hrun).
  apply bind_ret_inv in Hrun as (s3 & w3 & H3 & Hrun).
  apply bind_ret_inv in Hrun as (s4 & w4' & H4 & Hrun).
  injection Hrun as <- <-.
  destruct (analyze_background_ret _ _ _ _ _ _ H1) as [a E1].
  destruct (generate_curriculum_ret _ _ _ _ _ _ _ H2) as [c E2].
  destruct (enrich_resources_ret _ _ _ _ _ _ _ H3) as (le & lc & E3 & Hc).
  destruct (finalize_path_ret _ _ _ _ _ _ H4) as [lf E4].
  assert (Hcv : c = VRef lc) by (rewrite E2 in Hc; exact Hc).
  unfold fields in H0. injection H0 as Ha Hcs He Hf.
  exists s1, s2, s3, w1, w2, w3, (VStr a), c, (VRef le), (VRef lf).
  split; [exact H1|]. split; [exact H2|]. split; [exact H3|]. split; [exact H4|].
  split; [discriminate|]. split; [rewrite Hcv; discriminate|].
  split; [discriminate|]. split; [discriminate|].
  subst s4 s3 s2 s1. unfold fields. cbn.
  rewrite Hcs, He, Hf. repeat split.
Qed.

(** ** C8 *)

(** C8 (amended): no run of node 3 divides by zero.  With an empty list
    of modules the body of the loop, which holds the division, is not
    run: the node reports 75, calls the model not once, sets
    [enriched_modules] to a new empty list and returns.  And whatever
    the state, node 3 does not raise [ZeroDivisionError]. *)
Theorem enrich_empty_modules (loads : pystr -> decoding) (E : Env) (self : Generator)
    (state : State) (w : World) (lc lm : loc) (dc : list (pystr * val)) :
  curriculum_structure state = VRef lc ->
  store w !! lc = Some (ODict dc) ->
  dict_get (U "modules") dc = Some (VRef lm) ->
  store w !! lm = Some (OList []) ->
  (exists (w' : World) (le : loc),
      _enrich_resources loads E self state w
      = (Ret (set_enriched_modules state (VRef le)), w') /\
      store w' !! le = Some (OList []) /\
      model_calls w' = model_calls w /\
      progress_trace w' = progress_trace w ++ (if streaming self then [75] else [])) /\
  (forall (state0 : State) (w0 : World),
      fst (_enrich_resources loads E self state0 w0) <> Raise ZeroDivisionError).
Proof.
  intros Hcur Hc Hmods Hm. split.
  2:{ intros state0 w0.
      destruct (enrich_resources_trace loads E self state0 w0) as (n & j & _ & _ & Hz).
      exact Hz. }
  unfold _enrich_resources. rewrite Hcur.
  destruct (stream_update_trace E self (U "enriching")
              [Lit (U "Finding the best learning resources...")] 75 w)
    as (w1 & Hs & Hst1 & Hmc1 & _ & Htr1).
  rewrite (bind_ret_eq _ _ _ _ _ Hs).
  rewrite (bind_ret_eq _ _ _ _ _ (new_eq (OList []) w1)).
  set (le := length (store w1)).
  set (w2 := set_store (store w1 ++ [OList []]) w1).
  assert (Hc2 : store w2 !! lc = Some (ODict dc))
    by (unfold w2; cbn [set_store store]; rewrite Hst1; apply lookup_app_old; exact Hc).
  assert (Hm2 : store w2 !! lm = Some (OList []))
    by (unfold w2; cbn [set_store store]; rewrite Hst1; apply lookup_app_old; exact Hm).
  assert (Hle2 : store w2 !! le = Some (OList [])) by apply lookup_snoc.
  rewrite (bind_ret_eq _ _ _ _ _ (py_get_found lc (U "modules") _ w2 dc (VRef lm) Hc2 Hmods)).
  rewrite (bind_ret_eq _ _ _ _ _ (py_iter_list lm w2 [] Hm2)).
  cbn [for_enumerate]. rewrite (bind_ret_eq (ret tt) _ w2 w2 tt eq_refl).
  destruct (logger self); unfold when.
  - rewrite (bind_ret_eq _ _ w2
               {| store := store w2; sink := sink w2;
                  log := log w2 ++ [(INFO, [Lit [9989%N]; Lit (U " Resources enriched")])];
                  emitted := emitted w2; model_calls := model_calls w2;
                  clock_reads := clock_reads w2 |} tt).
    2:{ rewrite (bind_ret_eq _ _ _ _ _ (py_len_list le w2 [] Hle2)). reflexivity. }
    eexists _, le. split; [reflexivity|]. cbn [store model_calls].
    split; [exact Hle2|]. split; [exact Hmc1 | exact Htr1].
  - rewrite (bind_ret_eq (ret tt) _ w2 w2 tt eq_refl).
    eexists _, le. split; [reflexivity|].
    split; [exact Hle2|]. split; [exact Hmc1 | exact Htr1].
Qed.

(** ** Concrete runs *)

(** The hand-written worlds are those of the runs. *)
Lemma demo_world2_reached :
  (let* s1 := _analyze_background (demo_env (Some (U "k")) good_replies) silent_self
                demo_state0 in
   _generate_curriculum RefJson.loads (demo_env (Some (U "k")) good_replies) silent_self s1)
    demo_world0
  = (Ret demo_state2, demo_world2).
Proof. vm_compute. reflexivity. Qed.

Lemma fallback_world2_reached :
  (let* s1 := _analyze_background (demo_env (Some (U "k")) fallback_replies) silent_self
                demo_state0 in
   _generate_curriculum RefJson.loads (demo_env (Some (U "k")) fallback_replies) silent_self s1)
    demo_world0
  = (Ret fallback_state2, fallback_world2).
Proof. vm_compute. reflexivity. Qed.

Lemma demo_loop_inv : loop_inv 5 4 6 [VRef 2; VRef 3] [] (store demo_loop_world).
Proof.
  repeat split.
  - eexists. split; reflexivity.
  - discriminate.
  - constructor.
Qed.

Lemma curriculum_fallback_witness :
  (exists (state' : State) (w' : World) (lc lm : loc),
     _generate_curriculum RefJson.loads (demo_env (Some (U "k")) [Content (U "not json")])
       demo_self demo_state0 empty_world = (Ret state', w') /\
     curriculum_structure state' = VRef lc /\
     store empty_world !! lc = None /\ store empty_world !! lm = None /\ lc <> lm /\
     store w' !! lc
     = Some (ODict [(U "title", VStr (U "Learning Path: Rust"));
                    (U "description", VNone);
                    (U "total_hours", VInt 30);
                    (U "modules", VRef lm)]) /\
     store w' !! lm = Some (OList []) /\
     progress state' = 60 /\
     current_stage state' = U "generating" /\
     (user_id state', topic state', background state', goal_level state', preferences state',
      trace_id state', analysis state', enriched_modules state', final_path state', error state')
     = (Some (U "u1"), Some (U "Rust"), Some (U "knows C"), U "advanced", VRef 0,
        Some (U "t1"), VNone, VNone, VNone, VNone)) /\
  (exists w' : World,
     _generate_curriculum RefJson.loads (demo_env (Some (U "k")) [Content long_integer])
       demo_self demo_state0 empty_world = (Raise (ValueError too_long_message), w')).
Proof.
  split.
  - apply (curriculum_fallback RefJson.loads (demo_env (Some (U "k")) [Content (U "not json")])
             demo_self demo_state0 empty_world (U "not json") JSONDecodeError);
      reflexivity.
  - apply (curriculum_fallback RefJson.loads (demo_env (Some (U "k")) [Content long_integer])
             demo_self demo_state0 empty_world long_integer (ValueError too_long_message)).
    + reflexivity.
    + vm_compute. reflexivity.
    + discriminate.
Defined.

Lemma enrich_decode_error_witness :
  let E := demo_env (Some (U "k")) good_replies in
  let E' := demo_env (Some (U "k")) [Content []; Content []; Content long_integer] in
  (exists (w' : World) (l lr : loc) (d : list (pystr * val)),
     VRef 2 = VRef l /\
     enrich_module RefJson.loads E demo_self
       (VRef 5) (VRef 0) (VRef 6) 0 (VRef 2) demo_loop_world = (Ret tt, w') /\
     store w' !! l = Some (ODict d) /\
     dict_get (U "resources") d = Some (VRef lr) /\
     store w' !! lr = Some (OList []) /\
     for_enumerate (enrich_module RefJson.loads E demo_self (VRef 5) (VRef 0) (VRef 6))
       0 [VRef 2; VRef 3] demo_loop_world
     = for_enumerate (enrich_module RefJson.loads E demo_self (VRef 5) (VRef 0) (VRef 6))
         1 [VRef 3] w') /\
  (exists (w' : World) (l : loc) (d : list (pystr * val)),
     VRef 2 = VRef l /\
     enrich_module RefJson.loads E' demo_self
       (VRef 5) (VRef 0) (VRef 6) 0 (VRef 2) demo_loop_world
     = (Raise (ValueError too_long_message), w') /\
     store demo_loop_world !! l = Some (ODict d) /\
     store w' !! l = Some (ODict d) /\
     store w' !! 6%nat = Some (OList []) /\
     model_calls w' = 3%nat /\
     for_enumerate (enrich_module RefJson.loads E' demo_self (VRef 5) (VRef 0) (VRef 6))
       0 [VRef 2; VRef 3] demo_loop_world
     = (Raise (ValueError too_long_message), w')).
Proof.
  intros E E'. split.
  - apply (enrich_decode_error_empty_resources RefJson.loads E demo_self 5 4 6 (VRef 0)
             [VRef 2; VRef 3] [] [VRef 3] (VRef 2) demo_loop_world
             [VStr (U "A"); VStr []; VStr (U "x, y"); VBool true; VBool true; VBool true]
             (U "not json") JSONDecodeError).
    + exact demo_loop_inv.
    + discriminate.
    + reflexivity.
    + reflexivity.
    + reflexivity.
    + reflexivity.
  - apply (enrich_decode_error_empty_resources RefJson.loads E' demo_self 5 4 6 (VRef 0)
             [VRef 2; VRef 3] [] [VRef 3] (VRef 2) demo_loop_world
             [VStr (U "A"); VStr []; VStr (U "x, y"); VBool true; VBool true; VBool true]
             long_integer (ValueError too_long_message)).
    + exact demo_loop_inv.
    + discriminate.
    + reflexivity.
    + reflexivity.
    + vm_compute. reflexivity.
    + discriminate.
Defined.

Lemma enrich_missing_key_witness :
  exists (w' : World) (l lr : loc) (d : list (pystr * val)),
    VRef 2 = VRef l /\
    enrich_module RefJson.loads
      (demo_env (Some (U "k")) [Content []; Content []; Content other_reply]) demo_self
      (VRef 5) (VRef 0) (VRef 6) 0 (VRef 2) demo_loop_world = (Ret tt, w') /\
    store w' !! l = Some (ODict d) /\
    dict_get (U "resources") d = Some (VRef lr) /\
    store w' !! lr = Some (OList []) /\
    for_enumerate (enrich_module RefJson.loads
                     (demo_env (Some (U "k")) [Content []; Content []; Content other_reply])
                     demo_self (VRef 5) (VRef 0) (VRef 6)) 0 [VRef 2; VRef 3] demo_loop_world
    = for_enumerate (enrich_module RefJson.loads
                       (demo_env (Some (U "k")) [Content []; Content []; Content other_reply])
                       demo_self (VRef 5) (VRef 0) (VRef 6)) 1 [VRef 3] w'.
Proof.
  apply (enrich_missing_key_empty_resources RefJson.loads
           (demo_env (Some (U "k")) [Content []; Content []; Content other_reply])
           demo_self 5 4 6 (VRef 0)
           [VRef 2; VRef 3] [] [VRef 3] (VRef 2) demo_loop_world
           [VStr (U "A"); VStr []; VStr (U "x, y"); VBool true; VBool true; VBool true]
           other_reply [(U "items", JArr [])]).
  - exact demo_loop_inv.
  - discriminate.
  - reflexivity.
  - reflexivity.
  - reflexivity.
  - reflexivity.
Defined.

Lemma enrichment_preserves_order_witness :
  exists (state' : State) (w' : World),
    _enrich_resources RefJson.loads (demo_env (Some (U "k")) good_replies) demo_self
      demo_state2 demo_world2 = (Ret state', w') /\
    exists (le : loc) (dc' : list (pystr * val)),
      enriched_modules state' = VRef le /\
      store w' !! le = Some (OList [VRef 2; VRef 3]) /\
      curriculum_structure state' = VRef 5 /\
      store w' !! 5%nat = Some (ODict dc') /\
      dict_get (U "modules") dc' = Some (VRef 4) /\
      store w' !! 4%nat = Some (OList [VRef 2; VRef 3]) /\
      Forall (has_resources (store w')) [VRef 2; VRef 3].
Proof.
  assert (H : exists state' w',
             _enrich_resources RefJson.loads (demo_env (Some (U "k")) good_replies) demo_self
               demo_state2 demo_world2 = (Ret state', w'))
    by (vm_compute; eexists _, _; reflexivity).
  destruct H as (state' & w' & H). exists state', w'. split; [exact H|].
  apply (enrichment_preserves_order RefJson.loads (demo_env (Some (U "k")) good_replies)
           demo_self demo_state2 state' demo_world2 w' 5 4
           [(U "title", VStr (U "Rust")); (U "modules", VRef 4)] [VRef 2; VRef 3]);
    try reflexivity.
  exact H.
Defined.

(** C8, as stated, fails: in the run whose curriculum reply is not JSON
    the fallback curriculum has no module, node 3 returns, and the
    handler emits [learning.path.generated]. *)
Lemma fallback_run_completes :
  fst (_enrich_resources RefJson.loads (demo_env (Some (U "k")) fallback_replies) demo_self
         fallback_state2 fallback_world2)
  = Ret (set_enriched_modules fallback_state2 (VRef 3)) /\
  fst (run_outcome RefJson.loads (demo_env (Some (U "k")) fallback_replies) demo_req
         (Some demo_ctx) empty_world) = Ret tt /\
  map event_topic
    (emitted (snd (handler RefJson.loads (demo_env (Some (U "k")) fallback_replies) demo_req
                     (Some demo_ctx) empty_world)))
  = [U "learning.path.generated"] /\
  progress_trace (snd (handler RefJson.loads (demo_env (Some (U "k")) fallback_replies)
                         demo_req (Some demo_ctx) empty_world))
  = [15; 40; 75; 100].
Proof. vm_compute. repeat split. Qed.

Lemma enrich_empty_modules_witness :
  (exists (w' : World) (le : loc),
      _enrich_resources RefJson.loads (demo_env (Some (U "k")) fallback_replies) demo_self
        fallback_state2 fallback_world2
      = (Ret (set_enriched_modules fallback_state2 (VRef le)), w') /\
      store w' !! le = Some (OList []) /\
      model_calls w' = model_calls fallback_world2 /\
      progress_trace w' = progress_trace fallback_world2 ++
                            (if streaming demo_self then [75] else [])) /\
  (forall (state0 : State) (w0 : World),
      fst (_enrich_resources RefJson.loads (demo_env (Some (U "k")) fallback_replies)
             demo_self state0 w0) <> Raise ZeroDivisionError).
Proof.
  apply (enrich_empty_modules RefJson.loads (demo_env (Some (U "k")) fallback_replies)
           demo_self fallback_state2 fallback_world2 2 1
           [(U "title", VStr (U "Learning Path: Rust"));
            (U "description", VStr (U "knows C"));
            (U "total_hours", VInt 30);
            (U "modules", VRef 1)]); reflexivity.
Defined.

(** C9, as stated, fails: without [GROQ_API_KEY] the handler returns,
    and the error of the constructor is the failure event of the
    request. *)
Lemma missing_key_becomes_failure_event :
  handler RefJson.loads (demo_env None good_replies) demo_req (Some demo_ctx) empty_world
  = (Ret tt,
     {| store := [ODict []];
        sink := [error_call (demo_env None good_replies) demo_req (Some demo_ctx)
                   (ValueError (U "GROQ_API_KEY environment variable not set")) empty_world];
        log := [(INFO, [Lit [129302%N]; Lit (U " LangGraph Agent activated")]);
                (ERROR, [Lit [10060%N]; Lit (U " Learning path generation failed")])];
        emitted := [failed_event demo_req (Some demo_ctx)
                      (ValueError (U "GROQ_API_KEY environment variable not set"))];
        model_calls := 0;
        clock_reads := 1 |}).
Proof. vm_compute. reflexivity. Qed.

Lemma missing_key_witness :
  exists w',
    handler RefJson.loads (demo_env None good_replies) demo_req (Some demo_ctx) empty_world
    = (Ret tt, w') /\
    model_calls w' = model_calls empty_world /\
    sink w' = sink empty_world ++
      (if observing demo_req (Some demo_ctx)
       then [error_call (demo_env None good_replies) demo_req (Some demo_ctx)
               (ValueError (U "GROQ_API_KEY environment variable not set")) empty_world]
       else []) /\
    emitted w' = emitted empty_world ++
      (if has_emit (Some demo_ctx)
       then [failed_event demo_req (Some demo_ctx)
               (ValueError (U "GROQ_API_KEY environment variable not set"))]
       else []).
Proof.
  apply (missing_key_fails_the_request RefJson.loads (demo_env None good_replies) demo_req
           (Some demo_ctx) empty_world). reflexivity.
Defined.

(** C3, as stated, fails twice.  Without an emitter ([ctx] is [None])
    the run fails and no failure event is emitted.  And when the task
    is cancelled while node 1 awaits the model, the handler raises
    [asyncio.CancelledError], which [except Exception] does not catch:
    the sink has the report of node 1 and no error record, and no event
    is emitted. *)
Lemma failure_not_converted :
  (fst (run_outcome RefJson.loads (demo_env (Some (U "k")) []) demo_req None empty_world)
   = Raise (ModelCallError (U "no reply")) /\
   handler RefJson.loads (demo_env (Some (U "k")) []) demo_req None empty_world
   = (Ret tt,
      {| store := [ODict []; ODict []]; sink := []; log := []; emitted := [];
         model_calls := 1; clock_reads := 0 |})) /\
  (let w' := snd (handler RefJson.loads (demo_env (Some (U "k")) [Cancelled]) demo_req
                    (Some demo_ctx) empty_world) in
   fst (handler RefJson.loads (demo_env (Some (U "k")) [Cancelled]) demo_req
          (Some demo_ctx) empty_world) = Raise CancelledError /\
   map (fun c => u_stage (s_value c)) (sink w') = [U "analyzing"] /\
   emitted w' = []).
Proof. vm_compute. repeat split. Qed.

Lemma handler_failure_witness :
  let E := demo_env (Some (U "k")) [] in
  let w1 := snd (run_outcome RefJson.loads E demo_req (Some demo_ctx) empty_world) in
  let E' := demo_env (Some (U "k")) [Cancelled] in
  let w1' := snd (run_outcome RefJson.loads E' demo_req (Some demo_ctx) empty_world) in
  (exists w' : World,
     handler RefJson.loads E demo_req (Some demo_ctx) empty_world = (Ret tt, w') /\
     sink w'
     = sink w1 ++
       [{| s_key := VStr (U "t1");
           s_channel := U "learningPath";
           s_value :=
             {| u_stage := U "error";
                u_message := [Lit (U "Failed to generate learning path: ");
                              Err (ModelCallError (U "no reply"))];
                u_progress := 0;
                u_timestamp := now_ms E (clock_reads w1) |} |}] /\
     emitted w'
     = emitted w1 ++
       [Failed (VStr (U "u1")) (VStr (U "Rust")) (ModelCallError (U "no reply"))
          (VStr (U "t1"))] /\
     map event_topic (emitted w')
     = map event_topic (emitted w1) ++ [U "learning.path.failed"]) /\
  handler RefJson.loads E' demo_req (Some demo_ctx) empty_world = (Raise CancelledError, w1').
Proof.
  intros E w1 E' w1'. split.
  - apply (handler_failure RefJson.loads E demo_req (Some demo_ctx) empty_world).
    + vm_compute. reflexivity.
    + discriminate.
  - apply (handler_failure RefJson.loads E' demo_req (Some demo_ctx) empty_world).
    vm_compute. reflexivity.
Defined.

(** C4, as stated, fails: when the first model call fails, the sink
    observes 15 and then 0. *)
Lemma failed_run_progress_decreases :
  progress_trace (snd (handler RefJson.loads (demo_env (Some (U "k")) []) demo_req
                         (Some demo_ctx) empty_world)) = [15; 0] /\
  ~ Sorted Z.le [15; 0].
Proof.
  split; [vm_compute; reflexivity|].
  intros H. inversion H as [|? ? _ Hd]; subst. inversion Hd as [|? ? Hle]; subst.
  lia.
Qed.

Lemma progress_observed_witness :
  exists reported : list Z,
    Sorted Z.le reported /\
    Forall (fun x => 15 <= x <= 100) reported /\
    (observing demo_req (Some demo_ctx) = false -> reported = []) /\
    match fst (run_outcome RefJson.loads (demo_env (Some (U "k")) good_replies) demo_req
                 (Some demo_ctx) empty_world) with
    | Ret _ =>
        progress_trace (snd (handler RefJson.loads (demo_env (Some (U "k")) good_replies)
                               demo_req (Some demo_ctx) empty_world))
        = progress_trace empty_world ++ reported /\
        (observing demo_req (Some demo_ctx) = true -> exists r, reported = r ++ [100])
    | Raise e =>
        progress_trace (snd (handler RefJson.loads (demo_env (Some (U "k")) good_replies)
                               demo_req (Some demo_ctx) empty_world))
        = progress_trace empty_world ++ reported ++
            (if observing demo_req (Some demo_ctx)
             then match e with CancelledError => [] | _ => [0] end
             else [])
    end /\
    (forall self n state state' w1 w2,
        run_node RefJson.loads (demo_env (Some (U "k")) good_replies) self n state w1
        = (Ret state', w2) ->
        progress state' = node_progress n) /\
    (forall n n', edge n = Some n' -> node_progress n < node_progress n') /\
    0 < node_progress entry_point.
Proof.
  exact (progress_observed RefJson.loads (demo_env (Some (U "k")) good_replies) demo_req
           (Some demo_ctx) empty_world).
Defined.

(** The run that succeeds, end to end. *)
Lemma good_run_progress :
  progress_trace (snd (handler RefJson.loads (demo_env (Some (U "k")) good_replies) demo_req
                         (Some demo_ctx) empty_world)) = [15; 40; 75; 82; 90; 100] /\
  map event_topic
    (emitted (snd (handler RefJson.loads (demo_env (Some (U "k")) good_replies) demo_req
                     (Some demo_ctx) empty_world)))
  = [U "learning.path.generated"].
Proof. vm_compute. split; reflexivity. Qed.

(** C7, as stated, fails for the data the fields hold: node 3 adds
    [resources] to the module dicts that the curriculum of node 2
    holds, and node 4 rebinds [modules] in the curriculum dict to the
    list of node 3. *)
Lemma stages_share_data :
  exists (s3 s4 : State) (w3 w4 : World),
    _enrich_resources RefJson.loads (demo_env (Some (U "k")) good_replies) silent_self
      demo_state2 demo_world2 = (Ret s3, w3) /\
    _finalize_path (demo_env (Some (U "k")) good_replies) silent_self s3 w3 = (Ret s4, w4) /\
    curriculum_structure demo_state2 = VRef 5 /\
    curriculum_structure s3 = VRef 5 /\
    curriculum_structure s4 = VRef 5 /\
    store demo_world2 !! 3%nat = Some (ODict [(U "title", VStr (U "B"))]) /\
    store w3 !! 3%nat = Some (ODict [(U "title", VStr (U "B")); (U "resources", VRef 10)]) /\
    store w3 !! 5%nat = Some (ODict [(U "title", VStr (U "Rust")); (U "modules", VRef 4)]) /\
    store w4 !! 5%nat = Some (ODict [(U "title", VStr (U "Rust")); (U "modules", VRef 6)]) /\
    enriched_modules s4 = VRef 6.
Proof. vm_compute. eexists _, _, _, _. repeat split. Qed.

Lemma stages_fill_fields_witness :
  exists (state4 : State) (w4 : World),
    graph_ainvoke RefJson.loads (demo_env (Some (U "k")) good_replies) demo_self
      demo_state0 demo_world0 = (Ret state4, w4) /\
    exists (s1 s2 s3 : State) (w1 w2 w3 : World) (a c e f : val),
      _analyze_background (demo_env (Some (U "k")) good_replies) demo_self demo_state0
        demo_world0 = (Ret s1, w1) /\
      _generate_curriculum RefJson.loads (demo_env (Some (U "k")) good_replies) demo_self
        s1 w1 = (Ret s2, w2) /\
      _enrich_resources RefJson.loads (demo_env (Some (U "k")) good_replies) demo_self
        s2 w2 = (Ret s3, w3) /\
      _finalize_path (demo_env (Some (U "k")) good_replies) demo_self s3 w3
      = (Ret state4, w4) /\
      a <> VNone /\ c <> VNone /\ e <> VNone /\ f <> VNone /\
      fields s1 = (a, VNone, VNone, VNone) /\
      fields s2 = (a, c, VNone, VNone) /\
      fields s3 = (a, c, e, VNone) /\
      fields state4 = (a, c, e, f).
Proof.
  assert (H : exists state4 w4,
             graph_ainvoke RefJson.loads (demo_env (Some (U "k")) good_replies) demo_self
               demo_state0 demo_world0 = (Ret state4, w4))
    by (vm_compute; eexists _, _; reflexivity).
  destruct H as (state4 & w4 & H). exists state4, w4. split; [exact H|].
  apply (stages_fill_fields_in_order RefJson.loads (demo_env (Some (U "k")) good_replies)
           demo_self demo_state0 state4 demo_world0 w4); [reflexivity | exact H].
Defined.

(** The exact quotient of [interpolate] is what binary64 gives, for
    every list of up to 128 modules. *)
Lemma interpolate_binary64 : Binary64.agrees_up_to 128 = true.
Proof. vm_compute. reflexivity. Qed.

(** * Further properties of the code *)

(** ** The payload of a fenced reply *)

Lemma startswith_split (s p : pystr) :
  startswith s p = true -> s = p ++ drop (length p) s.
Proof.
  revert s. induction p as [|a p IH]; intros s H; [reflexivity|].
  destruct s as [|b s]; [discriminate H|].
  rewrite startswith_cons in H. apply andb_true_iff in H as [Hab Hs].
  apply N.eqb_eq in Hab. subst b. cbn [length drop app]. f_equal. apply IH. exact Hs.
Qed.

Lemma startswith_app_long (s t p : pystr) :
  (length p <= length s)%nat -> startswith (s ++ t) p = startswith s p.
Proof.
  revert s. induction p as [|a p IH]; intros s H; [reflexivity|].
  destruct s as [|b s]; [cbn in H; lia|].
  change ((b :: s) ++ t) with (b :: (s ++ t)). rewrite !startswith_cons.
  rewrite IH; [reflexivity | cbn in H; lia].
Qed.

Lemma find_sep_sound (sep s a b : pystr) :
  find_sep sep s = Some (a, b) -> s = a ++ sep ++ b.
Proof.
  revert a b. induction s as [|c s IH]; intros a b H.
  - cbn in H. destruct (startswith [] sep) eqn:Hs; [|discriminate H].
    injection H as <- <-. destruct sep; [reflexivity | discriminate Hs].
  - rewrite find_sep_cons in H. destruct (startswith (c :: s) sep) eqn:Hs.
    + injection H as <- <-. apply startswith_split. exact Hs.
    + destruct (find_sep sep s) as [[a0 b0]|]; [|discriminate H].
      injection H as <- <-. cbn [app]. f_equal. apply IH. reflexivity.
Qed.

(** The first occurrence of the separator stays the first one when
    text is added at the end. *)
Lemma find_sep_app (sep a t x y : pystr) :
  find_sep sep a = Some (x, y) -> find_sep sep (a ++ t) = Some (x, y ++ t).
Proof.
  revert x y. induction a as [|c a IH]; intros x y H.
  - cbn in H. destruct (startswith [] sep) eqn:Hs; [|discriminate H].
    injection H as <- <-. destruct sep; [|discriminate Hs].
    cbn [app]. destruct t; reflexivity.
  - change ((c :: a) ++ t) with (c :: (a ++ t)).
    rewrite find_sep_cons in H. rewrite find_sep_cons.
    destruct (startswith (c :: a) sep) eqn:Hs.
    + injection H as <- <-.
      change (c :: (a ++ t)) with ((c :: a) ++ t).
      rewrite (startswith_app _ t _ Hs). f_equal. f_equal.
      pose proof (startswith_split _ _ Hs) as Hsp.
      rewrite drop_app_le; [reflexivity|].
      apply (f_equal length) in Hsp. rewrite length_app in Hsp. lia.
    + destruct (find_sep sep a) as [[a0 b0]|] eqn:Hf; [|discriminate H].
      injection H as <- <-.
      change (c :: (a ++ t)) with ((c :: a) ++ t).
      rewrite startswith_app_long.
      * rewrite Hs. rewrite (IH a0 b0 eq_refl). reflexivity.
      * apply find_sep_sound in Hf. apply (f_equal length) in Hf.
        rewrite !length_app in Hf. cbn [length]. lia.
Qed.

(** What [content.split(fence)[1]] is when [content] opens with a fence:
    the text up to the next fence, or all of it. *)
Lemma split_second (y : pystr) :
  split fence (fence ++ y) !! 1%nat
  = Some (match find_sep fence y with Some (a, _) => a | None => y end).
Proof.
  unfold split.
  change (length (fence ++ y)) with (S (S (S (length y)))).
  change (split_fuel (S (S (S (length y)))) fence (fence ++ y))
    with ([] :: split_fuel (S (S (length y))) fence y).
  cbn [split_fuel]. destruct (find_sep fence y) as [[a b]|]; reflexivity.
Qed.

Lemma extract_json_open (loads : pystr -> decoding) (text y : pystr) :
  strip text = fence ++ y ->
  extract_json loads text
  = let seg := match find_sep fence y with Some (a, _) => a | None => y end in
    match loads (strip (if startswith seg (U "json") then drop 4 seg else seg)) with
    | Decoded j => Ret j
    | Refused f => Raise (decode_error f)
    end.
Proof.
  intros H. unfold extract_json. rewrite H, startswith_self_app.
  unfold py_index. rewrite split_second. reflexivity.
Qed.

Lemma extract_json_plain (loads : pystr -> decoding) (text : pystr) :
  startswith (strip text) fence = false ->
  extract_json loads text
  = match loads (strip text) with Decoded j => Ret j | Refused f => Raise (decode_error f) end.
Proof. intros H. unfold extract_json. rewrite H, strip_idem. reflexivity. Qed.

Lemma lstrip_split (s : pystr) : exists w, s = w ++ lstrip s /\ all_space w = true.
Proof.
  induction s as [|c s [w [IH Hw]]]; [exists []; split; reflexivity|].
  cbn [lstrip]. destruct (is_space c) eqn:Hc.
  - exists (c :: w). split; [cbn [app]; f_equal; exact IH|].
    cbn. unfold all_space in Hw. rewrite Hc, Hw. reflexivity.
  - exists []. split; reflexivity.
Qed.

Lemma all_space_rev (w : pystr) : all_space w = true -> all_space (rev w) = true.
Proof.
  unfold all_space. rewrite !forallb_forall. intros H x Hx. apply H.
  apply in_rev. exact Hx.
Qed.

Lemma rstrip_split (s : pystr) : exists w, s = rstrip s ++ w /\ all_space w = true.
Proof.
  destruct (lstrip_split (rev s)) as [w [H Hw]].
  exists (rev w). split; [|apply all_space_rev; exact Hw].
  unfold rstrip. rewrite <- rev_app_distr, <- H, rev_involutive. reflexivity.
Qed.

Lemma strip_rstrip (s : pystr) : strip (rstrip s) = strip s.
Proof.
  destruct (rstrip_split s) as [w [H Hw]].
  rewrite H at 2. symmetry.
  apply (strip_surrounded [] (rstrip s) w); [reflexivity | exact Hw].
Qed.

Lemma lstrip_all_space (w : pystr) : all_space w = true -> lstrip w = [].
Proof.
  induction w as [|c w IH]; [reflexivity|]. cbn. intros H.
  apply andb_true_iff in H as [Hc Hw]. rewrite Hc. apply IH. exact Hw.
Qed.

(** Stripping on the right stops at a character that is not white
    space. *)
Lemma rstrip_after (a t : pystr) (c : N) :
  is_space c = false -> rstrip ((a ++ [c]) ++ t) = (a ++ [c]) ++ rstrip t.
Proof.
  intros Hc. unfold rstrip. rewrite rev_app_distr, lstrip_app.
  destruct (all_space (rev t)) eqn:Ht.
  - rewrite (lstrip_all_space _ Ht). rewrite rev_app_distr. cbn [rev app].
    rewrite lstrip_head by exact Hc. cbn [rev]. rewrite rev_involutive, app_nil_r.
    reflexivity.
  - rewrite rev_app_distr, rev_involutive. reflexivity.
Qed.

Lemma contains_app (sep a t : pystr) :
  contains sep (a ++ t) = false -> contains sep a = false.
Proof.
  unfold contains. destruct (find_sep sep a) as [[x y]|] eqn:H; [|reflexivity].
  rewrite (find_sep_app _ _ t _ _ H). discriminate.
Qed.

Lemma contains_skip_all (p s : pystr) :
  no_backtick p = true -> contains fence (p ++ s) = contains fence s.
Proof.
  intros Hp. induction p as [|c p IH]; [reflexivity|].
  cbn in Hp. apply andb_true_iff in Hp as [Hc Hp]. apply negb_true_iff in Hc.
  change ((c :: p) ++ s) with (c :: (p ++ s)). unfold contains in *.
  rewrite find_sep_skip by exact Hc. specialize (IH Hp).
  destruct (find_sep fence (p ++ s)) as [[a b]|]; exact IH.
Qed.

Lemma startswith_fence_app (s q : pystr) :
  startswith s fence = false -> no_backtick q = true -> startswith (s ++ q) fence = false.
Proof.
  intros Hs Hq.
  assert (Hq0 : forall p, p <> [] -> startswith q p = true -> hd 0%N p <> backtick).
  { intros p Hp H. destruct p as [|a p]; [congruence|]. destruct q as [|b q]; [discriminate H|].
    rewrite startswith_cons in H. apply andb_true_iff in H as [Hab _].
    apply N.eqb_eq in Hab. subst b. cbn in Hq. apply andb_true_iff in Hq as [Hq _].
    apply negb_true_iff, N.eqb_neq in Hq. exact Hq. }
  destruct (startswith (s ++ q) fence) eqn:H; [|reflexivity]. exfalso.
  destruct s as [|a s].
  { apply (Hq0 fence); [discriminate | exact H | reflexivity]. }
  change ((a :: s) ++ q) with (a :: (s ++ q)) in H. unfold fence in H, Hs.
  rewrite startswith_cons in H, Hs. apply andb_true_iff in H as [Ha H].
  rewrite Ha in Hs. cbn [andb] in Hs.
  destruct s as [|b s].
  { apply (Hq0 [backtick; backtick]); [discriminate | exact H | reflexivity]. }
  change ((b :: s) ++ q) with (b :: (s ++ q)) in H.
  rewrite startswith_cons in H, Hs. apply andb_true_iff in H as [Hb H].
  rewrite Hb in Hs. cbn [andb] in Hs.
  destruct s as [|c s].
  { apply (Hq0 [backtick]); [discriminate | exact H | reflexivity]. }
  change ((c :: s) ++ q) with (c :: (s ++ q)) in H.
  rewrite startswith_cons in H, Hs. apply andb_true_iff in H as [Hc _].
  rewrite Hc in Hs. discriminate Hs.
Qed.

Lemma contains_none (q : pystr) : no_backtick q = true -> contains fence q = false.
Proof.
  intros Hq. rewrite <- (app_nil_r q). rewrite contains_skip_all by exact Hq. reflexivity.
Qed.

Lemma contains_app_space (s q : pystr) :
  contains fence s = false -> no_backtick q = true -> contains fence (s ++ q) = false.
Proof.
  intros Hs Hq. induction s as [|c s IH]; [apply contains_none; exact Hq|].
  change ((c :: s) ++ q) with (c :: (s ++ q)). unfold contains.
  rewrite find_sep_cons.
  change (c :: (s ++ q)) with ((c :: s) ++ q).
  rewrite startswith_fence_app; [| apply contains_head; exact Hs | exact Hq].
  specialize (IH (contains_tail _ _ _ Hs)). unfold contains in IH.
  destruct (find_sep fence (s ++ q)) as [[a b]|]; [discriminate IH | reflexivity].
Qed.

Lemma find_sep_none (s : pystr) : contains fence s = false -> find_sep fence s = None.
Proof. unfold contains. destruct (find_sep fence s); [discriminate | reflexivity]. Qed.

Lemma infix_chain (text a0 st b0 y seg b1 a2 un a3 c b3 : pystr) :
  text = a0 ++ st ++ b0 -> st = fence ++ y -> y = seg ++ b1 -> seg = a2 ++ un ->
  un = a3 ++ c ++ b3 ->
  text = (a0 ++ fence ++ a2 ++ a3) ++ c ++ (b3 ++ b1 ++ b0).
Proof. intros -> -> -> -> ->. rewrite <- !app_assoc. reflexivity. Qed.

Lemma decode_outcome (d : decoding) (r : outcome json) :
  r = match d with Decoded j => Ret j | Refused f => Raise (decode_error f) end ->
  match d with
  | Decoded j => r = Ret j
  | Refused Malformed => r = Raise JSONDecodeError
  | Refused TooDeep => r = Raise RecursionError
  | Refused (TooLong n) => exists msg, r = Raise (ValueError msg)
  end /\
  r <> Raise IndexError.
Proof.
  intros ->. destruct d as [j|[| |n]]; cbn [decode_error];
    (split; [first [reflexivity | eexists; reflexivity] | discriminate]).
Qed.

(** X1: whatever the reply, extraction hands one contiguous part [c]
    of the reply to [json.loads], and ends as that call ends: with the
    decoded value, with [json.JSONDecodeError] when [c] is malformed,
    with [RecursionError] when [c] is nested too deep, with
    [ValueError] when [c] holds too long an integer.  Taking the second
    part of the split never raises [IndexError]. *)
Theorem extract_json_outcomes (loads : pystr -> decoding) (text : pystr) :
  exists a c b : pystr,
    text = a ++ c ++ b /\
    match loads c with
    | Decoded j => extract_json loads text = Ret j
    | Refused Malformed => extract_json loads text = Raise JSONDecodeError
    | Refused TooDeep => extract_json loads text = Raise RecursionError
    | Refused (TooLong n) => exists msg, extract_json loads text = Raise (ValueError msg)
    end /\
    extract_json loads text <> Raise IndexError.
Proof.
  assert (Hinfix : forall s, exists a b, s = a ++ strip s ++ b).
  { intros s. destruct (lstrip_split s) as [a [Ha _]].
    destruct (rstrip_split (lstrip s)) as [b [Hb _]].
    exists a, b. rewrite Ha at 1. rewrite Hb at 1. reflexivity. }
  destruct (Hinfix text) as (a0 & b0 & Htext).
  destruct (startswith (strip text) fence) eqn:Hf.
  - apply startswith_split in Hf. set (y := drop (length fence) (strip text)) in Hf.
    assert (Hseg : exists b1, y = (match find_sep fence y with Some (a, _) => a | None => y end)
                                  ++ b1).
    { destruct (find_sep fence y) as [[a b]|] eqn:Hy.
      - apply find_sep_sound in Hy. eauto.
      - exists []. rewrite app_nil_r. reflexivity. }
    destruct Hseg as [b1 Hseg].
    pose proof (extract_json_open loads text y Hf) as Hopen. cbv zeta in Hopen.
    set (seg := match find_sep fence y with Some (a, _) => a | None => y end) in *.
    assert (Hun : exists a2, seg = a2 ++ (if startswith seg (U "json") then drop 4 seg else seg)).
    { destruct (startswith seg (U "json")) eqn:Hj.
      - exists (U "json"). apply (startswith_split _ _ Hj).
      - exists []. reflexivity. }
    destruct Hun as [a2 Hun].
    set (un := if startswith seg (U "json") then drop 4 seg else seg) in *.
    destruct (Hinfix un) as (a3 & b3 & Hun3).
    exists (a0 ++ fence ++ a2 ++ a3), (strip un), (b3 ++ b1 ++ b0).
    split; [|exact (decode_outcome _ _ Hopen)].
    exact (infix_chain _ _ _ _ _ _ _ _ _ _ _ _ Htext Hf Hseg Hun Hun3).
  - exists a0, (strip text), b0. split; [exact Htext|].
    exact (decode_outcome _ _ (extract_json_plain loads text Hf)).
Qed.

Lemma find_sep_payload (p s q : pystr) :
  no_backtick p = true -> contains fence s = false -> ends_with_backtick s = false ->
  no_backtick q = true ->
  find_sep fence ((p ++ s ++ q) ++ fence) = Some (p ++ s ++ q, []).
Proof.
  intros Hp Hc He Hq. rewrite <- !app_assoc.
  apply find_sep_skip_all; [exact Hp|]. apply find_sep_closing; assumption.
Qed.

Lemma strip_open (ws1 body : pystr) (c : N) (pre tail : pystr) :
  all_space ws1 = true -> is_space c = false ->
  body = (fence ++ pre ++ [c]) ++ tail ->
  strip (ws1 ++ body) = fence ++ (pre ++ [c]) ++ rstrip tail.
Proof.
  intros H1 Hc ->.
  rewrite <- (app_nil_r ((fence ++ pre ++ [c]) ++ tail)).
  rewrite (strip_surrounded ws1 _ []) by (assumption || reflexivity).
  unfold strip.
  change ((fence ++ pre ++ [c]) ++ tail) with (backtick :: (([backtick; backtick] ++ pre ++ [c]) ++ tail)).
  rewrite lstrip_head by reflexivity.
  change (backtick :: (([backtick; backtick] ++ pre ++ [c]) ++ tail))
    with (((fence ++ pre) ++ [c]) ++ tail).
  rewrite rstrip_after by exact Hc. rewrite <- !app_assoc. reflexivity.
Qed.

(** X2: what follows the closing fence is ignored.  For a text [s]
    that holds no run of three backticks and does not end in a
    backtick, extraction from [s] in a fence tagged [json], followed by
    any text [tail], gives what extraction from [s] gives. *)
Theorem extract_json_ignores_tail (loads : pystr -> decoding) (s ws1 ws2 ws3 tail : pystr) :
  all_space ws1 = true -> all_space ws2 = true -> all_space ws3 = true ->
  contains fence s = false ->
  ends_with_backtick s = false ->
  extract_json loads (ws1 ++ fence ++ U "json" ++ ws2 ++ s ++ ws3 ++ fence ++ tail)
  = extract_json loads s.
Proof.
  intros H1 H2 H3 Hc He.
  set (X := U "json" ++ ws2 ++ s ++ ws3).
  assert (Hstrip : strip (ws1 ++ fence ++ U "json" ++ ws2 ++ s ++ ws3 ++ fence ++ tail)
                   = fence ++ (X ++ fence) ++ rstrip tail).
  { rewrite (strip_open ws1 _ backtick (X ++ [backtick; backtick]) tail H1 eq_refl).
    - unfold X, fence. rewrite <- !app_assoc. reflexivity.
    - unfold X, fence. rewrite <- !app_assoc. reflexivity. }
  assert (Hf : find_sep fence (X ++ fence) = Some (X, [])).
  { change X with ((U "json" ++ ws2) ++ s ++ ws3).
    apply find_sep_payload; try assumption.
    - unfold no_backtick. rewrite forallb_app. apply andb_true_iff. split; [reflexivity|].
      apply all_space_no_backtick. exact H2.
    - apply all_space_no_backtick. exact H3. }
  rewrite (extract_json_open loads _ _ Hstrip). cbv zeta.
  rewrite (find_sep_app _ _ (rstrip tail) _ _ Hf).
  unfold X at 1. rewrite startswith_self_app.
  change (drop 4 X) with (ws2 ++ s ++ ws3).
  rewrite strip_surrounded by assumption.
  rewrite (extract_json_plain loads s (strip_no_fence s Hc)). reflexivity.
Qed.

(** X3: the tag is optional.  For such an [s], extraction from [s] in
    a fence with no tag gives what extraction from [s] gives, provided
    the fenced text does not itself start with [json]. *)
Theorem extract_json_untagged (loads : pystr -> decoding) (s ws1 ws2 ws3 tail : pystr) :
  all_space ws1 = true -> all_space ws2 = true -> all_space ws3 = true ->
  contains fence s = false ->
  ends_with_backtick s = false ->
  startswith (ws2 ++ s ++ ws3) (U "json") = false ->
  extract_json loads (ws1 ++ fence ++ ws2 ++ s ++ ws3 ++ fence ++ tail)
  = extract_json loads s.
Proof.
  intros H1 H2 H3 Hc He Hj.
  set (X := ws2 ++ s ++ ws3) in *.
  assert (Hstrip : strip (ws1 ++ fence ++ ws2 ++ s ++ ws3 ++ fence ++ tail)
                   = fence ++ (X ++ fence) ++ rstrip tail).
  { rewrite (strip_open ws1 _ backtick (X ++ [backtick; backtick]) tail H1 eq_refl).
    - unfold X, fence. rewrite <- !app_assoc. reflexivity.
    - unfold X, fence. rewrite <- !app_assoc. reflexivity. }
  assert (Hf : find_sep fence (X ++ fence) = Some (X, [])).
  { unfold X. apply find_sep_payload; try assumption.
    - apply all_space_no_backtick. exact H2.
    - apply all_space_no_backtick. exact H3. }
  rewrite (extract_json_open loads _ _ Hstrip). cbv zeta.
  rewrite (find_sep_app _ _ (rstrip tail) _ _ Hf).
  rewrite Hj. unfold X.
  rewrite strip_surrounded by assumption.
  rewrite (extract_json_plain loads s (strip_no_fence s Hc)). reflexivity.
Qed.

(** X4: the closing fence is optional.  For a text [s] that holds no
    run of three backticks, extraction from a reply that opens a fence
    tagged [json] and never closes it gives what extraction from [s]
    gives. *)
Theorem extract_json_unclosed (loads : pystr -> decoding) (s ws1 ws2 ws3 : pystr) :
  all_space ws1 = true -> all_space ws2 = true -> all_space ws3 = true ->
  contains fence s = false ->
  extract_json loads (ws1 ++ fence ++ U "json" ++ ws2 ++ s ++ ws3) = extract_json loads s.
Proof.
  intros H1 H2 H3 Hc.
  assert (Hstrip : strip (ws1 ++ fence ++ U "json" ++ ws2 ++ s ++ ws3)
                   = fence ++ U "json" ++ rstrip (ws2 ++ s ++ ws3)).
  { rewrite (strip_open ws1 _ 110%N (U "jso") (ws2 ++ s ++ ws3) H1 eq_refl); reflexivity. }
  assert (Hno : contains fence (U "json" ++ rstrip (ws2 ++ s ++ ws3)) = false).
  { rewrite contains_skip_all by reflexivity.
    destruct (rstrip_split (ws2 ++ s ++ ws3)) as [w [Hw _]].
    apply (contains_app _ _ w). rewrite <- Hw.
    rewrite contains_skip_all by (apply all_space_no_backtick; exact H2).
    apply contains_app_space; [exact Hc | apply all_space_no_backtick; exact H3]. }
  rewrite (extract_json_open loads _ _ Hstrip). cbv zeta.
  rewrite (find_sep_none _ Hno).
  rewrite startswith_self_app.
  change (drop 4 (U "json" ++ rstrip (ws2 ++ s ++ ws3))) with (rstrip (ws2 ++ s ++ ws3)).
  rewrite strip_rstrip, strip_surrounded by assumption.
  rewrite (extract_json_plain loads s (strip_no_fence s Hc)). reflexivity.
Qed.

(** ** What the code keeps *)

Section Invariant.

Variable loads : pystr -> decoding.
Variable E : Env.
Variable R : World -> World -> Prop.
Hypothesis R_refl : forall w, R w w.
Hypothesis R_trans : forall a b c, R a b -> R b c -> R a c.

Lemma preserves_ret {A} (a : A) : preserves R (ret a).
Proof. intros w. apply R_refl. Qed.

Lemma preserves_raise {A} (e : exn) : preserves R (@raise A e).
Proof. intros w. apply R_refl. Qed.

Lemma preserves_lift {A} (r : outcome A) : preserves R (lift r).
Proof. intros w. apply R_refl. Qed.

Lemma preserves_bind {A B} (m : M A) (k : A -> M B) :
  preserves R m -> (forall a, preserves R (k a)) -> preserves R (bind m k).
Proof.
  intros Hm Hk w. unfold bind. specialize (Hm w).
  destruct (m w) as [[a|e] w1]; cbn [snd] in *; [|exact Hm].
  eapply R_trans; [exact Hm | apply Hk].
Qed.

Lemma preserves_when (b : bool) (m : M unit) : preserves R m -> preserves R (when b m).
Proof. intros H. destruct b; [exact H | apply preserves_ret]. Qed.

Lemma preserves_try_except {A} (body : M A) (caught : exn -> bool) (handler : exn -> M A) :
  preserves R body -> (forall e, preserves R (handler e)) ->
  preserves R (try_except body caught handler).
Proof.
  intros Hb Hh w. unfold try_except. specialize (Hb w).
  destruct (body w) as [[a|e] w1]; cbn [snd] in *; [exact Hb|].
  destruct (caught e); [|exact Hb].
  eapply R_trans; [exact Hb | apply Hh].
Qed.

Lemma preserves_for_enumerate (body : nat -> val -> M unit) :
  (forall i x, preserves R (body i x)) ->
  forall xs i, preserves R (for_enumerate body i xs).
Proof.
  intros Hb xs. induction xs as [|x xs IH]; intros i; cbn [for_enumerate].
  - apply preserves_ret.
  - apply preserves_bind; [apply Hb | intros _; apply IH].
Qed.

Lemma preserves_step {A} (m : M A) (w w' : World) (r : outcome A) :
  preserves R m -> m w = (r, w') -> R w w'.
Proof. intros H Hm. specialize (H w). rewrite Hm in H. exact H. Qed.

(** When the loop returns, every item had its round, from a world the
    loop had reached. *)
Lemma for_enumerate_ret_inv (body : nat -> val -> M unit) :
  (forall i x, preserves R (body i x)) ->
  forall (xs : list val) (i : nat) (w w' : World),
    for_enumerate body i xs w = (Ret tt, w') ->
    forall x, In x xs -> exists j w1 w2, R w w1 /\ body j x w1 = (Ret tt, w2).
Proof.
  intros Hb xs. induction xs as [|x0 xs IH]; intros i w w' H x Hin; [destruct Hin|].
  cbn [for_enumerate] in H. apply bind_ret_inv in H as ([] & wa & Hx0 & Hrest).
  destruct Hin as [<- | Hin].
  - exists i, w, wa. split; [apply R_refl | exact Hx0].
  - destruct (IH (S i) wa w' Hrest x Hin) as (j & w1 & w2 & HR & Hj).
    exists j, w1, w2. split; [|exact Hj].
    eapply R_trans; [|exact HR]. exact (preserves_step _ _ _ _ (Hb i x0) Hx0).
Qed.

Lemma preserves_py_get (v : val) (k : pystr) (dflt : M val) :
  preserves R dflt -> preserves R (py_get v k dflt).
Proof.
  intros H w. unfold py_get. destruct v as [| | | | |l]; try apply R_refl.
  destruct (store w !! l) as [[d|xs]|]; try apply R_refl.
  destruct (dict_get k d); [apply R_refl | apply H].
Qed.

Lemma preserves_py_getitem (v : val) (k : pystr) : preserves R (py_getitem v k).
Proof.
  intros w. unfold py_getitem. destruct v as [| | | | |l]; try apply R_refl.
  destruct (store w !! l) as [[d|xs]|]; try apply R_refl.
  destruct (dict_get k d); apply R_refl.
Qed.

Lemma preserves_py_len (v : val) : preserves R (py_len v).
Proof.
  intros w. unfold py_len. destruct v as [| | | | |l]; try apply R_refl.
  destruct (store w !! l) as [[d|xs]|]; apply R_refl.
Qed.

Lemma preserves_py_iter (v : val) : preserves R (py_iter v).
Proof.
  intros w. unfold py_iter. destruct v as [| | | | |l]; try apply R_refl.
  destruct (store w !! l) as [[d|xs]|]; apply R_refl.
Qed.

Hypothesis R_new : forall o, preserves R (new o).
Hypothesis R_parse : forall text, preserves R (parse_response loads text).
Variable appendable : val -> Prop.
Hypothesis R_append : forall v x, appendable v -> preserves R (py_append v x).
Hypothesis R_log : forall lv msg, preserves R (logger_call lv msg).
Hypothesis R_model : preserves R (ainvoke E).
Hypothesis R_clock : preserves R (clock_iso E).

Variable self : Generator.
Hypothesis R_update :
  forall stage msg p, In stage node_stages -> preserves R (_stream_update E self stage msg p).

Variable writable : pystr -> Prop.
Hypothesis R_setitem : forall v k x, writable k -> preserves R (py_setitem v k x).

Ltac pres :=
  repeat first
    [ apply R_new
    | apply R_parse
    | apply R_log
    | apply R_model
    | apply R_clock
    | apply R_update; unfold node_stages; cbn [In]; solve [auto 6]
    | apply preserves_py_get
    | apply preserves_py_getitem
    | apply preserves_py_len
    | apply preserves_py_iter
    | apply preserves_ret
    | apply preserves_raise
    | apply preserves_lift
    | apply preserves_when
    | apply preserves_try_except; [|intros ?]
    | apply preserves_bind; [|intros ?] ].

Lemma preserves_resource_prompt (module preferences : val) :
  preserves R (resource_prompt module preferences).
Proof. unfold resource_prompt, py_join. pres. Qed.

Lemma preserves_attach_resources (module : val) (response : pystr) :
  writable (U "resources") -> preserves R (attach_resources loads module response).
Proof. intros Hw. unfold attach_resources. pres; apply R_setitem; exact Hw. Qed.

Lemma preserves_report_enriched (curriculum : val) (idx : nat) :
  preserves R (report_enriched E self curriculum idx).
Proof. unfold report_enriched. pres. Qed.

Lemma preserves_enrich_module (curriculum preferences enriched : val) (idx : nat)
    (module : val) :
  writable (U "resources") -> appendable enriched ->
  preserves R (enrich_module loads E self curriculum preferences enriched idx module).
Proof.
  intros Hw Ha. unfold enrich_module.
  apply preserves_bind; [apply preserves_resource_prompt | intros ?].
  apply preserves_bind; [apply R_model | intros ?].
  apply preserves_bind; [apply preserves_attach_resources; exact Hw | intros ?].
  apply preserves_bind; [apply R_append; exact Ha | intros ?].
  apply preserves_report_enriched.
Qed.

(** Node 3 from its loop on, for the list [enriched] of the enriched
    modules. *)
Lemma preserves_enrich_loop (state : State) (enriched : val) :
  writable (U "resources") -> appendable enriched ->
  preserves R
    (let* modules := py_get (curriculum_structure state) (U "modules") (new (OList [])) in
     let* items := py_iter modules in
     do for_enumerate
          (enrich_module loads E self (curriculum_structure state) (preferences state) enriched)
          0 items
     then
     do when (logger self)
          (let* n := py_len enriched in
           logger_call INFO [Lit [9989%N]; Lit (U " Resources enriched")])
     then ret (set_enriched_modules state enriched)).
Proof.
  intros Hw Ha.
  apply preserves_bind; [pres | intros ?].
  apply preserves_bind; [pres | intros ?].
  apply preserves_bind;
    [apply preserves_for_enumerate; intros i x; apply preserves_enrich_module; assumption
    | intros ?].
  pres.
Qed.

Lemma preserves_analyze_background (state : State) :
  preserves R (_analyze_background E self state).
Proof. unfold _analyze_background. pres. Qed.

Lemma preserves_generate_curriculum (state : State) :
  preserves R (_generate_curriculum loads E self state).
Proof. unfold _generate_curriculum. pres. Qed.

Lemma preserves_enrich_resources (state : State) :
  writable (U "resources") -> (forall v, appendable v) ->
  preserves R (_enrich_resources loads E self state).
Proof.
  intros Hw Ha. unfold _enrich_resources.
  apply preserves_bind; [pres | intros ?].
  apply preserves_bind; [pres | intros enriched].
  apply preserves_enrich_loop; [exact Hw | apply Ha].
Qed.

Lemma preserves_finalize_path (state : State) :
  writable (U "modules") -> preserves R (_finalize_path E self state).
Proof. intros Hw. unfold _finalize_path. pres. apply R_setitem. exact Hw. Qed.

Lemma preserves_run_node (n : node) (state : State) :
  (forall k, writes n k -> writable k) -> (forall v, appendable v) ->
  preserves R (run_node loads E self n state).
Proof.
  intros Hw Ha. destruct n; cbn [run_node].
  - apply preserves_analyze_background.
  - apply preserves_generate_curriculum.
  - apply preserves_enrich_resources; [apply Hw; reflexivity | exact Ha].
  - apply preserves_finalize_path. apply Hw. reflexivity.
Qed.

Lemma preserves_graph_ainvoke (state : State) :
  writable (U "resources") -> writable (U "modules") -> (forall v, appendable v) ->
  preserves R (graph_ainvoke loads E self state).
Proof.
  intros Hr Hm Ha. rewrite graph_ainvoke_eq.
  apply preserves_bind; [apply preserves_analyze_background | intros ?].
  apply preserves_bind; [apply preserves_generate_curriculum | intros ?].
  apply preserves_bind; [apply preserves_enrich_resources; assumption | intros ?].
  apply preserves_bind; [apply preserves_finalize_path; exact Hm | intros ?].
  apply preserves_ret.
Qed.

Lemma preserves_generate (req : Request) :
  writable (U "resources") -> writable (U "modules") -> (forall v, appendable v) ->
  preserves R (generate loads E self req).
Proof.
  intros Hr Hm Ha. unfold generate, get_preferences.
  apply preserves_bind; [destruct (req_preferences req); pres | intros ?].
  apply preserves_bind; [apply preserves_graph_ainvoke; assumption | intros ?].
  apply preserves_ret.
Qed.

End Invariant.


(** *** What the primitives leave *)

Lemma parse_response_world (loads : pystr -> decoding) (text : pystr) (w : World) :
  exists ext, snd (parse_response loads text w) = set_store (store w ++ ext) w.
Proof.
  unfold parse_response, bind, lift.
  destruct (extract_json loads text) as [j|e]; cbn [snd].
  - destruct (alloc_extends j (store w)) as [ext Hext].
    destruct (alloc j (store w)) as [v h]. cbn [snd] in *. exists ext. rewrite Hext. reflexivity.
  - exists []. rewrite app_nil_r, set_store_id. reflexivity.
Qed.

Lemma py_setitem_world (v : val) (k : pystr) (x : val) (w : World) :
  snd (py_setitem v k x w) = w \/
  exists l d, store w !! l = Some (ODict d) /\
              snd (py_setitem v k x w)
              = set_store (<[l := ODict (dict_set k x d)]> (store w)) w.
Proof.
  unfold py_setitem. destruct v as [| | | | |l]; try (left; reflexivity).
  destruct (store w !! l) as [[d|xs]|] eqn:Hl; try (left; reflexivity).
  right. exists l, d. split; [exact Hl | reflexivity].
Qed.

Lemma py_append_world (v x : val) (w : World) :
  snd (py_append v x w) = w \/
  exists l xs, store w !! l = Some (OList xs) /\
               snd (py_append v x w) = set_store (<[l := OList (xs ++ [x])]> (store w)) w.
Proof.
  unfold py_append. destruct v as [| | | | |l]; try (left; reflexivity).
  destruct (store w !! l) as [[d|xs]|] eqn:Hl; try (left; reflexivity).
  right. exists l, xs. split; [exact Hl | reflexivity].
Qed.

Lemma ainvoke_world (E : Env) (w : World) : snd (ainvoke E w) = count_call w.
Proof. unfold ainvoke. destruct (model E (model_calls w)); reflexivity. Qed.

(** *** No node emits an event *)

Lemma generate_emits_nothing (loads : pystr -> decoding) (E : Env) (self : Generator)
    (req : Request) :
  preserves same_emitted (generate loads E self req).
Proof.
  apply (preserves_generate loads E same_emitted)
    with (writable := fun _ => True) (appendable := fun _ => True);
    try exact I; try exact (fun _ => I); unfold same_emitted.
  - reflexivity.
  - intros a b c H1 H2. congruence.
  - intros o w. reflexivity.
  - intros text w. destruct (parse_response_world loads text w) as [ext ->]. reflexivity.
  - intros v x _ w. destruct (py_append_world v x w) as [-> | (l & xs & _ & ->)]; reflexivity.
  - intros lv msg w. reflexivity.
  - intros w. rewrite ainvoke_world. reflexivity.
  - intros w. reflexivity.
  - intros stage msg p _ w.
    destruct (stream_update_spec E self stage msg p w) as (w1 & -> & _ & _ & He & _). exact He.
  - intros v k x _ w. destruct (py_setitem_world v k x w) as [-> | (l & d & _ & ->)]; reflexivity.
Qed.

(** *** The calls of the sink *)

Lemma sink_adds_same (P : sink_call -> Prop) (w w' : World) :
  sink w' = sink w -> sink_adds P w w'.
Proof. intros H. exists []. rewrite app_nil_r. split; [exact H | constructor]. Qed.

Lemma sink_adds_trans (P : sink_call -> Prop) (a b c : World) :
  sink_adds P a b -> sink_adds P b c -> sink_adds P a c.
Proof.
  intros (c1 & H1 & F1) (c2 & H2 & F2). exists (c1 ++ c2).
  split; [rewrite H2, H1, app_assoc; reflexivity | apply Forall_app; split; assumption].
Qed.

Lemma generate_sink_calls (loads : pystr -> decoding) (E : Env) (self : Generator)
    (req : Request) :
  preserves (sink_adds (reported_by (self_trace_id self))) (generate loads E self req).
Proof.
  apply (preserves_generate loads E (sink_adds (reported_by (self_trace_id self))))
    with (writable := fun _ => True) (appendable := fun _ => True);
    try exact I; try exact (fun _ => I).
  - intros w. apply sink_adds_same. reflexivity.
  - apply sink_adds_trans.
  - intros o w. apply sink_adds_same. reflexivity.
  - intros text w. apply sink_adds_same.
    destruct (parse_response_world loads text w) as [ext ->]. reflexivity.
  - intros v x _ w. apply sink_adds_same.
    destruct (py_append_world v x w) as [-> | (l & xs & _ & ->)]; reflexivity.
  - intros lv msg w. apply sink_adds_same. reflexivity.
  - intros w. apply sink_adds_same. rewrite ainvoke_world. reflexivity.
  - intros w. apply sink_adds_same. reflexivity.
  - intros stage msg p Hin w.
    destruct (stream_update_spec E self stage msg p w) as (w1 & -> & _ & _ & _ & Hs).
    eexists. split; [exact Hs|].
    destruct (streaming self); constructor; [|constructor].
    split; [reflexivity|]. split; [reflexivity|]. right. exact Hin.
  - intros v k x _ w. apply sink_adds_same.
    destruct (py_setitem_world v k x w) as [-> | (l & d & _ & ->)]; reflexivity.
Qed.

(** *** The frame of the store *)

Lemma frame_refl (W : pystr -> Prop) (h : heap) : frame W h h.
Proof.
  intros l. split.
  - intros xs H. exists []. rewrite app_nil_r. exact H.
  - intros d H. exists d. split; [exact H|]. split; [eauto | reflexivity].
Qed.

Lemma frame_trans (W : pystr -> Prop) (h1 h2 h3 : heap) :
  frame W h1 h2 -> frame W h2 h3 -> frame W h1 h3.
Proof.
  intros H1 H2 l. split.
  - intros xs Hl. destruct (H1 l) as [H1l _]. destruct (H1l xs Hl) as [ys Hys].
    destruct (H2 l) as [H2l _]. destruct (H2l _ Hys) as [zs Hzs].
    exists (ys ++ zs). rewrite app_assoc. exact Hzs.
  - intros d Hl. destruct (H1 l) as [_ H1d]. destruct (H1d d Hl) as (d1 & Hd1 & Hk1 & Hv1).
    destruct (H2 l) as [_ H2d]. destruct (H2d d1 Hd1) as (d2 & Hd2 & Hk2 & Hv2).
    exists d2. split; [exact Hd2|]. split.
    + intros k x Hx. destruct (Hk1 k x Hx) as [x1 Hx1]. exact (Hk2 k x1 Hx1).
    + intros k Hk. rewrite (Hv2 k Hk). apply Hv1. exact Hk.
Qed.

Lemma frame_ext (W : pystr -> Prop) (h ext : heap) : frame W h (h ++ ext).
Proof.
  intros l. split.
  - intros xs H. exists []. rewrite app_nil_r. apply lookup_app_old. exact H.
  - intros d H. exists d. split; [apply lookup_app_old; exact H|]. split; [eauto | reflexivity].
Qed.

Lemma frame_append (W : pystr -> Prop) (h : heap) (l0 : loc) (xs0 : list val) (x : val) :
  h !! l0 = Some (OList xs0) -> frame W h (<[l0 := OList (xs0 ++ [x])]> h).
Proof.
  intros H0 l. destruct (decide (l = l0)) as [->|Hne].
  - split.
    + intros xs H. assert (xs = xs0) by congruence. subst xs. exists [x].
      apply list_lookup_insert_eq. eapply lookup_lt_Some. exact H0.
    + intros d H. congruence.
  - rewrite list_lookup_insert_ne by congruence. apply frame_refl.
Qed.

Lemma frame_setitem (W : pystr -> Prop) (h : heap) (l0 : loc) (d0 : list (pystr * val))
    (k0 : pystr) (x : val) :
  W k0 -> h !! l0 = Some (ODict d0) -> frame W h (<[l0 := ODict (dict_set k0 x d0)]> h).
Proof.
  intros Hw H0 l. destruct (decide (l = l0)) as [->|Hne].
  - split.
    + intros xs H. congruence.
    + intros d H. assert (d = d0) by congruence. subst d.
      exists (dict_set k0 x d0). split.
      { apply list_lookup_insert_eq. eapply lookup_lt_Some. exact H0. }
      split.
      * intros k y Hy. destruct (decide (k = k0)) as [->|Hk].
        -- exists x. apply dict_get_set_eq.
        -- exists y. rewrite dict_get_set_ne by exact Hk. exact Hy.
      * intros k Hk. apply dict_get_set_ne. intros ->. apply Hk. exact Hw.
  - rewrite list_lookup_insert_ne by congruence. apply frame_refl.
Qed.

Lemma store_frame_same (W : pystr -> Prop) (w w' : World) :
  store w' = store w -> store_frame W w w'.
Proof. intros H. unfold store_frame. rewrite H. apply frame_refl. Qed.

Lemma store_frame_refl (W : pystr -> Prop) (w : World) : store_frame W w w.
Proof. apply frame_refl. Qed.

Lemma store_frame_trans (W : pystr -> Prop) (a b c : World) :
  store_frame W a b -> store_frame W b c -> store_frame W a c.
Proof. apply frame_trans. Qed.

Lemma store_frame_new (W : pystr -> Prop) (o : obj) : preserves (store_frame W) (new o).
Proof. intros w. apply frame_ext. Qed.

Lemma store_frame_parse (W : pystr -> Prop) (loads : pystr -> decoding) (text : pystr) :
  preserves (store_frame W) (parse_response loads text).
Proof.
  intros w. unfold store_frame.
  destruct (parse_response_world loads text w) as [ext ->]. apply frame_ext.
Qed.

Lemma store_frame_append (W : pystr -> Prop) (v x : val) :
  preserves (store_frame W) (py_append v x).
Proof.
  intros w. unfold store_frame.
  destruct (py_append_world v x w) as [-> | (l & xs & Hl & ->)].
  - apply frame_refl.
  - apply frame_append. exact Hl.
Qed.

Lemma store_frame_log (W : pystr -> Prop) (lv : level) (msg : message) :
  preserves (store_frame W) (logger_call lv msg).
Proof. intros w. apply frame_refl. Qed.

Lemma store_frame_model (W : pystr -> Prop) (E : Env) : preserves (store_frame W) (ainvoke E).
Proof. intros w. unfold store_frame. rewrite ainvoke_world. apply frame_refl. Qed.

Lemma store_frame_clock (W : pystr -> Prop) (E : Env) :
  preserves (store_frame W) (clock_iso E).
Proof. intros w. apply frame_refl. Qed.

Lemma store_frame_update (W : pystr -> Prop) (E : Env) (self : Generator) (stage : pystr)
    (msg : message) (p : Z) :
  In stage node_stages -> preserves (store_frame W) (_stream_update E self stage msg p).
Proof.
  intros _ w. unfold store_frame.
  destruct (stream_update_spec E self stage msg p w) as (w1 & -> & Hs & _). cbn [snd].
  rewrite Hs. apply frame_refl.
Qed.

Lemma store_frame_setitem (W : pystr -> Prop) (v : val) (k : pystr) (x : val) :
  W k -> preserves (store_frame W) (py_setitem v k x).
Proof.
  intros Hk w. unfold store_frame.
  destruct (py_setitem_world v k x w) as [-> | (l & d & Hl & ->)].
  - apply frame_refl.
  - apply frame_setitem; assumption.
Qed.

(** *** What a node leaves of the store *)

Lemma kept_below_refl (n : nat) (W : pystr -> Prop) (h : heap) : kept_below n W h h.
Proof.
  intros l _. split.
  - intros xs H. exact H.
  - intros d H. exists d. split; [exact H|]. split; [eauto | reflexivity].
Qed.

Lemma kept_below_trans (n : nat) (W : pystr -> Prop) (h1 h2 h3 : heap) :
  kept_below n W h1 h2 -> kept_below n W h2 h3 -> kept_below n W h1 h3.
Proof.
  intros H12 H23 l Hl. destruct (H12 l Hl) as [L12 D12]. destruct (H23 l Hl) as [L23 D23].
  split.
  - intros xs H. apply L23, L12. exact H.
  - intros d H. destruct (D12 d H) as (d2 & H2 & K2 & V2).
    destruct (D23 d2 H2) as (d3 & H3 & K3 & V3).
    exists d3. split; [exact H3|]. split.
    + intros k x Hk. destruct (K2 k x Hk) as [x2 Hx2]. exact (K3 k x2 Hx2).
    + intros k Hk. rewrite (V3 k Hk). apply V2. exact Hk.
Qed.

Lemma kept_below_ext (n : nat) (W : pystr -> Prop) (h ext : heap) :
  kept_below n W h (h ++ ext).
Proof.
  intros l _. split.
  - intros xs H. apply lookup_app_old. exact H.
  - intros d H. exists d. split; [apply lookup_app_old; exact H|].
    split; [eauto | reflexivity].
Qed.

(** A change at a location that is not below [n]. *)
Lemma kept_below_above (n : nat) (W : pystr -> Prop) (h : heap) (l0 : loc) (o : obj) :
  (n <= l0)%nat -> kept_below n W h (<[l0 := o]> h).
Proof.
  intros Hn l Hl. rewrite list_lookup_insert_ne by lia. apply (kept_below_refl n W h l Hl).
Qed.

Lemma kept_below_setitem (n : nat) (W : pystr -> Prop) (h : heap) (l0 : loc)
    (d0 : list (pystr * val)) (k0 : pystr) (x : val) :
  W k0 -> h !! l0 = Some (ODict d0) ->
  kept_below n W h (<[l0 := ODict (dict_set k0 x d0)]> h).
Proof.
  intros Hw H0 l Hl. destruct (decide (l = l0)) as [->|Hne].
  - split.
    + intros xs H. congruence.
    + intros d H. assert (d = d0) by congruence. subst d.
      exists (dict_set k0 x d0). split.
      { apply list_lookup_insert_eq. eapply lookup_lt_Some. exact H0. }
      split.
      * intros k y Hy. destruct (decide (k = k0)) as [->|Hk].
        -- exists x. apply dict_get_set_eq.
        -- exists y. rewrite dict_get_set_ne by exact Hk. exact Hy.
      * intros k Hk. apply dict_get_set_ne. intros ->. apply Hk. exact Hw.
  - rewrite list_lookup_insert_ne by congruence. apply (kept_below_refl n W h l Hl).
Qed.

Lemma py_append_at (l0 : loc) (x : val) (w : World) :
  snd (py_append (VRef l0) x w) = w \/
  exists xs, snd (py_append (VRef l0) x w)
             = set_store (<[l0 := OList (xs ++ [x])]> (store w)) w.
Proof.
  unfold py_append. destruct (store w !! l0) as [[d|xs]|]; try (left; reflexivity).
  right. exists xs. reflexivity.
Qed.

Section Kept.

Variable loads : pystr -> decoding.
Variable E : Env.
Variable self : Generator.
Variable n : nat.
Variable W : pystr -> Prop.

Lemma store_kept_refl (w : World) : store_kept n W w w.
Proof. apply kept_below_refl. Qed.

Lemma store_kept_trans (a b c : World) :
  store_kept n W a b -> store_kept n W b c -> store_kept n W a c.
Proof. apply kept_below_trans. Qed.

Lemma store_kept_new (o : obj) : preserves (store_kept n W) (new o).
Proof. intros w. apply kept_below_ext. Qed.

Lemma store_kept_parse (text : pystr) : preserves (store_kept n W) (parse_response loads text).
Proof.
  intros w. unfold store_kept.
  destruct (parse_response_world loads text w) as [ext ->]. apply kept_below_ext.
Qed.

(** Appending to a list that is not below [n]. *)
Lemma store_kept_append (v x : val) :
  (exists l, v = VRef l /\ (n <= l)%nat) -> preserves (store_kept n W) (py_append v x).
Proof.
  intros (l & -> & Hl) w. unfold store_kept.
  destruct (py_append_at l x w) as [-> | (xs & ->)].
  - apply kept_below_refl.
  - apply kept_below_above. exact Hl.
Qed.

Lemma store_kept_log (lv : level) (msg : message) :
  preserves (store_kept n W) (logger_call lv msg).
Proof. intros w. apply kept_below_refl. Qed.

Lemma store_kept_model : preserves (store_kept n W) (ainvoke E).
Proof. intros w. unfold store_kept. rewrite ainvoke_world. apply kept_below_refl. Qed.

Lemma store_kept_clock : preserves (store_kept n W) (clock_iso E).
Proof. intros w. apply kept_below_refl. Qed.

Lemma store_kept_update (stage : pystr) (msg : message) (p : Z) :
  In stage node_stages -> preserves (store_kept n W) (_stream_update E self stage msg p).
Proof.
  intros _ w. unfold store_kept.
  destruct (stream_update_spec E self stage msg p w) as (w1 & -> & Hs & _). cbn [snd].
  rewrite Hs. apply kept_below_refl.
Qed.

Lemma store_kept_setitem (v : val) (k : pystr) (x : val) :
  W k -> preserves (store_kept n W) (py_setitem v k x).
Proof.
  intros Hk w. unfold store_kept.
  destruct (py_setitem_world v k x w) as [-> | (l & d & Hl & ->)].
  - apply kept_below_refl.
  - apply kept_below_setitem; assumption.
Qed.

End Kept.

(** Node 1 leaves the store as it is. *)
Lemma analyze_background_store (E : Env) (self : Generator) (state : State) (w : World) :
  store (snd (_analyze_background E self state w)) = store w.
Proof.
  unfold _analyze_background.
  match goal with |- context [_stream_update E self ?st ?msg ?p] =>
    destruct (stream_update_spec E self st msg p w) as (w1 & Hs & Hst & _) end.
  rewrite (bind_ret_eq _ _ _ _ _ Hs). unfold bind, ainvoke, when, ret, logger_call.
  destruct (model E (model_calls w1)); destruct (logger self); cbn; exact Hst.
Qed.

(** Node 2 adds objects to the store, and that is all: it appends to
    no list and assigns no key, which is why nothing is asked of those
    calls here. *)
Lemma generate_curriculum_store (loads : pystr -> decoding) (E : Env) (self : Generator)
    (state : State) :
  preserves store_extended (_generate_curriculum loads E self state).
Proof.
  apply (preserves_generate_curriculum loads E store_extended); unfold store_extended.
  - intros w. exists []. rewrite app_nil_r. reflexivity.
  - intros a b c [e1 H1] [e2 H2]. exists (e1 ++ e2). rewrite H2, H1, app_assoc. reflexivity.
  - intros o w. exists [o]. reflexivity.
  - intros text w. destruct (parse_response_world loads text w) as [ext ->].
    exists ext. reflexivity.
  - intros lv msg w. exists []. rewrite app_nil_r. reflexivity.
  - intros w. rewrite ainvoke_world. exists []. rewrite app_nil_r. reflexivity.
  - intros stage msg p _ w.
    destruct (stream_update_spec E self stage msg p w) as (w1 & -> & Hs & _). cbn [snd].
    exists []. rewrite app_nil_r. exact Hs.
Qed.

(** Node 3 appends to the list it has made, which is not among the
    objects it was given. *)
Lemma enrich_resources_store (loads : pystr -> decoding) (E : Env) (self : Generator)
    (state : State) (w : World) :
  kept_below (length (store w)) (writes enrich_resources)
    (store w) (store (snd (_enrich_resources loads E self state w))).
Proof.
  unfold _enrich_resources.
  match goal with |- context [_stream_update E self ?st ?msg ?p] =>
    destruct (stream_update_spec E self st msg p w) as (w1 & Hs & Hst & _) end.
  rewrite (bind_ret_eq _ _ _ _ _ Hs).
  rewrite (bind_ret_eq (new (OList [])) _ w1 (set_store (store w1 ++ [OList []]) w1)
             (VRef (length (store w1))) eq_refl).
  rewrite Hst.
  apply (kept_below_trans _ _ _ (store (set_store (store w ++ [OList []]) w1))).
  { apply kept_below_ext. }
  apply (preserves_enrich_loop loads E (store_kept (length (store w)) (writes enrich_resources))
           (store_kept_refl _ _) (store_kept_trans _ _) (store_kept_new _ _)
           (store_kept_parse loads _ _)
           (fun v => exists l, v = VRef l /\ (length (store w) <= l)%nat)
           (store_kept_append _ _) (store_kept_log _ _) (store_kept_model E _ _) self
           (store_kept_update E self _ _) (writes enrich_resources) (store_kept_setitem _ _)).
  - reflexivity.
  - exists (length (store w)). split; [reflexivity | lia].
Qed.

(** Node 4 appends to no list. *)
Lemma finalize_path_kept (E : Env) (self : Generator) (state : State) (w : World) :
  kept_below (length (store w)) (writes finalize_path)
    (store w) (store (snd (_finalize_path E self state w))).
Proof.
  apply (preserves_finalize_path E (store_kept (length (store w)) (writes finalize_path))
           (store_kept_refl _ _) (store_kept_trans _ _) (store_kept_new _ _)
           (store_kept_log _ _) (store_kept_clock E _ _) self
           (store_kept_update E self _ _) (writes finalize_path) (store_kept_setitem _ _)).
  reflexivity.
Qed.

Lemma node_kept (loads : pystr -> decoding) (E : Env) (self : Generator)
    (n : node) (state : State) (w : World) :
  kept_below (length (store w)) (writes n)
    (store w) (store (snd (run_node loads E self n state w))).
Proof.
  destruct n; cbn [run_node].
  - rewrite analyze_background_store. apply kept_below_refl.
  - destruct (generate_curriculum_store loads E self state w) as [ext ->].
    apply kept_below_ext.
  - apply enrich_resources_store.
  - apply finalize_path_kept.
Qed.

(** X16: what each node leaves of the store it is given, whether it
    returns or raises.  Every list is still there, as it was: node 3
    appends to the list it has made itself, and no other node appends.
    Every dict is still there with all of its keys, and with the same
    values except under [resources] for node 3 and under [modules] for
    node 4.  Node 1 leaves the store as it is, and node 2 adds objects
    to it and changes none. *)
Theorem node_store_frame (loads : pystr -> decoding) (E : Env) (self : Generator)
    (n : node) (state : State) (w : World) :
  (forall (l : loc) (xs : list val),
     store w !! l = Some (OList xs) ->
     store (snd (run_node loads E self n state w)) !! l = Some (OList xs)) /\
  (forall (l : loc) (d : list (pystr * val)),
     store w !! l = Some (ODict d) ->
     exists d',
       store (snd (run_node loads E self n state w)) !! l = Some (ODict d') /\
       (forall k x, dict_get k d = Some x -> exists x', dict_get k d' = Some x') /\
       (forall k,
          ~ match n with
            | enrich_resources => k = U "resources"
            | finalize_path => k = U "modules"
            | _ => False
            end ->
          dict_get k d' = dict_get k d)) /\
  (n = analyze_background -> store (snd (run_node loads E self n state w)) = store w) /\
  (n = generate_curriculum ->
   exists ext, store (snd (run_node loads E self n state w)) = store w ++ ext).
Proof.
  pose proof (node_kept loads E self n state w) as H.
  split; [|split; [|split]].
  - intros l xs Hl. apply (H l); [eapply lookup_lt_Some; exact Hl | exact Hl].
  - intros l d Hl. apply (H l); [eapply lookup_lt_Some; exact Hl | exact Hl].
  - intros ->. apply analyze_background_store.
  - intros ->. apply generate_curriculum_store.
Qed.

(** *** The calls of the model *)

Lemma same_calls_refl (w : World) : same_calls w w.
Proof. reflexivity. Qed.

Lemma same_calls_trans (a b c : World) : same_calls a b -> same_calls b c -> same_calls a c.
Proof. unfold same_calls. congruence. Qed.

Lemma same_calls_new (o : obj) : preserves same_calls (new o).
Proof. intros w. reflexivity. Qed.

Lemma same_calls_parse (loads : pystr -> decoding) (text : pystr) :
  preserves same_calls (parse_response loads text).
Proof.
  intros w. unfold same_calls.
  destruct (parse_response_world loads text w) as [ext ->]. reflexivity.
Qed.

Lemma same_calls_append (v x : val) : preserves same_calls (py_append v x).
Proof.
  intros w. unfold same_calls.
  destruct (py_append_world v x w) as [-> | (l & xs & _ & ->)]; reflexivity.
Qed.

Lemma same_calls_setitem (v : val) (k : pystr) (x : val) :
  True -> preserves same_calls (py_setitem v k x).
Proof.
  intros _ w. unfold same_calls.
  destruct (py_setitem_world v k x w) as [-> | (l & d & _ & ->)]; reflexivity.
Qed.

Lemma same_calls_log (lv : level) (msg : message) : preserves same_calls (logger_call lv msg).
Proof. intros w. reflexivity. Qed.

Lemma same_calls_update (E : Env) (self : Generator) (stage : pystr) (msg : message) (p : Z) :
  In stage node_stages -> preserves same_calls (_stream_update E self stage msg p).
Proof.
  intros _ w. unfold same_calls.
  destruct (stream_update_spec E self stage msg p w) as (w1 & -> & _ & Hm & _). exact Hm.
Qed.

(** ** The events of a request *)

(** X14: the events of a request.  With an emitter, the handler emits
    exactly one event, unless the run is cancelled: when the call of
    [generate] that the handler makes returns, the event
    [learning.path.generated] with the path it returned and the time
    read after it; when the constructor or that call raises an
    [Exception], the event [learning.path.failed] with that error.
    When that call raises what is no [Exception], and when there is no
    emitter, the handler emits nothing. *)
Theorem handler_one_event (loads : pystr -> decoding) (E : Env) (req : Request)
    (ctx : option Ctx) (w : World) :
  let uid := of_opt (req_userId req) in
  let tp := of_opt (req_topic req) in
  let tid := of_opt (handler_trace_id req ctx) in
  let self := {| logger := has_logger ctx; streams := has_streams ctx;
                 emit_fn := has_emit ctx; self_trace_id := handler_trace_id req ctx |} in
  let run := generate loads E self req (snd (handler_enter req ctx w)) in
  let events :=
    if truthy (GROQ_API_KEY E)
    then match run with
         | (Ret lp, w2) => [Generated uid tp lp tid (now_ms E (clock_reads w2))]
         | (Raise CancelledError, _) => []
         | (Raise e, _) => [Failed uid tp e tid]
         end
    else [Failed uid tp (ValueError (U "GROQ_API_KEY environment variable not set")) tid] in
  emitted (snd (handler loads E req ctx w))
  = emitted w ++ (if has_emit ctx then events else []) /\
  map event_topic events
  = (if truthy (GROQ_API_KEY E)
     then match run with
          | (Ret _, _) => [U "learning.path.generated"]
          | (Raise CancelledError, _) => []
          | (Raise _, _) => [U "learning.path.failed"]
          end
     else [U "learning.path.failed"]).
Proof.
  intros uid tp tid self run events. split.
  2:{ unfold events. destruct (truthy (GROQ_API_KEY E)); [|reflexivity].
      destruct run as [[lp|e] w2]; [reflexivity|]. destruct e; reflexivity. }
  unfold events, run, handler.
  destruct (handler_enter_spec req ctx w) as (w0 & Henter & _ & He0 & _).
  rewrite (bind_ret_eq _ _ _ _ _ Henter). rewrite Henter. cbn [snd].
  unfold try_except, handler_try, init.
  destruct (truthy (GROQ_API_KEY E)); cbv iota.
  2:{ unfold bind at 1. unfold raise at 1. cbv iota beta.
      change (is_Exception (ValueError (U "GROQ_API_KEY environment variable not set")))
        with true. cbv iota.
      destruct (handler_except_spec E (has_logger ctx) (has_streams ctx) (has_emit ctx)
                  (handler_trace_id req ctx) (req_userId req) (req_topic req)
                  (ValueError (U "GROQ_API_KEY environment variable not set")) w0)
        as (w' & Hx & _ & He & _).
      rewrite Hx. cbn [snd]. rewrite He, He0. reflexivity. }
  fold self. rewrite (bind_ret_eq (ret self) _ w0 w0 self eq_refl).
  pose proof (generate_emits_nothing loads E self req w0) as Hg. unfold same_emitted in Hg.
  destruct (generate loads E self req w0) as [[lp|e] w2] eqn:Hgen; cbn [snd] in Hg.
  - rewrite (bind_ret_eq _ _ _ _ _ Hgen). unfold clock_ms.
    destruct (has_emit ctx), (has_logger ctx); exec; rewrite Hg, He0, ?app_nil_r; reflexivity.
  - rewrite (bind_raise_eq _ _ _ _ _ Hgen).
    destruct (handler_except_spec E (has_logger ctx) (has_streams ctx) (has_emit ctx)
                (handler_trace_id req ctx) (req_userId req) (req_topic req) e w2)
      as (w' & Hx & _ & He & _).
    destruct (is_Exception e) eqn:Hc.
    + rewrite Hx. cbn [snd]. rewrite He, Hg, He0.
      destruct e; try reflexivity; discriminate Hc.
    + cbn [snd]. rewrite Hg, He0. destruct e; try discriminate Hc.
      destruct (has_emit ctx); rewrite app_nil_r; reflexivity.
Qed.

Lemma handler_try_sink (loads : pystr -> decoding) (E : Env) (lg st em : bool)
    (tid uid tp : option pystr) (req : Request) :
  preserves (sink_adds (reported_by tid)) (handler_try loads E lg st em tid uid tp req).
Proof.
  intros w. unfold handler_try, init.
  destruct (truthy (GROQ_API_KEY E)); cbv iota.
  2:{ apply sink_adds_same. reflexivity. }
  set (G := {| logger := lg; streams := st; emit_fn := em; self_trace_id := tid |}).
  rewrite (bind_ret_eq (ret G) _ w w G eq_refl).
  pose proof (generate_sink_calls loads E G req w) as Hg.
  change (self_trace_id G) with tid in Hg.
  destruct (generate loads E G req w) as [[lp|e] w2] eqn:Hgen; cbn [snd] in Hg.
  - rewrite (bind_ret_eq _ _ _ _ _ Hgen).
    eapply sink_adds_trans; [exact Hg|]. apply sink_adds_same.
    match goal with |- sink (snd (?m w2)) = _ =>
      assert (Hq : quiet m) by quiet_tac; destruct (Hq w2) as [Hs _]; exact Hs end.
  - rewrite (bind_raise_eq _ _ _ _ _ Hgen). exact Hg.
Qed.

(** X15: every call of the sink that a request makes is keyed by the
    trace id the handler chose, goes to the channel [learningPath], and
    names one of the stages [analyzing], [generating], [enriching],
    [completed] or [error]. *)
Theorem handler_sink_calls (loads : pystr -> decoding) (E : Env) (req : Request)
    (ctx : option Ctx) (w : World) :
  exists cs : list sink_call,
    sink (snd (handler loads E req ctx w)) = sink w ++ cs /\
    Forall (reported_by (handler_trace_id req ctx)) cs.
Proof.
  unfold handler.
  destruct (handler_enter_spec req ctx w) as (w0 & Henter & Hs0 & _).
  rewrite (bind_ret_eq _ _ _ _ _ Henter). unfold try_except.
  destruct (handler_try_sink loads E (has_logger ctx) (has_streams ctx) (has_emit ctx)
              (handler_trace_id req ctx) (req_userId req) (req_topic req) req w0)
    as (cs & Hs & HF).
  destruct (handler_try loads E (has_logger ctx) (has_streams ctx) (has_emit ctx)
              (handler_trace_id req ctx) (req_userId req) (req_topic req) req w0)
    as [[[]|e] w1]; cbn [fst snd] in *.
  - exists cs. rewrite Hs, Hs0. split; [reflexivity | exact HF].
  - destruct (handler_except_spec E (has_logger ctx) (has_streams ctx) (has_emit ctx)
                (handler_trace_id req ctx) (req_userId req) (req_topic req) e w1)
      as (w' & Hx & Hsx & _).
    destruct (is_Exception e).
    + rewrite Hx. cbn [snd]. rewrite Hsx, Hs, Hs0, <- app_assoc.
      eexists. split; [reflexivity|]. apply Forall_app. split; [exact HF|].
      destruct (has_streams ctx && truthy (handler_trace_id req ctx));
        constructor; [|constructor].
      split; [reflexivity|]. split; [reflexivity|]. left. reflexivity.
    + cbn [snd]. exists cs. rewrite Hs, Hs0. split; [reflexivity | exact HF].
Qed.

(** ** Node 1 *)

(** X5: node 1 reports 15, then calls the model once.  If the call
    returns, the node returns with [analysis] set to the stripped reply
    and [progress] 20; if the call fails, the node raises that error
    (the cancellation of the task, when that is what the call raises).
    It leaves the store and the emitted events as they are. *)
Theorem analyze_background_spec (E : Env) (self : Generator) (state : State) (w : World) :
  exists w' : World,
    _analyze_background E self state w
    = (match model E (model_calls w) with
       | Content text => Ret (set_analysis state (VStr (strip text)))
       | Failure msg => Raise (ModelCallError msg)
       | Cancelled => Raise CancelledError
       end, w') /\
    model_calls w' = S (model_calls w) /\
    store w' = store w /\
    emitted w' = emitted w /\
    progress_trace w' = progress_trace w ++ (if streaming self then [15] else []).
Proof.
  unfold _analyze_background.
  destruct (stream_update_trace E self (U "analyzing")
              [Lit (U "Analyzing your background for "); Lit (str_of (topic state));
               Lit (U "...")] 15 w) as (w1 & Hs & Hst & Hmc & Hem & Htr).
  rewrite (bind_ret_eq _ _ _ _ _ Hs).
  destruct (model E (model_calls w)) as [text|msg|] eqn:Hm.
  - rewrite (bind_ret_eq _ _ _ _ _ (ainvoke_content E w1 text ltac:(rewrite Hmc; exact Hm))).
    destruct (logger self); exec; eexists; (split; [reflexivity|]);
      cbn [model_calls store emitted count_call]; rewrite Hmc, Hst, Hem;
      repeat split; exact Htr.
  - rewrite (bind_raise_eq _ _ _ _ _ (ainvoke_failure E w1 msg ltac:(rewrite Hmc; exact Hm))).
    eexists. split; [reflexivity|].
    cbn [model_calls store emitted count_call]. rewrite Hmc, Hst, Hem.
    repeat split; exact Htr.
  - rewrite (bind_raise_eq _ _ _ _ _ (ainvoke_cancelled E w1 ltac:(rewrite Hmc; exact Hm))).
    eexists. split; [reflexivity|].
    cbn [model_calls store emitted count_call]. rewrite Hmc, Hst, Hem.
    repeat split; exact Htr.
Qed.

(** ** Replies that decode to something else than an object *)

Lemma alloc_array (js : list json) (h : heap) :
  exists vs h1, alloc (JArr js) h = (VRef (length h1), h1 ++ [OList vs]).
Proof.
  simpl.
  destruct ((fix items (js : list json) (h : heap) : list val * heap :=
               match js with
               | [] => ([], h)
               | j :: r =>
                   let '(v, h1) := alloc j h in
                   let '(vs, h2) := items r h1 in (v :: vs, h2)
               end) js h) as [vs h1].
  eauto.
Qed.

Lemma py_get_not_object (j : json) (h ext : heap) (k : pystr) (dflt : M val) (w : World) :
  is_object j = false -> store w = snd (alloc j h) ++ ext ->
  py_get (fst (alloc j h)) k dflt w = (Raise AttributeError, w).
Proof.
  intros Hj Hs. destruct j as [| b | z | x | s | js | kvs]; try discriminate Hj;
    try reflexivity.
  destruct (alloc_array js h) as (vs & h1 & Ha). rewrite Ha in Hs |- *. cbn [fst snd] in *.
  unfold py_get. rewrite Hs.
  rewrite (lookup_app_old _ ext _ _ (lookup_snoc h1 (OList vs))). reflexivity.
Qed.

Lemma parse_response_ret (loads : pystr -> decoding) (text : pystr) (j : json) (w : World) :
  extract_json loads text = Ret j ->
  parse_response loads text w
  = (Ret (fst (alloc j (store w))), set_store (snd (alloc j (store w))) w).
Proof.
  intros H. unfold parse_response, bind, lift. rewrite H.
  destruct (alloc j (store w)) as [v h]. reflexivity.
Qed.

Lemma try_except_ret {A} (body : M A) (caught : exn -> bool) (handler : exn -> M A)
    (w w' : World) (a : A) :
  body w = (Ret a, w') -> try_except body caught handler w = (Ret a, w').
Proof. intros H. unfold try_except. rewrite H. reflexivity. Qed.

Lemma try_except_pass {A} (body : M A) (caught : exn -> bool) (handler : exn -> M A)
    (w w' : World) (e : exn) :
  body w = (Raise e, w') -> caught e = false ->
  try_except body caught handler w = (Raise e, w').
Proof. intros H Hc. unfold try_except. rewrite H, Hc. reflexivity. Qed.

Lemma py_len_world (v : val) (w : World) : snd (py_len v w) = w.
Proof.
  unfold py_len. destruct v as [| | | | |l]; try reflexivity.
  destruct (store w !! l) as [[d|xs]|]; reflexivity.
Qed.

(** X6: a curriculum reply that decodes to something else than an
    object (a list, a string, a number, [true], [false], [null]) is not
    replaced by the fallback.  With a logger, node 2 raises
    [AttributeError] when it counts the modules for the log line;
    without one, node 2 returns and node 3 raises [AttributeError]. *)
Theorem curriculum_not_object (loads : pystr -> decoding) (E : Env) (self : Generator)
    (state : State) (w : World) (text : pystr) (j : json) :
  model E (model_calls w) = Content text ->
  extract_json loads text = Ret j ->
  is_object j = false ->
  if logger self
  then fst (_generate_curriculum loads E self state w) = Raise AttributeError
  else exists (state' : State) (w' : World),
         _generate_curriculum loads E self state w = (Ret state', w') /\
         fst (_enrich_resources loads E self state' w') = Raise AttributeError.
Proof.
  intros Hm He Hj. unfold _generate_curriculum.
  destruct (stream_update_spec E self (U "generating")
              [Lit (U "Creating curriculum structure for "); Lit (str_of (topic state));
               Lit (U "...")] 40 w) as (w1 & Hs & Hst & Hmc & _).
  rewrite (bind_ret_eq _ _ _ _ _ Hs).
  rewrite (bind_ret_eq _ _ _ _ _ (ainvoke_content E w1 text ltac:(rewrite Hmc; exact Hm))).
  set (w2 := count_call w1).
  rewrite (bind_ret_eq _ _ _ _ _
             (try_except_ret _ _ _ _ _ _ (parse_response_ret loads text j w2 He))).
  set (v := fst (alloc j (store w2))).
  set (w3 := set_store (snd (alloc j (store w2))) w2).
  destruct (logger self) eqn:Hlg.
  - cbn [when].
    erewrite bind_raise_eq; [reflexivity|].
    erewrite bind_raise_eq; [reflexivity|].
    apply (py_get_not_object j (store w2) []); [exact Hj | rewrite app_nil_r; reflexivity].
  - cbn [when]. eexists _, _. split; [reflexivity|].
    unfold _enrich_resources.
    destruct (stream_update_spec E self (U "enriching")
                [Lit (U "Finding the best learning resources...")] 75 w3)
      as (w4 & Hs4 & Hst4 & _).
    rewrite (bind_ret_eq _ _ _ _ _ Hs4).
    rewrite (bind_ret_eq _ _ _ _ _ (new_eq (OList []) w4)).
    cbn [curriculum_structure set_curriculum_structure].
    erewrite bind_raise_eq; [reflexivity|].
    apply (py_get_not_object j (store w2) [OList []]); [exact Hj|].
    cbn [store set_store]. rewrite Hst4. reflexivity.
Qed.

Lemma generate_curriculum_alloc (loads : pystr -> decoding) (E : Env) (self : Generator)
    (state state' : State) (w w' : World) (text : pystr) (j : json) :
  model E (model_calls w) = Content text ->
  extract_json loads text = Ret j ->
  _generate_curriculum loads E self state w = (Ret state', w') ->
  state' = set_curriculum_structure state (fst (alloc j (store w))) /\
  (exists ext, store w' = snd (alloc j (store w)) ++ ext) /\
  model_calls w' = S (model_calls w).
Proof.
  intros Hm He. unfold _generate_curriculum.
  destruct (stream_update_spec E self (U "generating")
              [Lit (U "Creating curriculum structure for "); Lit (str_of (topic state));
               Lit (U "...")] 40 w) as (w1 & Hs & Hst & Hmc & _).
  rewrite (bind_ret_eq _ _ _ _ _ Hs).
  rewrite (bind_ret_eq _ _ _ _ _ (ainvoke_content E w1 text ltac:(rewrite Hmc; exact Hm))).
  set (w2 := count_call w1).
  rewrite (bind_ret_eq _ _ _ _ _
             (try_except_ret _ _ _ _ _ _ (parse_response_ret loads text j w2 He))).
  assert (Hst2 : store w2 = store w) by exact Hst.
  rewrite Hst2.
  set (v := fst (alloc j (store w))).
  set (w3 := set_store (snd (alloc j (store w))) w2).
  intros H. apply bind_ret_inv in H as ([] & w4 & Hlog & H). injection H as <- <-.
  split; [reflexivity|].
  assert (Hw4 : (exists ext, store w4 = store w3 ++ ext) /\ model_calls w4 = model_calls w3).
  { destruct (logger self); cbn [when] in Hlog.
    - apply bind_ret_inv in Hlog as (mods & wa & Hget & Hlog).
      apply bind_ret_inv in Hlog as (n & wb & Hlen & Hlog).
      injection Hlog as <-. cbn [store model_calls].
      pose proof (py_len_world mods wa) as Hb. rewrite Hlen in Hb. cbn [snd] in Hb. subst wb.
      apply py_get_inv in Hget as (lc & dc & _ & _ & [[_ ->] | (_ & _ & ->)]).
      + split; [exists []; rewrite app_nil_r; reflexivity | reflexivity].
      + split; [exists [OList []]; reflexivity | reflexivity].
    - injection Hlog as <-. split; [exists []; rewrite app_nil_r; reflexivity | reflexivity]. }
  destruct Hw4 as [[ext Hext] Hcalls]. split.
  - exists ext. rewrite Hext. reflexivity.
  - rewrite Hcalls. cbn [model_calls w3 set_store w2 count_call]. rewrite Hmc. reflexivity.
Qed.

Lemma attach_resources_not_object (loads : pystr -> decoding) (m : val) (text : pystr)
    (j : json) (w : World) :
  extract_json loads text = Ret j -> is_object j = false ->
  attach_resources loads m text w
  = (Raise AttributeError, set_store (snd (alloc j (store w))) w).
Proof.
  intros He Hj. unfold attach_resources.
  apply try_except_pass; [|reflexivity].
  rewrite (bind_ret_eq _ _ _ _ _ (parse_response_ret loads text j w He)).
  erewrite bind_raise_eq; [reflexivity|].
  apply (py_get_not_object j (store w) []); [exact Hj | rewrite app_nil_r; reflexivity].
Qed.

Lemma same_calls_resource_prompt (m prefs : val) :
  preserves same_calls (resource_prompt m prefs).
Proof.
  apply preserves_resource_prompt; unfold same_calls.
  - reflexivity.
  - intros a b c H1 H2. congruence.
  - intros o w. reflexivity.
Qed.

(** X8: in a round of the loop of node 3, a reply that decodes to
    something else than an object is not caught by
    [except json.JSONDecodeError]: the round, and the loop with it,
    raise [AttributeError], after the one model call of the round. *)
Theorem enrich_reply_not_object (loads : pystr -> decoding) (E : Env) (self : Generator)
    (curriculum prefs enriched : val) (idx : nat) (m : val) (rest : list val) (w : World)
    (p : list val) (text : pystr) (j : json) :
  fst (resource_prompt m prefs w) = Ret p ->
  model E (model_calls w) = Content text ->
  extract_json loads text = Ret j ->
  is_object j = false ->
  exists w' : World,
    for_enumerate (enrich_module loads E self curriculum prefs enriched) idx (m :: rest) w
    = (Raise AttributeError, w') /\
    model_calls w' = S (model_calls w).
Proof.
  intros Hp Hm He Hj.
  pose proof (same_calls_resource_prompt m prefs w) as Hc. unfold same_calls in Hc.
  destruct (resource_prompt m prefs w) as [[p'|e] w1] eqn:Hrp; [|discriminate Hp].
  cbn [snd] in Hc.
  cbn [for_enumerate]. unfold enrich_module.
  eexists. split.
  - erewrite bind_raise_eq; [reflexivity|].
    rewrite (bind_ret_eq _ _ _ _ _ Hrp).
    rewrite (bind_ret_eq _ _ _ _ _ (ainvoke_content E w1 text ltac:(rewrite Hc; exact Hm))).
    erewrite bind_raise_eq; [reflexivity|].
    exact (attach_resources_not_object loads m text j _ He Hj).
  - cbn [model_calls set_store count_call]. rewrite Hc. reflexivity.
Qed.

(** ** Node 3 and the shape of [modules] *)

(** X9: when [modules] of the curriculum is not a list (a number,
    [None], a boolean, a string or a dict that is not empty), node 3
    raises [TypeError] after reporting 75, and calls the model not
    once. *)
Theorem enrich_modules_unusable (loads : pystr -> decoding) (E : Env) (self : Generator)
    (state : State) (w : World) (lc : loc) (dc : list (pystr * val)) (x : val) :
  curriculum_structure state = VRef lc ->
  store w !! lc = Some (ODict dc) ->
  dict_get (U "modules") dc = Some x ->
  not_modules (store w) x = true ->
  exists w' : World,
    _enrich_resources loads E self state w = (Raise TypeError, w') /\
    model_calls w' = model_calls w /\
    progress_trace w' = progress_trace w ++ (if streaming self then [75] else []).
Proof.
  intros Hcur Hc Hmods Hx. unfold _enrich_resources. rewrite Hcur.
  destruct (stream_update_trace E self (U "enriching")
              [Lit (U "Finding the best learning resources...")] 75 w)
    as (w1 & Hs & Hst1 & Hmc1 & _ & Htr1).
  rewrite (bind_ret_eq _ _ _ _ _ Hs).
  rewrite (bind_ret_eq _ _ _ _ _ (new_eq (OList []) w1)).
  set (w2 := set_store (store w1 ++ [OList []]) w1).
  assert (Hold : forall l o, store w !! l = Some o -> store w2 !! l = Some o).
  { intros l o Hl. unfold w2. cbn [set_store store]. rewrite Hst1.
    apply lookup_app_old. exact Hl. }
  rewrite (bind_ret_eq _ _ _ _ _
             (py_get_found lc (U "modules") _ w2 dc x (Hold _ _ Hc) Hmods)).
  assert (Hdone : model_calls w2 = model_calls w /\
                  progress_trace w2 = progress_trace w ++ (if streaming self then [75] else [])).
  { split; [exact Hmc1 | exact Htr1]. }
  exists w2. split; [|exact Hdone].
  destruct x as [| b | z | f | s | l]; cbn [not_modules] in Hx; try reflexivity.
  - destruct s as [|c s]; [discriminate Hx|].
    erewrite bind_ret_eq; [|reflexivity]. cbn [map].
    erewrite bind_raise_eq; [reflexivity | apply enrich_loop_strings].
  - destruct (store w !! l) as [[[|[k v] d]|xs]|] eqn:Hl; try discriminate Hx.
    erewrite bind_ret_eq; [|unfold py_iter; rewrite (Hold _ _ Hl); reflexivity]. cbn [map fst].
    erewrite bind_raise_eq; [reflexivity | apply enrich_loop_strings].
Qed.

Lemma store_frame_enrich_module (loads : pystr -> decoding) (E : Env) (self : Generator)
    (curriculum prefs enriched : val) (idx : nat) (m : val) :
  preserves (store_frame (writes enrich_resources))
    (enrich_module loads E self curriculum prefs enriched idx m).
Proof.
  apply (preserves_enrich_module loads E (store_frame (writes enrich_resources))
           (store_frame_refl _) (store_frame_trans _) (store_frame_new _)
           (store_frame_parse _ loads) (fun _ => True)
           (fun v x _ => store_frame_append _ v x)
           (store_frame_model _ E) self
           (store_frame_update _ E self) (writes enrich_resources) (store_frame_setitem _)).
  - reflexivity.
  - exact I.
Qed.

(** X10: when some item of [modules] is not a dict, or is a dict
    without [title], node 3 does not return: it raises. *)
Theorem enrich_untitled_module (loads : pystr -> decoding) (E : Env) (self : Generator)
    (state : State) (w : World) (lc lm : loc) (dc : list (pystr * val)) (ms : list val)
    (x : val) :
  curriculum_structure state = VRef lc ->
  store w !! lc = Some (ODict dc) ->
  dict_get (U "modules") dc = Some (VRef lm) ->
  store w !! lm = Some (OList ms) ->
  In x ms ->
  untitled (store w) x = true ->
  exists (e : exn) (w' : World), _enrich_resources loads E self state w = (Raise e, w').
Proof.
  intros Hcur Hc Hmods Hm Hin Hx.
  destruct (_enrich_resources loads E self state w) as [[s'|e] w'] eqn:Hrun; [|eauto].
  exfalso. unfold _enrich_resources in Hrun. rewrite Hcur in Hrun.
  destruct (stream_update_spec E self (U "enriching")
              [Lit (U "Finding the best learning resources...")] 75 w)
    as (w1 & Hs & Hst1 & _).
  rewrite (bind_ret_eq _ _ _ _ _ Hs) in Hrun.
  rewrite (bind_ret_eq _ _ _ _ _ (new_eq (OList []) w1)) in Hrun.
  set (w2 := set_store (store w1 ++ [OList []]) w1) in Hrun.
  assert (Hold : forall l o, store w !! l = Some o -> store w2 !! l = Some o).
  { intros l o Hl. unfold w2. cbn [set_store store]. rewrite Hst1.
    apply lookup_app_old. exact Hl. }
  rewrite (bind_ret_eq _ _ _ _ _
             (py_get_found lc (U "modules") _ w2 dc (VRef lm) (Hold _ _ Hc) Hmods)) in Hrun.
  rewrite (bind_ret_eq _ _ _ _ _ (py_iter_list lm w2 ms (Hold _ _ Hm))) in Hrun.
  apply bind_ret_inv in Hrun as ([] & w5 & Hloop & _).
  destruct (for_enumerate_ret_inv (store_frame (writes enrich_resources))
              (store_frame_refl _) (store_frame_trans _) _
              (store_frame_enrich_module loads E self (VRef lc) (preferences state)
                 (VRef (length (store w1))))
              ms 0%nat w2 w5 Hloop x Hin) as (j & wa & wb & HR & Hbody).
  unfold enrich_module in Hbody.
  apply bind_ret_inv in Hbody as (p & wc & Hp & _).
  unfold resource_prompt in Hp.
  apply bind_ret_inv in Hp as (t & wd & Ht & _).
  destruct (py_getitem_ret x (U "title") wa t) as (l & d1 & -> & Hl1 & Ht1);
    [rewrite Ht; reflexivity|].
  assert (Hfr : frame (writes enrich_resources) (store w) (store wa)).
  { eapply frame_trans; [|exact HR]. unfold w2. cbn [set_store store]. rewrite Hst1.
    apply frame_ext. }
  destruct (Hfr l) as [Hlist Hdict].
  cbn [untitled] in Hx.
  destruct (store w !! l) as [[d|xs]|] eqn:Hl; [| |discriminate Hx].
  - destruct (Hdict d eq_refl) as (d' & Hd' & _ & Hsame).
    assert (d' = d1) by congruence. subst d'.
    rewrite (Hsame (U "title")) in Ht1 by (cbn; discriminate).
    rewrite Ht1 in Hx. discriminate Hx.
  - destruct (Hlist xs eq_refl) as (ys & Hys). congruence.
Qed.

(** ** Node 3: what a run that returns has cost *)

Lemma enrich_module_calls (loads : pystr -> decoding) (E : Env) (self : Generator)
    (curriculum prefs enriched : val) (idx : nat) (m : val) (w w' : World) :
  enrich_module loads E self curriculum prefs enriched idx m w = (Ret tt, w') ->
  model_calls w' = S (model_calls w).
Proof.
  unfold enrich_module. intros H.
  apply bind_ret_inv in H as (p & w1 & H1 & H).
  apply bind_ret_inv in H as (r & w2 & H2 & H).
  apply bind_ret_inv in H as ([] & w3 & H3 & H).
  apply bind_ret_inv in H as ([] & w4 & H4 & H5).
  pose proof (preserves_step same_calls _ _ _ _ (same_calls_resource_prompt m prefs) H1) as C1.
  pose proof (ainvoke_world E w1) as C2. rewrite H2 in C2. cbn [snd] in C2.
  pose proof (preserves_step same_calls _ _ _ _
                (preserves_attach_resources loads same_calls same_calls_refl same_calls_trans
                   same_calls_new (same_calls_parse loads) (fun _ => True) same_calls_setitem
                   m r I) H3) as C3.
  pose proof (preserves_step same_calls _ _ _ _ (same_calls_append enriched m) H4) as C4.
  pose proof (preserves_step same_calls _ _ _ _
                (preserves_report_enriched E same_calls same_calls_refl same_calls_trans
                   same_calls_new self (same_calls_update E self) curriculum idx) H5) as C5.
  unfold same_calls in *. rewrite C5, C4, C3, C2. cbn [model_calls count_call].
  rewrite C1. reflexivity.
Qed.

Lemma for_enumerate_calls (loads : pystr -> decoding) (E : Env) (self : Generator)
    (curriculum prefs enriched : val) (xs : list val) :
  forall (idx : nat) (w w' : World),
    for_enumerate (enrich_module loads E self curriculum prefs enriched) idx xs w = (Ret tt, w') ->
    model_calls w' = (model_calls w + length xs)%nat.
Proof.
  induction xs as [|x xs IH]; intros idx w w' H; cbn [for_enumerate length] in *.
  - injection H as <-. lia.
  - apply bind_ret_inv in H as ([] & w1 & H1 & H).
    apply enrich_module_calls in H1. rewrite (IH _ _ _ H), H1. lia.
Qed.

(** X11: when node 3 returns for a list of [n] modules, it has called
    the model [n] times and reported [n + 1] values: 75, then
    [75 + floor (15 * k / n)] for [k] from 1 to [n], the last one being
    90 when there is a module. *)
Theorem enrich_accounting (loads : pystr -> decoding) (E : Env) (self : Generator)
    (state state' : State) (w w' : World) (lc lm : loc) (dc : list (pystr * val))
    (ms : list val) :
  curriculum_structure state = VRef lc ->
  store w !! lc = Some (ODict dc) ->
  dict_get (U "modules") dc = Some (VRef lm) ->
  store w !! lm = Some (OList ms) ->
  _enrich_resources loads E self state w = (Ret state', w') ->
  model_calls w' = (model_calls w + length ms)%nat /\
  progress_trace w' = progress_trace w ++
    (if streaming self
     then 75 :: map (progress_at (length ms)) (seq 1 (length ms)) else []) /\
  (ms <> [] -> streaming self = true -> exists t, progress_trace w' = t ++ [90]).
Proof.
  intros Hcur Hc Hmods Hm Hrun.
  assert (Htrace : progress_trace w' = progress_trace w ++
            (if streaming self
             then 75 :: map (progress_at (length ms)) (seq 1 (length ms)) else [])).
  { destruct (enrich_resources_list loads E self state w lc lm dc ms Hcur Hc Hmods Hm)
      as (j & _ & Htr & Hres).
    rewrite Hrun in Htr, Hres. cbn [fst snd] in Htr, Hres. destruct Hres as [-> _]. exact Htr. }
  split; [|split; [exact Htrace|]].
  - unfold _enrich_resources in Hrun. rewrite Hcur in Hrun.
    destruct (stream_update_spec E self (U "enriching")
                [Lit (U "Finding the best learning resources...")] 75 w)
      as (w1 & Hs & Hst1 & Hmc1 & _).
    rewrite (bind_ret_eq _ _ _ _ _ Hs) in Hrun.
    rewrite (bind_ret_eq _ _ _ _ _ (new_eq (OList []) w1)) in Hrun.
    set (w2 := set_store (store w1 ++ [OList []]) w1) in Hrun.
    assert (Hold : forall l o, store w !! l = Some o -> store w2 !! l = Some o).
    { intros l o Hl. unfold w2. cbn [set_store store]. rewrite Hst1.
      apply lookup_app_old. exact Hl. }
    rewrite (bind_ret_eq _ _ _ _ _
               (py_get_found lc (U "modules") _ w2 dc (VRef lm) (Hold _ _ Hc) Hmods)) in Hrun.
    rewrite (bind_ret_eq _ _ _ _ _ (py_iter_list lm w2 ms (Hold _ _ Hm))) in Hrun.
    apply bind_ret_inv in Hrun as ([] & w5 & Hloop & Hrun).
    apply bind_ret_inv in Hrun as ([] & w6 & Hlog & Hrun).
    injection Hrun as _ <-.
    apply for_enumerate_calls in Hloop.
    assert (C6 : model_calls w6 = model_calls w5).
    { destruct (logger self); cbn [when] in Hlog.
      - apply bind_ret_inv in Hlog as (n & wa & Hlen & Hlog).
        pose proof (py_len_world (VRef (length (store w1))) w5) as Ha.
        rewrite Hlen in Ha. cbn [snd] in Ha. subst wa.
        injection Hlog as <-. reflexivity.
      - injection Hlog as <-. reflexivity. }
    rewrite C6, Hloop. cbn [model_calls w2 set_store]. rewrite Hmc1. reflexivity.
  - intros Hne Hstr. rewrite Htrace, Hstr.
    destruct (length ms) as [|k] eqn:Hlen.
    { destruct ms; [congruence | discriminate Hlen]. }
    rewrite seq_S, map_app. cbn [map].
    change (progress_trace w ++ 75 :: map (progress_at (S k)) (seq 1 k) ++ [progress_at (S k) (1 + k)])
      with (progress_trace w ++ (75 :: map (progress_at (S k)) (seq 1 k)) ++ [progress_at (S k) (S k)]).
    rewrite app_assoc, progress_at_full by lia. eauto.
Qed.

(** ** Node 4 and the path that [generate] returns *)

Lemma py_setitem_ret (v : val) (k : pystr) (x : val) (w w' : World) :
  py_setitem v k x w = (Ret tt, w') ->
  exists l d, v = VRef l /\ store w !! l = Some (ODict d) /\
              w' = set_store (<[l := ODict (dict_set k x d)]> (store w)) w.
Proof.
  unfold py_setitem. destruct v as [| | | | |l]; try discriminate.
  destruct (store w !! l) as [[d|xs]|] eqn:Hl; try discriminate.
  intros [= <-]. eauto.
Qed.

Lemma finalize_path_store (E : Env) (self : Generator) (state state' : State) (w w' : World) :
  _finalize_path E self state w = (Ret state', w') ->
  exists (lc : loc) (dc : list (pystr * val)) (created : pystr),
    curriculum_structure state = VRef lc /\
    store w !! lc = Some (ODict dc) /\
    state' = set_final_path state (VRef (length (store w))) /\
    store w' = <[lc := ODict (dict_set (U "modules") (enriched_modules state) dc)]> (store w)
               ++ [ODict (final_path_items state created)] /\
    model_calls w' = model_calls w.
Proof.
  unfold _finalize_path. intros H.
  destruct (stream_update_spec E self (U "completed")
              [Lit (U "Your "); Lit (str_of (topic state));
               Lit (U " learning path is ready! "); Lit [127881%N]] 100 w)
    as (w1 & Hs & Hst1 & Hmc1 & _).
  rewrite (bind_ret_eq _ _ _ _ _ Hs) in H.
  apply bind_ret_inv in H as ([] & w2 & Hset & H).
  apply py_setitem_ret in Hset as (lc & dc & Hcur & Hlc & ->).
  apply bind_ret_inv in H as (created & w3 & Hclock & H).
  unfold clock_iso in Hclock. injection Hclock as <- <-.
  rewrite (bind_ret_eq _ _ _ _ _ (new_eq _ _)) in H.
  apply bind_ret_inv in H as ([] & w5 & Hlog & H). injection H as <- <-.
  rewrite Hst1 in Hlc.
  exists lc, dc, (now_iso E (clock_reads w1)).
  split; [exact Hcur|]. split; [exact Hlc|].
  cbn [store set_store clock_reads] in *. rewrite Hst1 in *.
  split; [rewrite length_insert; reflexivity|].
  match type of Hlog with when _ _ ?W = _ => set (w4 := W) in * end.
  assert (Hw5 : store w5 = store w4 /\ model_calls w5 = model_calls w4).
  { destruct (logger self); cbn [when] in Hlog.
    - assert (Hget : py_get (curriculum_structure state) (U "modules") (new (OList [])) w4
                     = (Ret (enriched_modules state), w4)).
      { rewrite Hcur. eapply py_get_found.
        - unfold w4. cbn [store]. apply lookup_app_old.
          apply list_lookup_insert_eq. eapply lookup_lt_Some. exact Hlc.
        - apply dict_get_set_eq. }
      rewrite (bind_ret_eq _ _ _ _ _ Hget) in Hlog.
      apply bind_ret_inv in Hlog as (n & wa & Hlen & Hlog).
      pose proof (py_len_world (enriched_modules state) w4) as Ha.
      rewrite Hlen in Ha. cbn [snd] in Ha. subst wa.
      injection Hlog as <-. split; reflexivity.
    - injection Hlog as <-. split; reflexivity. }
  destruct Hw5 as [-> ->]. unfold w4. cbn [store model_calls].
  split; [reflexivity | exact Hmc1].
Qed.

(** X12: when node 4 returns, the curriculum is a dict; its [modules]
    entry is now [enriched_modules], and it is the very object the new
    dict [final_path] holds under [curriculum]; every other object of
    the store is as it was, and the model was not called. *)
Theorem finalize_path_spec (E : Env) (self : Generator) (state state' : State)
    (w w' : World) :
  _finalize_path E self state w = (Ret state', w') ->
  exists (lc lf : loc) (dc : list (pystr * val)) (created : pystr),
    curriculum_structure state = VRef lc /\
    store w !! lc = Some (ODict dc) /\
    store w !! lf = None /\
    state' = set_final_path state (VRef lf) /\
    store w' !! lf = Some (ODict (final_path_items state created)) /\
    store w' !! lc = Some (ODict (dict_set (U "modules") (enriched_modules state) dc)) /\
    (forall l, l <> lc -> l <> lf -> store w' !! l = store w !! l) /\
    model_calls w' = model_calls w.
Proof.
  intros H.
  destruct (finalize_path_store E self state state' w w' H)
    as (lc & dc & created & Hcur & Hlc & Hst & Hstore & Hmc).
  exists lc, (length (store w)), dc, created.
  assert (Hlt : (lc < length (store w))%nat) by (eapply lookup_lt_Some; exact Hlc).
  split; [exact Hcur|]. split; [exact Hlc|].
  split; [apply lookup_ge_None; lia|]. split; [exact Hst|].
  rewrite Hstore. split; [|split; [|split; [|exact Hmc]]].
  - rewrite lookup_app_r by (rewrite length_insert; lia).
    rewrite length_insert, Nat.sub_diag. reflexivity.
  - rewrite lookup_app_l by (rewrite length_insert; lia).
    apply list_lookup_insert_eq. exact Hlt.
  - intros l Hl1 Hl2. destruct (decide (l < length (store w))%nat) as [Hl|Hl].
    + rewrite lookup_app_l by (rewrite length_insert; lia).
      apply list_lookup_insert_ne. congruence.
    + rewrite (proj2 (lookup_ge_None (store w) l)) by lia.
      apply lookup_ge_None. rewrite length_app, length_insert. cbn [length]. lia.
Qed.

Lemma enrich_resources_enriched (loads : pystr -> decoding) (E : Env) (self : Generator)
    (state state' : State) (w w' : World) :
  _enrich_resources loads E self state w = (Ret state', w') ->
  exists (le : loc) (xs : list val),
    state' = set_enriched_modules state (VRef le) /\ store w' !! le = Some (OList xs).
Proof.
  unfold _enrich_resources. intros H.
  apply bind_ret_inv in H as ([] & w1 & _ & H).
  rewrite (bind_ret_eq _ _ _ _ _ (new_eq (OList []) w1)) in H.
  set (W := writes enrich_resources).
  set (w2 := set_store (store w1 ++ [OList []]) w1) in H.
  apply bind_ret_inv in H as (modules & w3 & H3 & H).
  apply bind_ret_inv in H as (items & w4 & H4 & H).
  apply bind_ret_inv in H as ([] & w5 & H5 & H).
  apply bind_ret_inv in H as ([] & w6 & H6 & H).
  injection H as <- <-.
  exists (length (store w1)).
  pose proof (preserves_step (store_frame W) _ _ _ _
                (preserves_py_get (store_frame W) (store_frame_refl W) _ _ _
                   (store_frame_new W (OList []))) H3) as F3.
  pose proof (preserves_step (store_frame W) _ _ _ _
                (preserves_py_iter (store_frame W) (store_frame_refl W) _) H4) as F4.
  pose proof (preserves_step (store_frame W) _ _ _ _
                (preserves_for_enumerate (store_frame W) (store_frame_refl W)
                   (store_frame_trans W) _
                   (store_frame_enrich_module loads E self _ _ _) items 0%nat) H5) as F5.
  assert (F6 : store w6 = store w5).
  { destruct (logger self); cbn [when] in H6.
    - apply bind_ret_inv in H6 as (n & wa & Hlen & H6).
      pose proof (py_len_world (VRef (length (store w1))) w5) as Ha.
      rewrite Hlen in Ha. cbn [snd] in Ha. subst wa.
      injection H6 as <-. reflexivity.
    - injection H6 as <-. reflexivity. }
  pose proof (frame_trans W _ _ _ (frame_trans W _ _ _ F3 F4) F5) as F.
  destruct (F (length (store w1))) as [Hlist _].
  destruct (Hlist [] (lookup_snoc (store w1) (OList []))) as [ys Hys].
  exists ys. split; [reflexivity|]. rewrite F6. exact Hys.
Qed.

Lemma kept_below_length (W : pystr -> Prop) (h h' : heap) :
  kept_below (length h) W h h' -> (length h <= length h')%nat.
Proof.
  intros H. destruct (length h) as [|n] eqn:Hn; [lia|].
  assert (Hlt : (n < length h)%nat) by lia.
  destruct (lookup_lt_is_Some_2 h n Hlt) as [o Ho].
  rewrite Hn in Hlt. destruct (H n Hlt) as [HL HD]. destruct o as [d|xs].
  - destruct (HD d Ho) as (d' & Hd' & _). apply lookup_lt_Some in Hd'. lia.
  - specialize (HL xs Ho). apply lookup_lt_Some in HL. lia.
Qed.

(** No node makes the store shorter. *)
Lemma node_store_length (loads : pystr -> decoding) (E : Env) (self : Generator)
    (n : node) (state : State) (w w' : World) (r : outcome State) :
  run_node loads E self n state w = (r, w') -> (length (store w) <= length (store w'))%nat.
Proof.
  intros H. pose proof (node_kept loads E self n state w) as K. rewrite H in K.
  exact (kept_below_length _ _ _ K).
Qed.

(** X13: the path [generate] returns is a new dict, at a location
    that held no object before.  It carries the fields of the request
    ([goalLevel] being ['intermediate'] when the request has none,
    [traceId] being the one of the request), the analysis as a string,
    and the curriculum, whose [modules] is a list. *)
Theorem generate_final_path (loads : pystr -> decoding) (E : Env) (self : Generator)
    (req : Request) (w w' : World) (v : val) :
  generate loads E self req w = (Ret v, w') ->
  exists (lf lc le : loc) (a created : pystr) (prefs : val) (dc : list (pystr * val))
         (ms : list val),
    v = VRef lf /\
    store w !! lf = None /\
    store w' !! lf
    = Some (ODict [(U "userId", of_opt (req_userId req));
                   (U "topic", of_opt (req_topic req));
                   (U "background", of_opt (req_background req));
                   (U "goalLevel",
                    VStr (match req_goalLevel req with
                          | Some level => level
                          | None => U "intermediate"
                          end));
                   (U "preferences", prefs);
                   (U "analysis", VStr a);
                   (U "curriculum", VRef lc);
                   (U "createdAt", VStr created);
                   (U "traceId", of_opt (req_traceId req))]) /\
    (forall p, req_preferences req = Some p -> prefs = p) /\
    store w' !! lc = Some (ODict dc) /\
    dict_get (U "modules") dc = Some (VRef le) /\
    store w' !! le = Some (OList ms).
Proof.
  unfold generate. intros H.
  apply bind_ret_inv in H as (prefs & w0 & Hprefs & H).
  apply bind_ret_inv in H as (fs & w4 & Hgraph & H). injection H as <- <-.
  rewrite graph_ainvoke_eq in Hgraph.
  apply bind_ret_inv in Hgraph as (s1 & w1 & H1 & Hgraph).
  apply bind_ret_inv in Hgraph as (s2 & w2 & H2 & Hgraph).
  apply bind_ret_inv in Hgraph as (s3 & w3 & H3 & Hgraph).
  apply bind_ret_inv in Hgraph as (s4 & w4' & H4 & Hgraph). injection Hgraph as <- <-.
  assert (L0 : (length (store w) <= length (store w0))%nat).
  { unfold get_preferences in Hprefs. destruct (req_preferences req).
    - injection Hprefs as _ <-. lia.
    - injection Hprefs as _ <-. cbn [set_store store]. rewrite length_app. lia. }
  pose proof (node_store_length loads E self analyze_background _ _ _ _ H1) as L1.
  pose proof (node_store_length loads E self generate_curriculum _ _ _ _ H2) as L2.
  pose proof (node_store_length loads E self enrich_resources _ _ _ _ H3) as L3.
  destruct (analyze_background_ret _ _ _ _ _ _ H1) as [a E1].
  destruct (generate_curriculum_ret _ _ _ _ _ _ _ H2) as [c E2].
  destruct (enrich_resources_enriched _ _ _ _ _ _ _ H3) as (le & xs & E3 & Hle).
  destruct (finalize_path_store _ _ _ _ _ _ H4)
    as (lc & dc & created & Hcur & Hlc & E4 & Hstore & _).
  assert (Hlt : (lc < length (store w3))%nat) by (eapply lookup_lt_Some; exact Hlc).
  assert (Hc : c = VRef lc) by (rewrite E3, E2 in Hcur; exact Hcur).
  exists (length (store w3)), lc, le, a, created, prefs,
         (dict_set (U "modules") (VRef le) dc), xs.
  split; [rewrite E4; reflexivity|].
  split; [apply lookup_ge_None; lia|].
  split.
  { rewrite Hstore. rewrite lookup_app_r by (rewrite length_insert; lia).
    rewrite length_insert, Nat.sub_diag. cbn [lookup list_lookup].
    rewrite E3, E2, E1, Hc. reflexivity. }
  split.
  { intros p Hp. unfold get_preferences in Hprefs. rewrite Hp in Hprefs.
    injection Hprefs as <- _. reflexivity. }
  split.
  { rewrite Hstore, lookup_app_l by (rewrite length_insert; lia).
    rewrite list_lookup_insert_eq by exact Hlt. rewrite E3. reflexivity. }
  split; [apply dict_get_set_eq|].
  rewrite Hstore. apply lookup_app_old.
  rewrite list_lookup_insert_ne by congruence. exact Hle.
Qed.

(** ** The progress of the loop *)

(** X17: for the module at index [idx] out of [n], the progress
    formula does not fail; its value is [75 + floor (15 * (idx + 1) / n)],
    lies between 75 and 90, is 90 for the last module, and does not
    decrease with [idx]. *)
Theorem interpolate_in_range (idx n : nat) :
  (idx < n)%nat ->
  exists p : Z,
    interpolate (Z.of_nat idx + 1) (Z.of_nat n) = Ret p /\
    p = 75 + (15 * (Z.of_nat idx + 1)) / Z.of_nat n /\
    75 <= p <= 90 /\
    (S idx = n -> p = 90) /\
    (forall idx', (idx' <= idx)%nat ->
       exists p', interpolate (Z.of_nat idx' + 1) (Z.of_nat n) = Ret p' /\ p' <= p).
Proof.
  intros H. assert (Hn : n <> 0%nat) by lia.
  exists (progress_at n (S idx)).
  split; [apply interpolate_pos; exact Hn|].
  split; [unfold progress_at; rewrite Nat2Z.inj_succ; f_equal; f_equal; lia|].
  split; [apply progress_at_bounds; lia|].
  split; [intros <-; apply progress_at_full; exact Hn|].
  intros idx' Hle. exists (progress_at n (S idx')).
  split; [apply interpolate_pos; exact Hn | apply progress_at_mono; lia].
Qed.

Lemma agrees_up_to_spec (bound k n : nat) :
  Binary64.agrees_up_to bound = true ->
  (1 <= k)%nat -> (k <= n)%nat -> (n <= bound)%nat ->
  Binary64.interpolate (Z.of_nat k) (Z.of_nat n) = progress_at n k.
Proof.
  unfold Binary64.agrees_up_to. intros H Hk Hkn Hn. rewrite forallb_forall in H.
  specialize (H n ltac:(apply List.in_seq; lia)). rewrite forallb_forall in H.
  specialize (H k ltac:(apply List.in_seq; lia)). apply Z.eqb_eq in H. exact H.
Qed.

(** X18: for up to 128 modules, evaluating the formula in binary64 as
    Python does gives the value of the exact formula. *)
Theorem interpolate_float (k n : nat) :
  (1 <= k)%nat -> (k <= n)%nat -> (n <= 128)%nat ->
  Binary64.interpolate (Z.of_nat k) (Z.of_nat n) = progress_at n k.
Proof.
  intros Hk Hkn Hn.
  exact (agrees_up_to_spec 128 k n interpolate_binary64 Hk Hkn Hn).
Qed.

(** ** Decoded replies in the store *)

Lemma read_all_ext (f g : val -> option json) (xs : list val) (js : list json) :
  (forall x j, f x = Some j -> g x = Some j) ->
  read_all f xs = Some js -> read_all g xs = Some js.
Proof.
  intros Hfg. revert js. induction xs as [|x r IH]; intros js H; [exact H|].
  cbn [read_all] in *. destruct (f x) as [j|] eqn:Hx; [|discriminate H].
  destruct (read_all f r) as [js'|]; [|discriminate H].
  rewrite (Hfg x j Hx), (IH js' eq_refl). exact H.
Qed.

Lemma read_items_ext (f g : val -> option json) (d : list (pystr * val))
    (js : list (pystr * json)) :
  (forall x j, f x = Some j -> g x = Some j) ->
  read_items f d = Some js -> read_items g d = Some js.
Proof.
  intros Hfg. revert js. induction d as [|[k x] r IH]; intros js H; [exact H|].
  cbn [read_items] in *. destruct (f x) as [j|] eqn:Hx; [|discriminate H].
  destruct (read_items f r) as [js'|]; [|discriminate H].
  rewrite (Hfg x j Hx), (IH js' eq_refl). exact H.
Qed.

Lemma read_fuel (h : heap) (f : nat) :
  forall (f' : nat) (v : val) (j : json),
    (f <= f')%nat -> read f h v = Some j -> read f' h v = Some j.
Proof.
  induction f as [|f IH]; intros f' v j Hle H; [discriminate H|].
  destruct f' as [|f']; [lia|].
  cbn [read] in *. destruct v as [| | | | |l]; try exact H.
  destruct (h !! l) as [[d|xs]|]; [| |exact H].
  - destruct (read_items (read f h) d) as [js|] eqn:Hd; [|discriminate H].
    rewrite (read_items_ext (read f h) (read f' h) d js); [exact H | | exact Hd].
    intros x j0. apply IH. lia.
  - destruct (read_all (read f h) xs) as [js|] eqn:Hx; [|discriminate H].
    rewrite (read_all_ext (read f h) (read f' h) xs js); [exact H | | exact Hx].
    intros x j0. apply IH. lia.
Qed.

(** A store [h2] that holds the objects that decoding [j] added to [h]
    gives [j] back. *)
Lemma alloc_read (j : json) :
  forall (h : heap) (v : val) (h' : heap),
    alloc j h = (v, h') ->
    forall h2 : heap,
      (forall l, (length h <= l < length h')%nat -> h2 !! l = h' !! l) ->
      exists fuel, read fuel h2 v = Some j.
Proof.
  revert j. fix IH 1. intros j h v h' Ha h2 Hag.
  destruct j as [| b | z | x | s | js | kvs]; simpl in Ha.
  1-5: injection Ha as <- <-; exists 1%nat; reflexivity.
  - assert (Hitems : forall js h vs h1,
               (fix items (js : list json) (h : heap) : list val * heap :=
                  match js with
                  | [] => ([], h)
                  | j :: r =>
                      let '(v, h1) := alloc j h in
                      let '(vs, h2) := items r h1 in (v :: vs, h2)
                  end) js h = (vs, h1) ->
               (exists ext, h1 = h ++ ext) /\
               forall h2,
                 (forall l, (length h <= l < length h1)%nat -> h2 !! l = h1 !! l) ->
                 exists fuel, read_all (read fuel h2) vs = Some js).
    { clear js h v h' Ha h2 Hag. intros js. induction js as [|j r IHr]; intros h vs h1 Hi.
      - injection Hi as <- <-. split; [exists []; rewrite app_nil_r; reflexivity|].
        intros h2 _. exists 0%nat. reflexivity.
      - destruct (alloc j h) as [v ha] eqn:Haj.
        destruct (alloc_extends j h) as [e1 He1]. rewrite Haj in He1. cbn [snd] in He1.
        match type of Hi with (let '(_, _) := ?t in _) = _ => destruct t as [vs' hb] eqn:Hr end.
        injection Hi as <- <-.
        destruct (IHr ha vs' hb Hr) as [[e2 He2] Hread].
        split; [exists (e1 ++ e2); rewrite He2, He1, app_assoc; reflexivity|].
        intros h2 Hag.
        assert (Hlen1 : length ha = (length h + length e1)%nat)
          by (rewrite He1, length_app; reflexivity).
        assert (Hlen2 : length hb = (length ha + length e2)%nat)
          by (rewrite He2, length_app; reflexivity).
        destruct (IH j h v ha Haj h2) as [f1 Hf1].
        { intros l Hl. rewrite Hag by lia. rewrite He2. apply lookup_app_l. lia. }
        destruct (Hread h2) as [f2 Hf2].
        { intros l Hl. apply Hag. lia. }
        exists (max f1 f2). cbn [read_all].
        rewrite (read_fuel h2 f1 (max f1 f2) v j ltac:(lia) Hf1).
        rewrite (read_all_ext (read f2 h2) (read (max f1 f2) h2) vs' r);
          [reflexivity | | exact Hf2].
        intros x j0. apply read_fuel. lia. }
    match type of Ha with (let '(_, _) := ?t in _) = _ => destruct t as [vs h1] eqn:Hi end.
    injection Ha as <- <-.
    destruct (Hitems js h vs h1 Hi) as [[ext Hext] Hread].
    assert (Hlen : length h1 = (length h + length ext)%nat)
      by (rewrite Hext, length_app; reflexivity).
    destruct (Hread h2) as [f Hf].
    { intros l Hl. rewrite Hag by (rewrite length_app; cbn [length]; lia).
      apply lookup_app_l. lia. }
    exists (S f). cbn [read].
    rewrite Hag by (rewrite length_app; cbn [length]; lia).
    rewrite lookup_snoc, Hf. reflexivity.
  - assert (Hitems : forall kvs h d h1,
               (fix items (kvs : list (pystr * json)) (h : heap)
                  : list (pystr * val) * heap :=
                  match kvs with
                  | [] => ([], h)
                  | (k, j) :: r =>
                      let '(v, h1) := alloc j h in
                      let '(d, h2) := items r h1 in ((k, v) :: d, h2)
                  end) kvs h = (d, h1) ->
               (exists ext, h1 = h ++ ext) /\
               forall h2,
                 (forall l, (length h <= l < length h1)%nat -> h2 !! l = h1 !! l) ->
                 exists fuel, read_items (read fuel h2) d = Some kvs).
    { clear kvs h v h' Ha h2 Hag. intros kvs.
      induction kvs as [|[k j] r IHr]; intros h d h1 Hi.
      - injection Hi as <- <-. split; [exists []; rewrite app_nil_r; reflexivity|].
        intros h2 _. exists 0%nat. reflexivity.
      - destruct (alloc j h) as [v ha] eqn:Haj.
        destruct (alloc_extends j h) as [e1 He1]. rewrite Haj in He1. cbn [snd] in He1.
        match type of Hi with (let '(_, _) := ?t in _) = _ => destruct t as [d' hb] eqn:Hr end.
        injection Hi as <- <-.
        destruct (IHr ha d' hb Hr) as [[e2 He2] Hread].
        split; [exists (e1 ++ e2); rewrite He2, He1, app_assoc; reflexivity|].
        intros h2 Hag.
        assert (Hlen1 : length ha = (length h + length e1)%nat)
          by (rewrite He1, length_app; reflexivity).
        assert (Hlen2 : length hb = (length ha + length e2)%nat)
          by (rewrite He2, length_app; reflexivity).
        destruct (IH j h v ha Haj h2) as [f1 Hf1].
        { intros l Hl. rewrite Hag by lia. rewrite He2. apply lookup_app_l. lia. }
        destruct (Hread h2) as [f2 Hf2].
        { intros l Hl. apply Hag. lia. }
        exists (max f1 f2). cbn [read_items].
        rewrite (read_fuel h2 f1 (max f1 f2) v j ltac:(lia) Hf1).
        rewrite (read_items_ext (read f2 h2) (read (max f1 f2) h2) d' r);
          [reflexivity | | exact Hf2].
        intros x j0. apply read_fuel. lia. }
    match type of Ha with (let '(_, _) := ?t in _) = _ => destruct t as [d h1] eqn:Hi end.
    injection Ha as <- <-.
    destruct (Hitems kvs h d h1 Hi) as [[ext Hext] Hread].
    assert (Hlen : length h1 = (length h + length ext)%nat)
      by (rewrite Hext, length_app; reflexivity).
    destruct (Hread h2) as [f Hf].
    { intros l Hl. rewrite Hag by (rewrite length_app; cbn [length]; lia).
      apply lookup_app_l. lia. }
    exists (S f). cbn [read].
    rewrite Hag by (rewrite length_app; cbn [length]; lia).
    rewrite lookup_snoc, Hf. reflexivity.
Qed.

Lemma read_items_get (g : val -> option json) (d : list (pystr * val))
    (kvs : list (pystr * json)) (k : pystr) (j : json) :
  read_items g d = Some kvs -> dict_get k kvs = Some j ->
  exists x, dict_get k d = Some x /\ g x = Some j.
Proof.
  revert kvs. induction d as [|[k0 x0] r IH]; intros kvs H Hk.
  - injection H as <-. discriminate Hk.
  - cbn [read_items] in H. destruct (g x0) as [j0|] eqn:Hx; [|discriminate H].
    destruct (read_items g r) as [js|] eqn:Hr; [|discriminate H].
    injection H as <-. cbn [dict_get] in *.
    destruct (PyStr.eqb k k0).
    + injection Hk as <-. eauto.
    + exact (IH js eq_refl Hk).
Qed.

(** X7: when the curriculum reply decodes to [j] and node 2 returns,
    [curriculum_structure] stands for [j] itself, not for the fallback:
    reading it back from the store gives [j].  [progress] is 60 and the
    model was called once. *)
Theorem curriculum_decoded (loads : pystr -> decoding) (E : Env) (self : Generator)
    (state state' : State) (w w' : World) (text : pystr) (j : json) :
  model E (model_calls w) = Content text ->
  extract_json loads text = Ret j ->
  _generate_curriculum loads E self state w = (Ret state', w') ->
  (exists fuel, read fuel (store w') (curriculum_structure state') = Some j) /\
  progress state' = 60 /\
  model_calls w' = S (model_calls w).
Proof.
  intros Hm He Hrun.
  destruct (generate_curriculum_alloc loads E self state state' w w' text j Hm He Hrun)
    as (-> & [ext Hext] & Hmc).
  split; [|split; [reflexivity | exact Hmc]].
  cbn [curriculum_structure set_curriculum_structure].
  destruct (alloc j (store w)) as [v h'] eqn:Ha. cbn [fst snd] in *.
  apply (alloc_read j (store w) v h' Ha (store w')).
  intros l Hl. rewrite Hext. apply lookup_app_l. lia.
Qed.

(** X19: when the reply for a module decodes to an object that has a
    [resources] entry, the [try] statement returns and the
    [resources] of the module is the decoded entry: reading it back
    from the store gives the JSON value of the reply.  The other keys
    of the module keep their values. *)
Theorem enrich_resources_attached (loads : pystr -> decoding) (l : loc) (text : pystr)
    (w : World) (d : list (pystr * val)) (kvs : list (pystr * json)) (jr : json) :
  store w !! l = Some (ODict d) ->
  extract_json loads text = Ret (JObj kvs) ->
  dict_get (U "resources") kvs = Some jr ->
  exists (w' : World) (x : val) (fuel : nat),
    attach_resources loads (VRef l) text w = (Ret tt, w') /\
    store w' !! l = Some (ODict (dict_set (U "resources") x d)) /\
    read fuel (store w') x = Some jr /\
    model_calls w' = model_calls w /\
    sink w' = sink w.
Proof.
  intros Hl He Hk.
  destruct (alloc_object kvs (store w)) as (dr & ext0 & Ha & _).
  set (h1 := store w ++ ext0) in *.
  set (h' := h1 ++ [ODict dr]) in *.
  assert (Hlt : (l < length (store w))%nat) by (eapply lookup_lt_Some; exact Hl).
  assert (Hlen1 : length h1 = (length (store w) + length ext0)%nat)
    by (unfold h1; rewrite length_app; reflexivity).
  assert (Hlen' : length h' = S (length h1))
    by (unfold h'; rewrite length_app; cbn [length]; lia).
  assert (Hget : forall h2,
             (forall l0, (length (store w) <= l0 < length h')%nat -> h2 !! l0 = h' !! l0) ->
             exists x f, dict_get (U "resources") dr = Some x /\ read f h2 x = Some jr).
  { intros h2 Hag.
    destruct (alloc_read (JObj kvs) (store w) _ _ Ha h2 Hag) as [fuel Hread].
    destruct fuel as [|f]; [discriminate Hread|]. cbn [read] in Hread.
    rewrite Hag in Hread by lia. unfold h' in Hread. rewrite lookup_snoc in Hread.
    destruct (read_items (read f h2) dr) as [kvs'|] eqn:Hitems; [|discriminate Hread].
    injection Hread as ->.
    destruct (read_items_get _ _ _ _ _ Hitems Hk) as (x & Hx & Hrx). eauto. }
  destruct (Hget h' (fun _ _ => eq_refl)) as (x & _ & Hx & _).
  set (h2 := <[l := ODict (dict_set (U "resources") x d)]> h').
  destruct (Hget h2) as (x2 & f & Hx2 & Hrx).
  { intros l0 Hl0. unfold h2. apply list_lookup_insert_ne. lia. }
  assert (x2 = x) by congruence. subst x2.
  exists (set_store h2 (set_store h' w)), x, f.
  split; [|split; [|split; [exact Hrx | split; reflexivity]]].
  - unfold attach_resources. apply try_except_ret.
    pose proof (parse_response_ret loads text (JObj kvs) w He) as Hp.
    rewrite Ha in Hp. cbn [fst snd] in Hp.
    rewrite (bind_ret_eq _ _ _ _ _ Hp).
    erewrite bind_ret_eq.
    2:{ eapply py_get_found; [|exact Hx]. cbn [store set_store]. apply lookup_snoc. }
    apply py_setitem_dict. cbn [store set_store]. unfold h', h1.
    apply lookup_app_old, lookup_app_old. exact Hl.
  - cbn [store set_store]. unfold h2. apply list_lookup_insert_eq. lia.
Qed.


(** ** Concrete runs, continued *)

Lemma extract_json_ignores_tail_witness :
  extract_json RefJson.loads
    ([32%N] ++ fence ++ U "json" ++ nl ++ J "{'a': [1, 2]}" ++ nl ++ fence
       ++ U " Hope this helps!")
  = extract_json RefJson.loads (J "{'a': [1, 2]}").
Proof.
  apply (extract_json_ignores_tail RefJson.loads (J "{'a': [1, 2]}") [32%N] nl nl
           (U " Hope this helps!")); reflexivity.
Defined.

Lemma extract_json_untagged_witness :
  extract_json RefJson.loads
    ([] ++ fence ++ nl ++ J "{'a': [1, 2]}" ++ nl ++ fence ++ nl)
  = extract_json RefJson.loads (J "{'a': [1, 2]}").
Proof.
  apply (extract_json_untagged RefJson.loads (J "{'a': [1, 2]}") [] nl nl nl); reflexivity.
Defined.

Lemma extract_json_unclosed_witness :
  extract_json RefJson.loads ([] ++ fence ++ U "json" ++ nl ++ J "{'a': [1, 2]}" ++ nl)
  = extract_json RefJson.loads (J "{'a': [1, 2]}").
Proof.
  apply (extract_json_unclosed RefJson.loads (J "{'a': [1, 2]}") [] nl nl); reflexivity.
Defined.

Lemma curriculum_not_object_witness :
  let E := demo_env (Some (U "k")) [Content []; Content list_reply] in
  if logger silent_self
  then fst (_generate_curriculum RefJson.loads E silent_self demo_state1 demo_world1)
       = Raise AttributeError
  else exists (state' : State) (w' : World),
         _generate_curriculum RefJson.loads E silent_self demo_state1 demo_world1
         = (Ret state', w') /\
         fst (_enrich_resources RefJson.loads E silent_self state' w') = Raise AttributeError.
Proof.
  apply (curriculum_not_object RefJson.loads
           (demo_env (Some (U "k")) [Content []; Content list_reply]) silent_self
           demo_state1 demo_world1 list_reply (JArr [JInt 1; JInt 2])); reflexivity.
Defined.

Lemma enrich_reply_not_object_witness :
  let E := demo_env (Some (U "k")) [Content []; Content []; Content list_reply] in
  exists w' : World,
    for_enumerate (enrich_module RefJson.loads E demo_self (VRef 5) (VRef 0) (VRef 6))
      0 [VRef 2; VRef 3] demo_loop_world
    = (Raise AttributeError, w') /\
    model_calls w' = S (model_calls demo_loop_world).
Proof.
  apply (enrich_reply_not_object RefJson.loads
           (demo_env (Some (U "k")) [Content []; Content []; Content list_reply]) demo_self
           (VRef 5) (VRef 0) (VRef 6) 0 (VRef 2) [VRef 3] demo_loop_world
           [VStr (U "A"); VStr []; VStr (U "x, y"); VBool true; VBool true; VBool true]
           list_reply (JArr [JInt 1; JInt 2])).
  - vm_compute. reflexivity.
  - reflexivity.
  - vm_compute. reflexivity.
  - reflexivity.
Defined.

Lemma enrich_modules_unusable_witness :
  exists w' : World,
    _enrich_resources RefJson.loads (demo_env (Some (U "k")) []) demo_self fallback_state2
      text_modules_world
    = (Raise TypeError, w') /\
    model_calls w' = model_calls text_modules_world /\
    progress_trace w' = progress_trace text_modules_world ++
                          (if streaming demo_self then [75] else []).
Proof.
  apply (enrich_modules_unusable RefJson.loads (demo_env (Some (U "k")) []) demo_self
           fallback_state2 text_modules_world 2 [(U "modules", VStr (U "soon"))]
           (VStr (U "soon"))); reflexivity.
Defined.

Lemma enrich_untitled_module_witness :
  exists (e : exn) (w' : World),
    _enrich_resources RefJson.loads (demo_env (Some (U "k")) good_replies) demo_self
      fallback_state2 untitled_world
    = (Raise e, w').
Proof.
  apply (enrich_untitled_module RefJson.loads (demo_env (Some (U "k")) good_replies) demo_self
           fallback_state2 untitled_world 2 1 [(U "modules", VRef 1)] [VRef 0] (VRef 0)).
  - reflexivity.
  - reflexivity.
  - reflexivity.
  - reflexivity.
  - left. reflexivity.
  - reflexivity.
Defined.

Lemma enrich_accounting_witness :
  let E := demo_env (Some (U "k")) good_replies in
  exists (state' : State) (w' : World),
    _enrich_resources RefJson.loads E demo_self demo_state2 demo_world2 = (Ret state', w') /\
    (model_calls w' = (model_calls demo_world2 + length [VRef 2; VRef 3])%nat /\
     progress_trace w' = progress_trace demo_world2 ++
       (if streaming demo_self
        then 75 :: map (progress_at (length [VRef 2; VRef 3]))
                     (seq 1 (length [VRef 2; VRef 3]))
        else []) /\
     ([VRef 2; VRef 3] <> [] -> streaming demo_self = true ->
      exists t, progress_trace w' = t ++ [90])).
Proof.
  cbv zeta. eexists _, _. split; [vm_compute; reflexivity|].
  eapply (enrich_accounting RefJson.loads (demo_env (Some (U "k")) good_replies) demo_self
            demo_state2) with (ms := [VRef 2; VRef 3]) (lc := 5%nat) (lm := 4%nat)
            (dc := [(U "title", VStr (U "Rust")); (U "modules", VRef 4)]);
    [reflexivity | reflexivity | reflexivity | reflexivity | vm_compute; reflexivity].
Defined.

Lemma finalize_path_witness :
  let E := demo_env (Some (U "k")) [] in
  exists (state' : State) (w' : World),
    _finalize_path E silent_self fallback_state3 fallback_world3 = (Ret state', w') /\
    exists (lc lf : loc) (dc : list (pystr * val)) (created : pystr),
      curriculum_structure fallback_state3 = VRef lc /\
      store fallback_world3 !! lc = Some (ODict dc) /\
      store fallback_world3 !! lf = None /\
      state' = set_final_path fallback_state3 (VRef lf) /\
      store w' !! lf = Some (ODict (final_path_items fallback_state3 created)) /\
      store w' !! lc
      = Some (ODict (dict_set (U "modules") (enriched_modules fallback_state3) dc)) /\
      (forall l, l <> lc -> l <> lf -> store w' !! l = store fallback_world3 !! l) /\
      model_calls w' = model_calls fallback_world3.
Proof.
  cbv zeta. eexists _, _. split; [vm_compute; reflexivity|].
  eapply (finalize_path_spec (demo_env (Some (U "k")) []) silent_self fallback_state3).
  vm_compute. reflexivity.
Defined.

Lemma generate_final_path_witness :
  let E := demo_env (Some (U "k")) good_replies in
  let req := {| req_userId := Some (U "u1"); req_topic := Some (U "Rust");
                req_background := Some (U "knows C"); req_goalLevel := None;
                req_preferences := None; req_traceId := Some (U "t1") |} in
  exists (v : val) (w' : World),
    generate RefJson.loads E demo_self req empty_world = (Ret v, w') /\
    exists (lf lc le : loc) (a created : pystr) (prefs : val) (dc : list (pystr * val))
           (ms : list val),
      v = VRef lf /\
      store empty_world !! lf = None /\
      store w' !! lf
      = Some (ODict [(U "userId", VStr (U "u1"));
                     (U "topic", VStr (U "Rust"));
                     (U "background", VStr (U "knows C"));
                     (U "goalLevel", VStr (U "intermediate"));
                     (U "preferences", prefs);
                     (U "analysis", VStr a);
                     (U "curriculum", VRef lc);
                     (U "createdAt", VStr created);
                     (U "traceId", VStr (U "t1"))]) /\
      (forall p, None = Some p -> prefs = p) /\
      store w' !! lc = Some (ODict dc) /\
      dict_get (U "modules") dc = Some (VRef le) /\
      store w' !! le = Some (OList ms).
Proof.
  cbv zeta. eexists _, _. split; [vm_compute; reflexivity|].
  eapply (generate_final_path RefJson.loads (demo_env (Some (U "k")) good_replies) demo_self
            {| req_userId := Some (U "u1"); req_topic := Some (U "Rust");
               req_background := Some (U "knows C"); req_goalLevel := None;
               req_preferences := None; req_traceId := Some (U "t1") |} empty_world).
  vm_compute. reflexivity.
Defined.

Lemma interpolate_in_range_witness :
  exists p : Z,
    interpolate (Z.of_nat 0 + 1) (Z.of_nat 2) = Ret p /\
    p = 75 + (15 * (Z.of_nat 0 + 1)) / Z.of_nat 2 /\
    75 <= p <= 90 /\
    (1%nat = 2%nat -> p = 90) /\
    (forall idx', (idx' <= 0)%nat ->
       exists p', interpolate (Z.of_nat idx' + 1) (Z.of_nat 2) = Ret p' /\ p' <= p).
Proof. apply (interpolate_in_range 0 2). lia. Defined.

Lemma interpolate_float_witness :
  Binary64.interpolate (Z.of_nat 1) (Z.of_nat 3) = progress_at 3 1.
Proof. apply (interpolate_float 1 3); lia. Defined.

Lemma curriculum_decoded_witness :
  (exists fuel, read fuel (store demo_world2) (curriculum_structure demo_state2)
                = Some demo_curriculum) /\
  progress demo_state2 = 60 /\
  model_calls demo_world2 = S (model_calls demo_world1).
Proof.
  apply (curriculum_decoded RefJson.loads (demo_env (Some (U "k")) good_replies) silent_self
           demo_state1 demo_state2 demo_world1 demo_world2 curriculum_reply demo_curriculum).
  - reflexivity.
  - vm_compute. reflexivity.
  - vm_compute. reflexivity.
Defined.

Lemma enrich_resources_attached_witness :
  exists (w' : World) (x : val) (fuel : nat),
    attach_resources RefJson.loads (VRef 2) resources_reply demo_loop_world = (Ret tt, w') /\
    store w' !! 2%nat
    = Some (ODict (dict_set (U "resources") x
                     [(U "title", VStr (U "A")); (U "key_concepts", VRef 1)])) /\
    read fuel (store w') x
    = Some (JArr [JObj [(U "type", JStr (U "video")); (U "title", JStr (U "V"))]]) /\
    model_calls w' = model_calls demo_loop_world /\
    sink w' = sink demo_loop_world.
Proof.
  apply (enrich_resources_attached RefJson.loads 2 resources_reply demo_loop_world
           [(U "title", VStr (U "A")); (U "key_concepts", VRef 1)]
           [(U "resources",
             JArr [JObj [(U "type", JStr (U "video")); (U "title", JStr (U "V"))]])]
           (JArr [JObj [(U "type", JStr (U "video")); (U "title", JStr (U "V"))]])).
  - reflexivity.
  - vm_compute. reflexivity.
  - reflexivity.
Defined.
